(** * Request instrumentation of the app, auth and db services

    A shallow embedding of the endpoint handlers of
    [final-project/app.py], [final-project/auth.py], [final-project/db.py]
    and of their counterparts without instrumentation in
    [final-project/baseline], with the request statistics of
    [final-project/traffic-generator.py] and the retry loop of
    [lab4/app.py].

    A handler is a computation in a small monad [M] that threads the
    process state ([World]), may raise a Python exception ([Exn]) and
    writes the sequence of observable actions it performs ([Event]): tracer
    calls, metric observations, outbound HTTP calls and database calls.
    The [with] statement is [start_as_current_span], [try/except] is
    [try_except] and [try/finally] is [finally].

    Wall-clock durations ([time.time()] differences) are floating point and
    are not modelled: a histogram observation is its instrument and tag set.
    The trace holds the tracer and meter calls the handlers make; what the
    OpenTelemetry, FastAPI and httpx libraries do on their own (exporting,
    propagating trace context, recording an escaping exception on a span)
    is outside the repository and is not part of it. *)

From Stdlib Require Import List String Ascii ZArith Bool Arith Lia Sorted Permutation.
Import ListNotations.
Open Scope string_scope.

Set Implicit Arguments.
Set Warnings "-register-all".

(* ------------------------------------------------------------------ *)
(** ** Values *)

(** Decoded JSON, as [response.json()] and FastAPI's [dict] bodies give it. *)
Inductive Json : Type :=
| JNull
| JBool (b : bool)
| JInt (z : Z)
| JStr (s : string)
| JList (l : list Json)
| JDict (d : list (string * Json)).

Fixpoint lookup {V : Type} (k : string) (d : list (string * V)) : option V :=
  match d with
  | [] => None
  | (k', v) :: rest => if String.eqb k k' then Some v else lookup k rest
  end.

(** Python truthiness of a decoded JSON value ([not x] is its negation). *)
Definition truthy (j : Json) : bool :=
  match j with
  | JNull => false
  | JBool b => b
  | JInt z => negb (z =? 0)%Z
  | JStr s => negb (String.eqb s "")
  | JList l => match l with [] => false | _ => true end
  | JDict d => match d with [] => false | _ => true end
  end.

(** [authorization: str = Header(None)]: the header is absent ([None]) or
    carries a string; [not authorization] holds for both [None] and [""]. *)
Definition not_ (authorization : option string) : bool :=
  match authorization with
  | None => true
  | Some s => String.eqb s ""
  end.

(** The value sent as [headers={"Authorization": authorization}]. *)
Definition header_value (authorization : option string) : string :=
  match authorization with
  | None => ""
  | Some s => s
  end.

(* ------------------------------------------------------------------ *)
(** ** HTTP *)

Inductive Service : Type := AuthService | DbService.
Inductive Method : Type := GET | POST | DELETE.

(** An outbound call [client.post(f"{X_SERVICE_URL}{path}", json=.., headers=.., timeout=..)].
    The timeout is in seconds. *)
Record HttpRequest : Type := mkRequest {
  target : Service;
  method : Method;
  path : string;
  body : option Json;
  headers : list (string * string);
  timeout : Z
}.

Record Response : Type := mkResponse {
  status_code : Z;
  json : option Json   (* [None]: the body does not decode as JSON *)
}.

(** Subclasses of [httpx.RequestError] that a call can raise. *)
Inductive RequestErrorKind : Type :=
| ConnectError
| ConnectTimeout
| ReadTimeout
| WriteTimeout
| PoolTimeout
| ReadError
| RemoteProtocolError.

Inductive HttpOutcome : Type :=
| Responded (r : Response)
| Failed (k : RequestErrorKind).

(* ------------------------------------------------------------------ *)
(** ** Exceptions *)

Inductive Exn : Type :=
| HTTPException (status : Z) (detail : string)
| RequestError (k : RequestErrorKind)
| JSONDecodeError
| KeyError (k : string)
| TypeError
| AttributeError
| SqliteError (msg : string)        (* sqlite3.Error other than IntegrityError *)
| IntegrityError (msg : string)     (* sqlite3.IntegrityError *)
| ExpiredSignatureError             (* jwt.ExpiredSignatureError *)
| InvalidTokenError (msg : string)  (* jwt.InvalidTokenError *)
| IndexError
| OtherError (name : string).

Inductive Result (A : Type) : Type :=
| Ok (a : A)
| Raise (e : Exn).
Arguments Ok {A} a.
Arguments Raise {A} e.

Definition is_RequestError (e : Exn) : bool :=
  match e with RequestError _ => true | _ => false end.

(** [except sqlite3.Error]: IntegrityError is a subclass. *)
Definition is_sqlite3_Error (e : Exn) : option string :=
  match e with
  | SqliteError m => Some m
  | IntegrityError m => Some m
  | _ => None
  end.


(* ------------------------------------------------------------------ *)
(** ** Telemetry and other observable actions *)

Abbreviation SpanId := nat (only parsing).
Definition Tags := list (string * string).

Inductive StatusCode : Type := UNSET | OK | ERROR.

Inductive AttrValue : Type :=
| AStr (s : string)
| AInt (z : Z)
| ABool (b : bool)
| AJson (j : Json).

Inductive SqlStatement : Type :=
| InsertItem (id data : string) (created_at updated_at : nat)
| SelectItem (id : string)
| SelectItems (limit : Z)
| DeleteItem (id : string)
| SelectUser (username : string)
| InsertUser (username password : string).

Inductive Event : Type :=
| CounterAdd (instrument : string) (amount : Z) (tags : Tags)
| HistogramRecord (instrument : string) (tags : Tags)
| SpanStart (id : SpanId) (name : string)
| SpanEnd (id : SpanId)
| SetAttribute (id : SpanId) (key : string) (v : AttrValue)
| SetStatus (id : SpanId) (code : StatusCode) (description : string)
| HttpCall (r : HttpRequest)
| Sleep (ms : Z)
| DbConnect
| DbExecute (s : SqlStatement)
| DbCommit
| DbRollback
| DbClose.

(* ------------------------------------------------------------------ *)
(** ** Process state *)

Record ItemRow : Type := mkItem {
  row_id : string;
  row_data : string;
  row_created_at : nat;
  row_updated_at : nat
}.

(** The two tables of [init_db].  The [created_at] column of [users] is
    never read and is left out. *)
Record Database : Type := mkDatabase {
  items : list ItemRow;
  users : list (string * string)
}.

Inductive JwtOutcome : Type :=
| Decoded (payload : list (string * Json))
| Expired
| Invalid (msg : string).

(** What the process does not decide: the collaborators' answers, the
    configuration read at start-up and the library primitives the spec
    treats as opaque (JWT signing, uuid generation, JSON text). *)
Record Env : Type := mkEnv {
  network : nat -> HttpOutcome;          (* outcome of the n-th outbound call *)
  ARTIFICIAL_LATENCY_MS : Z;
  sqlite_fault : nat -> option string;   (* the n-th sqlite3 operation raises sqlite3.Error *)
  uuid4 : nat -> string;
  jwt_encode : list (string * Json) -> string;
  jwt_decode : string -> JwtOutcome;
  json_dumps : Json -> string;
  json_loads : string -> option Json;
  repr : Json -> string;                 (* str() of a value that is not a string *)
  sqlite_bind : Json -> Result string    (* the text sqlite3 stores for a bound value *)
}.

Record World : Type := mkWorld {
  env : Env;
  calls : nat;             (* outbound calls issued so far *)
  next_span : SpanId;      (* spans started so far *)
  now : nat;               (* logical clock behind datetime.utcnow() *)
  sqlite_ops : nat;        (* sqlite3 operations issued so far *)
  uuids : nat;             (* uuids drawn so far *)
  committed : Database;    (* the database file *)
  session : Database       (* what the open connection sees *)
}.

Definition set_calls (n : nat) (w : World) : World :=
  mkWorld (env w) n (next_span w) (now w) (sqlite_ops w) (uuids w) (committed w) (session w).
Definition set_next_span (n : SpanId) (w : World) : World :=
  mkWorld (env w) (calls w) n (now w) (sqlite_ops w) (uuids w) (committed w) (session w).
Definition set_now (n : nat) (w : World) : World :=
  mkWorld (env w) (calls w) (next_span w) n (sqlite_ops w) (uuids w) (committed w) (session w).
Definition set_sqlite_ops (n : nat) (w : World) : World :=
  mkWorld (env w) (calls w) (next_span w) (now w) n (uuids w) (committed w) (session w).
Definition set_uuids (n : nat) (w : World) : World :=
  mkWorld (env w) (calls w) (next_span w) (now w) (sqlite_ops w) n (committed w) (session w).
Definition set_committed (d : Database) (w : World) : World :=
  mkWorld (env w) (calls w) (next_span w) (now w) (sqlite_ops w) (uuids w) d (session w).
Definition set_session (d : Database) (w : World) : World :=
  mkWorld (env w) (calls w) (next_span w) (now w) (sqlite_ops w) (uuids w) (committed w) d.

(* ------------------------------------------------------------------ *)
(** ** The monad *)

Record Run (A : Type) : Type := mkRun {
  result : Result A;
  final : World;
  trace : list Event
}.

Definition M (A : Type) : Type := World -> Run A.

Definition ret {A} (a : A) : M A := fun w => mkRun (Ok a) w [].

Definition raise {A} (e : Exn) : M A := fun w => mkRun (Raise e) w [].

Definition bind {A B} (m : M A) (f : A -> M B) : M B := fun w =>
  match m w with
  | mkRun (Ok a) w1 t1 =>
      match f a w1 with
      | mkRun r w2 t2 => mkRun r w2 (t1 ++ t2)
      end
  | mkRun (Raise e) w1 t1 => mkRun (Raise e) w1 t1
  end.

Notation "x <- c1 ;; c2" := (bind c1 (fun x => c2))
  (at level 61, c1 at next level, right associativity).
Notation "c1 ;; c2" := (bind c1 (fun _ => c2))
  (at level 61, right associativity).

Definition emit (ev : Event) : M unit := fun w => mkRun (Ok tt) w [ev].

Definition gets {A} (f : World -> A) : M A := fun w => mkRun (Ok (f w)) w [].

Definition modify (f : World -> World) : M unit := fun w => mkRun (Ok tt) (f w) [].

(** [if c: body] with no else branch. *)
Definition when (c : bool) (body : M unit) : M unit :=
  if c then body else ret tt.

(** [try: m  except ...: h e].  [h e = None] when no clause matches [e]. *)
Definition try_except {A} (m : M A) (h : Exn -> option (M A)) : M A := fun w =>
  match m w with
  | mkRun (Ok a) w1 t1 => mkRun (Ok a) w1 t1
  | mkRun (Raise e) w1 t1 =>
      match h e with
      | Some k =>
          match k w1 with
          | mkRun r w2 t2 => mkRun r w2 (t1 ++ t2)
          end
      | None => mkRun (Raise e) w1 t1
      end
  end.

(** [try: m  finally: c].  An exception of [c] replaces the outcome of [m]. *)
Definition finally {A} (m : M A) (c : M unit) : M A := fun w =>
  match m w with
  | mkRun r w1 t1 =>
      match c w1 with
      | mkRun (Ok _) w2 t2 => mkRun r w2 (t1 ++ t2)
      | mkRun (Raise e) w2 t2 => mkRun (Raise e) w2 (t1 ++ t2)
      end
  end.

(** [for x in xs: acc = body x acc], the accumulator standing for the
    variables the loop body mutates. *)
Fixpoint for_each {A S} (xs : list A) (body : A -> S -> M S) (acc : S) : M S :=
  match xs with
  | [] => ret acc
  | x :: rest => acc' <- body x acc ;; for_each rest body acc'
  end.

Fixpoint enumerate_from {A} (n : nat) (xs : list A) : list (nat * A) :=
  match xs with
  | [] => []
  | x :: rest => (n, x) :: enumerate_from (S n) rest
  end.
Definition enumerate {A} (xs : list A) := enumerate_from 0 xs.

(* ------------------------------------------------------------------ *)
(** ** Tracer, meter and HTTP client *)

(** [with tracer.start_as_current_span(name) as span: body span].  The span
    is ended when the block is left, by return or by exception. *)
Definition start_as_current_span {A} (name : string) (body : SpanId -> M A) : M A :=
  span <- gets next_span ;;
  modify (set_next_span (S span)) ;;
  emit (SpanStart span name) ;;
  finally (body span) (emit (SpanEnd span)).

Definition set_attribute (span : SpanId) (key : string) (v : AttrValue) : M unit :=
  emit (SetAttribute span key v).

(** [span.set_status(trace.Status(code, description))] *)
Definition set_status (span : SpanId) (code : StatusCode) (description : string) : M unit :=
  emit (SetStatus span code description).

(** The instruments of [instrument_fastapi]. *)
Definition request_counter_add (amount : Z) (tags : Tags) : M unit :=
  emit (CounterAdd "http_requests_total" amount tags).
Definition request_duration_record (tags : Tags) : M unit :=
  emit (HistogramRecord "http_request_duration_seconds" tags).

(** One outbound call: the network answers or the call raises a
    [httpx.RequestError]. *)
Definition send (r : HttpRequest) : M Response := fun w =>
  let w' := set_calls (S (calls w)) w in
  match network (env w) (calls w) with
  | Responded resp => mkRun (Ok resp) w' [HttpCall r]
  | Failed k => mkRun (Raise (RequestError k)) w' [HttpCall r]
  end.

Definition client_post (svc : Service) (p : string) (js : option Json)
    (hs : list (string * string)) (t : Z) : M Response :=
  send (mkRequest svc POST p js hs t).

Definition client_get (svc : Service) (p : string)
    (hs : list (string * string)) (t : Z) : M Response :=
  send (mkRequest svc GET p None hs t).

(** [response.json()] *)
Definition response_json (r : Response) : M Json :=
  match json r with
  | Some j => ret j
  | None => raise JSONDecodeError
  end.

(** [value[key]] *)
Definition subscript (value : Json) (key : string) : M Json :=
  match value with
  | JDict d => match lookup key d with
               | Some v => ret v
               | None => raise (KeyError key)
               end
  | _ => raise TypeError
  end.

(** [value.get(key, default)] *)
Definition dict_get (value : Json) (key : string) (default : Json) : M Json :=
  match value with
  | JDict d => match lookup key d with
               | Some v => ret v
               | None => ret default
               end
  | _ => raise AttributeError
  end.

(** What FastAPI sends for the outcome of a handler: the returned value
    with status 200, the status and detail of an [HTTPException], and 500
    for any other exception. *)
Definition http_response (r : Result Json) : Z * Json :=
  match r with
  | Ok j => (200%Z, j)
  | Raise (HTTPException s d) => (s, JDict [("detail", JStr d)])
  | Raise _ => (500%Z, JStr "Internal Server Error")
  end.

Definition http_status (r : Result Json) : Z := fst (http_response r).

(* ------------------------------------------------------------------ *)
(** ** app.py *)

Module App.

(** The token validation block.  The source repeats it verbatim in each of
    the five authenticated handlers; [span] is the handler's root span. *)
Definition validate_token (span : SpanId) (authorization : option string) : M unit :=
  start_as_current_span "app.validate_token" (fun auth_span =>
    set_attribute auth_span "service" (AStr "auth-service") ;;
    try_except
      (auth_response <- client_post AuthService "/validate" None
                          [("Authorization", header_value authorization)] 5 ;;
       when (negb (status_code auth_response =? 200)%Z)
         (set_status auth_span ERROR "Invalid token" ;;
          set_status span ERROR "Invalid token" ;;
          raise (HTTPException 401 "Invalid token")))
      (fun e =>
         if is_RequestError e then
           Some (set_status auth_span ERROR "Auth service unavailable" ;;
                 set_status span ERROR "Auth service unavailable" ;;
                 raise (HTTPException 503 "Auth service unavailable"))
         else None)).

(** [if not authorization: ...] at the head of every handler. *)
Definition require_authorization (span : SpanId) (authorization : option string) : M unit :=
  when (not_ authorization)
    (set_status span ERROR "Missing authorization" ;;
     raise (HTTPException 401 "Missing authorization header")).

Definition root : M Json :=
  ret (JDict [("message", JStr "Application Service"); ("status", JStr "running")]).

Definition health : M Json :=
  ret (JDict [("status", JStr "healthy")]).

Definition create_data (data : Json) (authorization : option string) : M Json :=
  request_counter_add 1 [("method", "POST"); ("endpoint", "/api/data")] ;;
  start_as_current_span "app.create_data" (fun span =>
    set_attribute span "http.method" (AStr "POST") ;;
    set_attribute span "http.route" (AStr "/api/data") ;;
    require_authorization span authorization ;;
    validate_token span authorization ;;
    start_as_current_span "app.store_data" (fun db_span =>
      set_attribute db_span "service" (AStr "db-service") ;;
      try_except
        (db_response <- client_post DbService "/store" (Some data)
                          [("Authorization", header_value authorization)] 5 ;;
         when (negb (status_code db_response =? 200)%Z)
           (set_status db_span ERROR "Database operation failed" ;;
            set_status span ERROR "Database operation failed" ;;
            raise (HTTPException 500 "Database operation failed")) ;;
         result <- response_json db_response ;;
         id <- dict_get result "id" (JStr "") ;;
         set_attribute span "item.id" (AJson id) ;;
         request_duration_record
           [("method", "POST"); ("endpoint", "/api/data"); ("status", "200")] ;;
         ret result)
        (fun e =>
           if is_RequestError e then
             Some (set_status db_span ERROR "Database service unavailable" ;;
                   set_status span ERROR "Database service unavailable" ;;
                   raise (HTTPException 503 "Database service unavailable"))
           else None))).

Definition get_data (item_id : string) (authorization : option string) : M Json :=
  request_counter_add 1 [("method", "GET"); ("endpoint", "/api/data/{id}")] ;;
  start_as_current_span "app.get_data" (fun span =>
    set_attribute span "http.method" (AStr "GET") ;;
    set_attribute span "http.route" (AStr "/api/data/{item_id}") ;;
    set_attribute span "item.id" (AStr item_id) ;;
    require_authorization span authorization ;;
    validate_token span authorization ;;
    start_as_current_span "app.retrieve_data" (fun db_span =>
      set_attribute db_span "service" (AStr "db-service") ;;
      try_except
        (db_response <- client_get DbService ("/retrieve/" ++ item_id)
                          [("Authorization", header_value authorization)] 5 ;;
         when (status_code db_response =? 404)%Z
           (set_status db_span ERROR "Item not found" ;;
            set_status span ERROR "Item not found" ;;
            raise (HTTPException 404 "Item not found")) ;;
         when (negb (status_code db_response =? 200)%Z)
           (set_status db_span ERROR "Database operation failed" ;;
            set_status span ERROR "Database operation failed" ;;
            raise (HTTPException 500 "Database operation failed")) ;;
         result <- response_json db_response ;;
         request_duration_record
           [("method", "GET"); ("endpoint", "/api/data/{id}"); ("status", "200")] ;;
         ret result)
        (fun e =>
           if is_RequestError e then
             Some (set_status db_span ERROR "Database service unavailable" ;;
                   set_status span ERROR "Database service unavailable" ;;
                   raise (HTTPException 503 "Database service unavailable"))
           else None))).

Definition preset_data : list (string * Json) :=
  [ ("welcome", JDict [("message", JStr "Welcome to the microservices application");
                       ("version", JStr "1.0")]);
    ("status", JDict [("services", JList [JStr "app"; JStr "auth"; JStr "db"]);
                      ("status", JStr "operational")]);
    ("info", JDict [("description", JStr "This is a microservices demo with OpenTelemetry");
                    ("author", JStr "CNIT48101 Team")]) ].

(** [str(list(d.keys()))] for keys without quotes or escapes. *)
Definition keys_repr {V} (d : list (string * V)) : string :=
  "[" ++ String.concat ", " (map (fun kv => "'" ++ fst kv ++ "'") d) ++ "]".

Definition get_preset_data (preset_id : string) (authorization : option string) : M Json :=
  request_counter_add 1 [("method", "GET"); ("endpoint", "/api/preset/{id}")] ;;
  start_as_current_span "app.get_preset" (fun span =>
    set_attribute span "http.method" (AStr "GET") ;;
    set_attribute span "http.route" (AStr "/api/preset/{preset_id}") ;;
    set_attribute span "preset.id" (AStr preset_id) ;;
    require_authorization span authorization ;;
    validate_token span authorization ;;
    match lookup preset_id preset_data with
    | Some d =>
        set_attribute span "preset.found" (ABool true) ;;
        request_duration_record
          [("method", "GET"); ("endpoint", "/api/preset/{id}"); ("status", "200")] ;;
        ret (JDict [("preset_id", JStr preset_id); ("data", d)])
    | None =>
        set_status span ERROR "Preset not found" ;;
        raise (HTTPException 404
                 ("Preset '" ++ preset_id ++ "' not found. Available: "
                  ++ keys_repr preset_data))
    end).

Definition list_presets (authorization : option string) : M Json :=
  request_counter_add 1 [("method", "GET"); ("endpoint", "/api/presets")] ;;
  start_as_current_span "app.list_presets" (fun span =>
    set_attribute span "http.method" (AStr "GET") ;;
    set_attribute span "http.route" (AStr "/api/presets") ;;
    require_authorization span authorization ;;
    validate_token span authorization ;;
    request_duration_record
      [("method", "GET"); ("endpoint", "/api/presets"); ("status", "200")] ;;
    ret (JDict [("available_presets", JList [JStr "welcome"; JStr "status"; JStr "info"]);
                ("description",
                 JStr "Use /api/preset/{preset_id} to retrieve specific preset data")])).

Definition seed_items : list Json :=
  [ JDict [("name", JStr "Sample Item 1"); ("type", JStr "test"); ("value", JInt 100)];
    JDict [("name", JStr "Sample Item 2"); ("type", JStr "demo"); ("value", JInt 200)];
    JDict [("name", JStr "Sample Item 3"); ("type", JStr "example"); ("value", JInt 300)] ].

(** The body of [for idx, item in enumerate(seed_items)]; [stored_ids] is
    the list the loop appends to. *)
Definition seed_item (authorization : option string) (entry : nat * Json)
    (stored_ids : list Json) : M (list Json) :=
  let (idx, item) := entry in
  start_as_current_span "app.seed_item" (fun item_span =>
    set_attribute item_span "item.index" (AInt (Z.of_nat idx)) ;;
    try_except
      (db_response <- client_post DbService "/store" (Some item)
                        [("Authorization", header_value authorization)] 5 ;;
       if (status_code db_response =? 200)%Z then
         js <- response_json db_response ;;
         item_id <- subscript js "id" ;;
         set_attribute item_span "item.id" (AJson item_id) ;;
         ret (stored_ids ++ [item_id])%list
       else ret stored_ids)
      (fun e =>
         if is_RequestError e then
           Some (set_status item_span ERROR "Failed to store item" ;;
                 ret stored_ids)
         else None)).

Definition seed_preset_data (authorization : option string) : M Json :=
  request_counter_add 1 [("method", "POST"); ("endpoint", "/api/seed")] ;;
  start_as_current_span "app.seed_data" (fun span =>
    set_attribute span "http.method" (AStr "POST") ;;
    set_attribute span "http.route" (AStr "/api/seed") ;;
    require_authorization span authorization ;;
    validate_token span authorization ;;
    stored_ids <-
      start_as_current_span "app.seed_items" (fun seed_span =>
        set_attribute seed_span "items.count" (AInt (Z.of_nat (List.length seed_items))) ;;
        for_each (enumerate seed_items) (seed_item authorization) []) ;;
    set_attribute span "items.created" (AInt (Z.of_nat (List.length stored_ids))) ;;
    request_duration_record
      [("method", "POST"); ("endpoint", "/api/seed"); ("status", "200")] ;;
    ret (JDict [("status", JStr "seeded");
                ("items_created", JInt (Z.of_nat (List.length stored_ids)));
                ("item_ids", JList stored_ids)])).

(** The authenticated endpoints of the service. *)
Inductive Request : Type :=
| CreateData (data : Json) (authorization : option string)
| GetData (item_id : string) (authorization : option string)
| GetPresetData (preset_id : string) (authorization : option string)
| ListPresets (authorization : option string)
| SeedPresetData (authorization : option string).

Definition handle (r : Request) : M Json :=
  match r with
  | CreateData data a => create_data data a
  | GetData item_id a => get_data item_id a
  | GetPresetData preset_id a => get_preset_data preset_id a
  | ListPresets a => list_presets a
  | SeedPresetData a => seed_preset_data a
  end.

Definition authorization_of (r : Request) : option string :=
  match r with
  | CreateData _ a | GetData _ a | GetPresetData _ a | ListPresets a | SeedPresetData a => a
  end.

Definition http_method (r : Request) : string :=
  match r with
  | CreateData _ _ | SeedPresetData _ => "POST"
  | GetData _ _ | GetPresetData _ _ | ListPresets _ => "GET"
  end.

(** The route as the metric tags name it. *)
Definition endpoint (r : Request) : string :=
  match r with
  | CreateData _ _ => "/api/data"
  | GetData _ _ => "/api/data/{id}"
  | GetPresetData _ _ => "/api/preset/{id}"
  | ListPresets _ => "/api/presets"
  | SeedPresetData _ => "/api/seed"
  end.

(** The name of the handler's root span. *)
Definition root_span_name (r : Request) : string :=
  match r with
  | CreateData _ _ => "app.create_data"
  | GetData _ _ => "app.get_data"
  | GetPresetData _ _ => "app.get_preset"
  | ListPresets _ => "app.list_presets"
  | SeedPresetData _ => "app.seed_data"
  end.

End App.

(* ------------------------------------------------------------------ *)
(** ** baseline/app.py *)

Module Baseline.

Definition get_data (item_id : string) (authorization : option string) : M Json :=
  when (not_ authorization)
    (raise (HTTPException 401 "Missing authorization header")) ;;
  try_except
    (auth_response <- client_post AuthService "/validate" None
                        [("Authorization", header_value authorization)] 5 ;;
     when (negb (status_code auth_response =? 200)%Z)
       (raise (HTTPException 401 "Invalid token")))
    (fun e =>
       if is_RequestError e then
         Some (raise (HTTPException 503 "Auth service unavailable"))
       else None) ;;
  try_except
    (db_response <- client_get DbService ("/retrieve/" ++ item_id)
                      [("Authorization", header_value authorization)] 5 ;;
     when (status_code db_response =? 404)%Z
       (raise (HTTPException 404 "Item not found")) ;;
     when (negb (status_code db_response =? 200)%Z)
       (raise (HTTPException 500 "Database operation failed")) ;;
     response_json db_response)
    (fun e =>
       if is_RequestError e then
         Some (raise (HTTPException 503 "Database service unavailable"))
       else None).

End Baseline.

(* ------------------------------------------------------------------ *)
(** ** Primitives of auth.py and db.py *)

(** Python [==] on decoded JSON: [True == 1], lists compare element by
    element and dicts key by key. *)
Fixpoint py_eq (a b : Json) {struct a} : bool :=
  match a, b with
  | JNull, JNull => true
  | JBool x, JBool y => Bool.eqb x y
  | JBool x, JInt z => (z =? (if x then 1 else 0))%Z
  | JInt z, JBool x => (z =? (if x then 1 else 0))%Z
  | JInt x, JInt y => (x =? y)%Z
  | JStr x, JStr y => String.eqb x y
  | JList xs, JList ys =>
      (fix go (xs ys : list Json) {struct xs} : bool :=
         match xs, ys with
         | [], [] => true
         | x :: xs', y :: ys' => py_eq x y && go xs' ys'
         | _, _ => false
         end) xs ys
  | JDict d1, JDict d2 =>
      (List.length d1 =? List.length d2)%nat &&
      (fix go (d : list (string * Json)) {struct d} : bool :=
         match d with
         | [] => true
         | (k, v) :: d' =>
             match lookup k d2 with
             | Some v' => py_eq v v'
             | None => false
             end && go d'
         end) d1
  | _, _ => false
  end.

(** [d.get(key)] on a [dict] argument: [None] when the key is absent. *)
Definition get (d : list (string * Json)) (key : string) : Json :=
  match lookup key d with
  | Some v => v
  | None => JNull
  end.

(** [f"{value}"] *)
Definition format_value (e : Env) (value : Json) : string :=
  match value with
  | JStr s => s
  | _ => repr e value
  end.

(** [s.startswith(p)] *)
Definition startswith (p s : string) : bool := String.prefix p s.

(** [s.split(" ")]: one field per separating space, empty fields kept. *)
Fixpoint split_space (s : string) : list string :=
  match s with
  | EmptyString => [EmptyString]
  | String c rest =>
      if Ascii.eqb c " "%char then EmptyString :: split_space rest
      else match split_space rest with
           | [] => [String c EmptyString]
           | w :: ws => String c w :: ws
           end
  end.

(** [xs[i]] *)
Definition index {A} (xs : list A) (i : nat) : M A :=
  match nth_error xs i with
  | Some x => ret x
  | None => raise IndexError
  end.

(** [datetime.utcnow()], a reading of a clock that moves on. *)
Definition utcnow : M nat := fun w => mkRun (Ok (now w)) (set_now (S (now w)) w) [].

(** [jwt.decode(token, SECRET_KEY, algorithms=[ALGORITHM])] *)
Definition jwt_decode_ (token : string) : M (list (string * Json)) := fun w =>
  match jwt_decode (env w) token with
  | Decoded payload => mkRun (Ok payload) w []
  | Expired => mkRun (Raise ExpiredSignatureError) w []
  | Invalid msg => mkRun (Raise (InvalidTokenError msg)) w []
  end.

(** [str(uuid.uuid4())] *)
Definition new_uuid : M string := fun w =>
  mkRun (Ok (uuid4 (env w) (uuids w))) (set_uuids (S (uuids w)) w) [].

Definition db_operations_counter_add (amount : Z) (tags : Tags) : M unit :=
  emit (CounterAdd "db_operations_total" amount tags).
Definition db_operation_duration_record (tags : Tags) : M unit :=
  emit (HistogramRecord "db_operation_duration_seconds" tags).

(** One sqlite3 operation: it is attempted, and raises when the
    environment makes it fail. *)
Definition sqlite_op (ev : Event) : M unit := fun w =>
  let w' := set_sqlite_ops (S (sqlite_ops w)) w in
  match sqlite_fault (env w) (sqlite_ops w) with
  | Some msg => mkRun (Raise (SqliteError msg)) w' [ev]
  | None => mkRun (Ok tt) w' [ev]
  end.

(** [get_db_connection()]: a connection sees the committed database. *)
Definition get_db_connection : M unit :=
  sqlite_op DbConnect ;;
  modify (fun w => set_session (committed w) w).

Definition commit : M unit :=
  sqlite_op DbCommit ;;
  modify (fun w => set_committed (session w) w).

Definition rollback : M unit :=
  emit DbRollback ;;
  modify (fun w => set_session (committed w) w).

(** Closing drops what was not committed. *)
Definition close : M unit :=
  emit DbClose ;;
  modify (fun w => set_session (committed w) w).

Definition has_item (id : string) (d : Database) : bool :=
  existsb (fun r => String.eqb (row_id r) id) (items d).

(** [INSERT INTO items]; [id] is the primary key. *)
Definition execute_insert_item (id data : string) (created_at updated_at : nat) : M unit :=
  sqlite_op (DbExecute (InsertItem id data created_at updated_at)) ;;
  d <- gets session ;;
  if has_item id d then raise (IntegrityError "UNIQUE constraint failed: items.id")
  else modify (set_session
                 (mkDatabase (items d ++ [mkItem id data created_at updated_at])%list (users d))).

(** [SELECT ... FROM items WHERE id = ?] followed by [fetchone()] *)
Definition execute_select_item (id : string) : M (option ItemRow) :=
  sqlite_op (DbExecute (SelectItem id)) ;;
  d <- gets session ;;
  ret (find (fun r => String.eqb (row_id r) id) (items d)).

Fixpoint insert_desc (r : ItemRow) (rs : list ItemRow) : list ItemRow :=
  match rs with
  | [] => [r]
  | r' :: rest =>
      if (row_created_at r' <? row_created_at r)%nat then r :: rs
      else r' :: insert_desc r rest
  end.

(** [ORDER BY created_at DESC]; rows created at the same time keep their
    insertion order. *)
Definition order_by_created_at_desc (rs : list ItemRow) : list ItemRow :=
  fold_right insert_desc [] rs.

(** [LIMIT ?]: a negative limit is no limit. *)
Definition limit_rows (limit : Z) (rs : list ItemRow) : list ItemRow :=
  if (limit <? 0)%Z then rs else firstn (Z.to_nat limit) rs.

(** [SELECT ... FROM items ORDER BY created_at DESC LIMIT ?] followed by [fetchall()] *)
Definition execute_select_items (limit : Z) : M (list ItemRow) :=
  sqlite_op (DbExecute (SelectItems limit)) ;;
  d <- gets session ;;
  ret (limit_rows limit (order_by_created_at_desc (items d))).

(** [DELETE FROM items WHERE id = ?]; the result is [cursor.rowcount]. *)
Definition execute_delete_item (id : string) : M nat :=
  sqlite_op (DbExecute (DeleteItem id)) ;;
  d <- gets session ;;
  modify (set_session
            (mkDatabase (filter (fun r => negb (String.eqb (row_id r) id)) (items d)) (users d))) ;;
  ret (List.length (filter (fun r => String.eqb (row_id r) id) (items d))).

(** [SELECT username, password FROM users WHERE username = ?] followed by [fetchone()] *)
Definition execute_select_user (username : string) : M (option (string * string)) :=
  sqlite_op (DbExecute (SelectUser username)) ;;
  d <- gets session ;;
  ret (find (fun u => String.eqb (fst u) username) (users d)).

(** Binding a Python value to a statement parameter. *)
Definition bind_parameter (v : Json) : M string := fun w =>
  mkRun (sqlite_bind (env w) v) w [].

(** [INSERT INTO users]; [username] is the primary key. *)
Definition execute_insert_user (username password : Json) : M unit :=
  u <- bind_parameter username ;;
  p <- bind_parameter password ;;
  sqlite_op (DbExecute (InsertUser u p)) ;;
  d <- gets session ;;
  if existsb (fun r => String.eqb (fst r) u) (users d)
  then raise (IntegrityError "UNIQUE constraint failed: users.username")
  else modify (set_session (mkDatabase (items d) (users d ++ [(u, p)])%list)).

(** [inject_latency()] *)
Definition inject_latency : M unit :=
  ms <- gets (fun w => ARTIFICIAL_LATENCY_MS (env w)) ;;
  when (0 <? ms)%Z (emit (Sleep ms)).

(** [json.loads(row["data"])], the text itself when it does not decode. *)
Definition loads_or_text (e : Env) (text : string) : Json :=
  match json_loads e text with
  | Some j => j
  | None => JStr text
  end.

Definition JNat (n : nat) : Json := JInt (Z.of_nat n).

(* ------------------------------------------------------------------ *)
(** ** auth.py *)

Module Auth.

Definition TOKEN_EXPIRY_MINUTES : Z := 30.

Definition root : M Json :=
  ret (JDict [("message", JStr "Auth Service"); ("status", JStr "running")]).

Definition health : M Json :=
  ret (JDict [("status", JStr "healthy")]).

Definition login (credentials : list (string * Json)) : M Json :=
  request_counter_add 1 [("method", "POST"); ("endpoint", "/login")] ;;
  start_as_current_span "auth.login" (fun span =>
    set_attribute span "http.method" (AStr "POST") ;;
    set_attribute span "http.route" (AStr "/login") ;;
    let username := get credentials "username" in
    let password := get credentials "password" in
    when (negb (truthy username) || negb (truthy password))
      (set_status span ERROR "Missing credentials" ;;
       raise (HTTPException 401 "Username and password required")) ;;
    set_attribute span "user.username" (AJson username) ;;
    start_as_current_span "auth.validate_credentials" (fun db_span =>
      set_attribute db_span "service" (AStr "db-service") ;;
      try_except
        (user_path <- gets (fun w => "/user/" ++ format_value (env w) username) ;;
         db_response <- client_get DbService user_path [] 5 ;;
         when (negb (status_code db_response =? 200)%Z)
           (set_status db_span ERROR "User not found" ;;
            set_status span ERROR "Invalid credentials" ;;
            raise (HTTPException 401 "Invalid credentials")) ;;
         user_data <- response_json db_response ;;
         stored <- dict_get user_data "password" JNull ;;
         when (negb (py_eq stored password))
           (set_status db_span ERROR "Invalid password" ;;
            set_status span ERROR "Invalid credentials" ;;
            raise (HTTPException 401 "Invalid credentials")) ;;
         start_as_current_span "auth.generate_token" (fun token_span =>
           t <- utcnow ;;
           let expiration := (Z.of_nat t + TOKEN_EXPIRY_MINUTES * 60)%Z in
           iat <- utcnow ;;
           token <- gets (fun w => jwt_encode (env w)
                                     [("username", username);
                                      ("exp", JInt expiration);
                                      ("iat", JInt (Z.of_nat iat))]) ;;
           set_attribute token_span "token.expires_in_minutes" (AInt TOKEN_EXPIRY_MINUTES) ;;
           set_attribute span "auth.success" (ABool true) ;;
           request_duration_record
             [("method", "POST"); ("endpoint", "/login"); ("status", "200")] ;;
           ret (JDict [("token", JStr token);
                       ("expires_in", JInt (TOKEN_EXPIRY_MINUTES * 60))])))
        (fun e =>
           if is_RequestError e then
             Some (set_status db_span ERROR "Database service unavailable" ;;
                   set_status span ERROR "Database service unavailable" ;;
                   raise (HTTPException 503 "Database service unavailable"))
           else None))).

(** The token of a ["Bearer <token>"] header, the header itself otherwise. *)
Definition bearer_token (authorization : string) : M string :=
  if startswith "Bearer " authorization
  then index (split_space authorization) 1
  else ret authorization.

(** The [except] clauses shared by [validate_token] and [token_info]. *)
Definition on_jwt_error {A} (span : SpanId) (e : Exn) : option (M A) :=
  match e with
  | ExpiredSignatureError =>
      Some (set_status span ERROR "Token expired" ;;
            raise (HTTPException 401 "Token expired"))
  | InvalidTokenError msg =>
      Some (set_status span ERROR ("Invalid token: " ++ msg) ;;
            raise (HTTPException 401 "Invalid token"))
  | _ => None
  end.

Definition validate_token (authorization : option string) : M Json :=
  request_counter_add 1 [("method", "POST"); ("endpoint", "/validate")] ;;
  start_as_current_span "auth.validate_token" (fun span =>
    set_attribute span "http.method" (AStr "POST") ;;
    set_attribute span "http.route" (AStr "/validate") ;;
    when (not_ authorization)
      (set_status span ERROR "Missing authorization header" ;;
       raise (HTTPException 401 "Missing authorization header")) ;;
    token <- try_except (bearer_token (header_value authorization))
               (fun e =>
                  match e with
                  | IndexError =>
                      Some (set_status span ERROR "Invalid authorization format" ;;
                            raise (HTTPException 401 "Invalid authorization format"))
                  | _ => None
                  end) ;;
    try_except
      (start_as_current_span "auth.decode_token" (fun decode_span =>
         payload <- jwt_decode_ token ;;
         let username := get payload "username" in
         set_attribute decode_span "user.username" (AJson username) ;;
         set_attribute span "user.username" (AJson username) ;;
         set_attribute span "auth.valid" (ABool true) ;;
         request_duration_record
           [("method", "POST"); ("endpoint", "/validate"); ("status", "200")] ;;
         ret (JDict [("valid", JBool true);
                     ("username", username);
                     ("expires_at", get payload "exp")])))
      (on_jwt_error span)).

Definition token_info (authorization : option string) : M Json :=
  request_counter_add 1 [("method", "GET"); ("endpoint", "/token/info")] ;;
  start_as_current_span "auth.token_info" (fun span =>
    set_attribute span "http.method" (AStr "GET") ;;
    set_attribute span "http.route" (AStr "/token/info") ;;
    when (not_ authorization)
      (set_status span ERROR "Missing authorization header" ;;
       raise (HTTPException 401 "Missing authorization header")) ;;
    try_except
      (token <- bearer_token (header_value authorization) ;;
       start_as_current_span "auth.decode_token" (fun decode_span =>
         payload <- jwt_decode_ token ;;
         let username := get payload "username" in
         set_attribute decode_span "user.username" (AJson username) ;;
         set_attribute span "user.username" (AJson username) ;;
         request_duration_record
           [("method", "GET"); ("endpoint", "/token/info"); ("status", "200")] ;;
         ret (JDict [("username", username);
                     ("issued_at", get payload "iat");
                     ("expires_at", get payload "exp")])))
      (on_jwt_error span)).

Inductive Request : Type :=
| Root
| Health
| Login (credentials : list (string * Json))
| ValidateToken (authorization : option string)
| TokenInfo (authorization : option string).

Definition handle (r : Request) : M Json :=
  match r with
  | Root => root
  | Health => health
  | Login credentials => login credentials
  | ValidateToken a => validate_token a
  | TokenInfo a => token_info a
  end.

End Auth.

(* ------------------------------------------------------------------ *)
(** ** db.py *)

Module Db.

Definition root : M Json :=
  ret (JDict [("message", JStr "Database Service"); ("status", JStr "running")]).

Definition health : M Json :=
  ret (JDict [("status", JStr "healthy")]).

Definition require_authorization (span : SpanId) (authorization : option string) : M unit :=
  when (not_ authorization)
    (set_status span ERROR "Missing authorization" ;;
     raise (HTTPException 401 "Missing authorization header")).

(** [except sqlite3.Error as e] of the handlers that do not roll back. *)
Definition on_sqlite_error {A} (span : SpanId) (e : Exn) : option (M A) :=
  match is_sqlite3_Error e with
  | Some msg =>
      Some (set_status span ERROR ("Database error: " ++ msg) ;;
            raise (HTTPException 500 ("Database error: " ++ msg)))
  | None => None
  end.

(** The same clause preceded by [conn.rollback()]. *)
Definition on_sqlite_error_rollback {A} (span : SpanId) (e : Exn) : option (M A) :=
  match is_sqlite3_Error e with
  | Some msg =>
      Some (rollback ;;
            set_status span ERROR ("Database error: " ++ msg) ;;
            raise (HTTPException 500 ("Database error: " ++ msg)))
  | None => None
  end.

Definition row_json (e : Env) (row : ItemRow) : Json :=
  JDict [("id", JStr (row_id row));
         ("data", loads_or_text e (row_data row));
         ("created_at", JNat (row_created_at row));
         ("updated_at", JNat (row_updated_at row))].

Definition store_data (data : Json) (authorization : option string) : M Json :=
  request_counter_add 1 [("method", "POST"); ("endpoint", "/store")] ;;
  db_operations_counter_add 1 [("operation", "insert"); ("table", "items")] ;;
  start_as_current_span "db.store_data" (fun span =>
    set_attribute span "http.method" (AStr "POST") ;;
    set_attribute span "http.route" (AStr "/store") ;;
    set_attribute span "db.operation" (AStr "insert") ;;
    set_attribute span "db.table" (AStr "items") ;;
    require_authorization span authorization ;;
    inject_latency ;;
    item_id <- new_uuid ;;
    data_json <- gets (fun w => json_dumps (env w) data) ;;
    set_attribute span "item.id" (AStr item_id) ;;
    get_db_connection ;;
    finally
      (try_except
         (start_as_current_span "db.execute_insert" (fun db_span =>
            created_at <- utcnow ;;
            updated_at <- utcnow ;;
            execute_insert_item item_id data_json created_at updated_at ;;
            commit ;;
            set_attribute db_span "db.rows_affected" (AInt 1)) ;;
          db_operation_duration_record [("operation", "insert"); ("table", "items")] ;;
          request_duration_record
            [("method", "POST"); ("endpoint", "/store"); ("status", "200")] ;;
          t <- utcnow ;;
          ret (JDict [("id", JStr item_id); ("status", JStr "stored"); ("created_at", JNat t)]))
         (on_sqlite_error_rollback span))
      close).

Definition retrieve_data (item_id : string) (authorization : option string) : M Json :=
  request_counter_add 1 [("method", "GET"); ("endpoint", "/retrieve/{id}")] ;;
  db_operations_counter_add 1 [("operation", "select"); ("table", "items")] ;;
  start_as_current_span "db.retrieve_data" (fun span =>
    set_attribute span "http.method" (AStr "GET") ;;
    set_attribute span "http.route" (AStr "/retrieve/{item_id}") ;;
    set_attribute span "db.operation" (AStr "select") ;;
    set_attribute span "db.table" (AStr "items") ;;
    set_attribute span "item.id" (AStr item_id) ;;
    require_authorization span authorization ;;
    inject_latency ;;
    get_db_connection ;;
    finally
      (try_except
         (row <- start_as_current_span "db.execute_select" (fun db_span =>
                   row <- execute_select_item item_id ;;
                   set_attribute db_span "db.rows_returned"
                     (AInt (match row with Some _ => 1 | None => 0 end)) ;;
                   ret row) ;;
          match row with
          | None =>
              set_status span ERROR "Item not found" ;;
              raise (HTTPException 404 "Item not found")
          | Some r =>
              db_operation_duration_record [("operation", "select"); ("table", "items")] ;;
              request_duration_record
                [("method", "GET"); ("endpoint", "/retrieve/{id}"); ("status", "200")] ;;
              gets (fun w => row_json (env w) r)
          end)
         (on_sqlite_error span))
      close).

Definition list_items (authorization : option string) (limit : Z) : M Json :=
  request_counter_add 1 [("method", "GET"); ("endpoint", "/list")] ;;
  db_operations_counter_add 1 [("operation", "select"); ("table", "items")] ;;
  start_as_current_span "db.list_items" (fun span =>
    set_attribute span "http.method" (AStr "GET") ;;
    set_attribute span "http.route" (AStr "/list") ;;
    set_attribute span "db.operation" (AStr "select") ;;
    set_attribute span "db.table" (AStr "items") ;;
    set_attribute span "db.limit" (AInt limit) ;;
    require_authorization span authorization ;;
    inject_latency ;;
    get_db_connection ;;
    finally
      (try_except
         (rows <- start_as_current_span "db.execute_select" (fun db_span =>
                    rows <- execute_select_items limit ;;
                    set_attribute db_span "db.rows_returned"
                      (AInt (Z.of_nat (List.length rows))) ;;
                    ret rows) ;;
          its <- gets (fun w => map (row_json (env w)) rows) ;;
          set_attribute span "items.count" (AInt (Z.of_nat (List.length its))) ;;
          db_operation_duration_record [("operation", "select"); ("table", "items")] ;;
          request_duration_record
            [("method", "GET"); ("endpoint", "/list"); ("status", "200")] ;;
          ret (JDict [("items", JList its); ("count", JNat (List.length its))]))
         (on_sqlite_error span))
      close).

Definition delete_data (item_id : string) (authorization : option string) : M Json :=
  request_counter_add 1 [("method", "DELETE"); ("endpoint", "/delete/{id}")] ;;
  db_operations_counter_add 1 [("operation", "delete"); ("table", "items")] ;;
  start_as_current_span "db.delete_data" (fun span =>
    set_attribute span "http.method" (AStr "DELETE") ;;
    set_attribute span "http.route" (AStr "/delete/{item_id}") ;;
    set_attribute span "db.operation" (AStr "delete") ;;
    set_attribute span "db.table" (AStr "items") ;;
    set_attribute span "item.id" (AStr item_id) ;;
    require_authorization span authorization ;;
    inject_latency ;;
    get_db_connection ;;
    finally
      (try_except
         (rowcount <- start_as_current_span "db.execute_delete" (fun db_span =>
                        rowcount <- execute_delete_item item_id ;;
                        commit ;;
                        set_attribute db_span "db.rows_affected" (AInt (Z.of_nat rowcount)) ;;
                        ret rowcount) ;;
          when (rowcount =? 0)%nat
            (set_status span ERROR "Item not found" ;;
             raise (HTTPException 404 "Item not found")) ;;
          db_operation_duration_record [("operation", "delete"); ("table", "items")] ;;
          request_duration_record
            [("method", "DELETE"); ("endpoint", "/delete/{id}"); ("status", "200")] ;;
          ret (JDict [("id", JStr item_id); ("status", JStr "deleted")]))
         (on_sqlite_error_rollback span))
      close).

Definition get_user (username : string) : M Json :=
  request_counter_add 1 [("method", "GET"); ("endpoint", "/user/{username}")] ;;
  db_operations_counter_add 1 [("operation", "select"); ("table", "users")] ;;
  start_as_current_span "db.get_user" (fun span =>
    set_attribute span "http.method" (AStr "GET") ;;
    set_attribute span "http.route" (AStr "/user/{username}") ;;
    set_attribute span "db.operation" (AStr "select") ;;
    set_attribute span "db.table" (AStr "users") ;;
    set_attribute span "user.username" (AStr username) ;;
    inject_latency ;;
    get_db_connection ;;
    finally
      (try_except
         (row <- start_as_current_span "db.execute_select" (fun db_span =>
                   row <- execute_select_user username ;;
                   set_attribute db_span "db.rows_returned"
                     (AInt (match row with Some _ => 1 | None => 0 end)) ;;
                   ret row) ;;
          match row with
          | None =>
              set_status span ERROR "User not found" ;;
              raise (HTTPException 404 "User not found")
          | Some (name, password) =>
              db_operation_duration_record [("operation", "select"); ("table", "users")] ;;
              request_duration_record
                [("method", "GET"); ("endpoint", "/user/{username}"); ("status", "200")] ;;
              ret (JDict [("username", JStr name); ("password", JStr password)])
          end)
         (on_sqlite_error span))
      close).

Definition create_user (user_data : list (string * Json)) : M Json :=
  request_counter_add 1 [("method", "POST"); ("endpoint", "/user")] ;;
  db_operations_counter_add 1 [("operation", "insert"); ("table", "users")] ;;
  start_as_current_span "db.create_user" (fun span =>
    set_attribute span "http.method" (AStr "POST") ;;
    set_attribute span "http.route" (AStr "/user") ;;
    set_attribute span "db.operation" (AStr "insert") ;;
    set_attribute span "db.table" (AStr "users") ;;
    inject_latency ;;
    let username := get user_data "username" in
    let password := get user_data "password" in
    when (negb (truthy username) || negb (truthy password))
      (set_status span ERROR "Missing username or password" ;;
       raise (HTTPException 400 "Username and password required")) ;;
    set_attribute span "user.username" (AJson username) ;;
    get_db_connection ;;
    finally
      (try_except
         (start_as_current_span "db.execute_insert" (fun db_span =>
            execute_insert_user username password ;;
            commit ;;
            set_attribute db_span "db.rows_affected" (AInt 1)) ;;
          db_operation_duration_record [("operation", "insert"); ("table", "users")] ;;
          request_duration_record
            [("method", "POST"); ("endpoint", "/user"); ("status", "200")] ;;
          t <- utcnow ;;
          ret (JDict [("username", username); ("status", JStr "created"); ("created_at", JNat t)]))
         (fun e =>
            match e with
            | IntegrityError _ =>
                Some (rollback ;;
                      set_status span ERROR "User already exists" ;;
                      raise (HTTPException 409 "User already exists"))
            | _ => on_sqlite_error_rollback span e
            end))
      close).

Inductive Request : Type :=
| Root
| Health
| StoreData (data : Json) (authorization : option string)
| RetrieveData (item_id : string) (authorization : option string)
| ListItems (authorization : option string) (limit : Z)
| DeleteData (item_id : string) (authorization : option string)
| GetUser (username : string)
| CreateUser (user_data : list (string * Json)).

Definition handle (r : Request) : M Json :=
  match r with
  | Root => root
  | Health => health
  | StoreData data a => store_data data a
  | RetrieveData item_id a => retrieve_data item_id a
  | ListItems a limit => list_items a limit
  | DeleteData item_id a => delete_data item_id a
  | GetUser username => get_user username
  | CreateUser user_data => create_user user_data
  end.

End Db.

(* ------------------------------------------------------------------ *)
(** ** baseline/app.py, the other handlers *)

Module BaselineApp.

(** The token validation block, which the source repeats in each handler. *)
Definition validate_token (authorization : option string) : M unit :=
  try_except
    (auth_response <- client_post AuthService "/validate" None
                        [("Authorization", header_value authorization)] 5 ;;
     when (negb (status_code auth_response =? 200)%Z)
       (raise (HTTPException 401 "Invalid token")))
    (fun e =>
       if is_RequestError e then
         Some (raise (HTTPException 503 "Auth service unavailable"))
       else None).

Definition require_authorization (authorization : option string) : M unit :=
  when (not_ authorization)
    (raise (HTTPException 401 "Missing authorization header")).

Definition create_data (data : Json) (authorization : option string) : M Json :=
  require_authorization authorization ;;
  validate_token authorization ;;
  try_except
    (db_response <- client_post DbService "/store" (Some data)
                      [("Authorization", header_value authorization)] 5 ;;
     when (negb (status_code db_response =? 200)%Z)
       (raise (HTTPException 500 "Database operation failed")) ;;
     response_json db_response)
    (fun e =>
       if is_RequestError e then
         Some (raise (HTTPException 503 "Database service unavailable"))
       else None).

Definition get_preset_data (preset_id : string) (authorization : option string) : M Json :=
  require_authorization authorization ;;
  validate_token authorization ;;
  match lookup preset_id App.preset_data with
  | Some d => ret (JDict [("preset_id", JStr preset_id); ("data", d)])
  | None =>
      raise (HTTPException 404
               ("Preset '" ++ preset_id ++ "' not found. Available: "
                ++ App.keys_repr App.preset_data))
  end.

Definition list_presets (authorization : option string) : M Json :=
  require_authorization authorization ;;
  validate_token authorization ;;
  ret (JDict [("available_presets", JList [JStr "welcome"; JStr "status"; JStr "info"]);
              ("description",
               JStr "Use /api/preset/{preset_id} to retrieve specific preset data")]).

(** The body of [for item in seed_items]. *)
Definition seed_item (authorization : option string) (item : Json)
    (stored_ids : list Json) : M (list Json) :=
  try_except
    (db_response <- client_post DbService "/store" (Some item)
                      [("Authorization", header_value authorization)] 5 ;;
     if (status_code db_response =? 200)%Z then
       js <- response_json db_response ;;
       item_id <- subscript js "id" ;;
       ret (stored_ids ++ [item_id])%list
     else ret stored_ids)
    (fun e => if is_RequestError e then Some (ret stored_ids) else None).

Definition seed_preset_data (authorization : option string) : M Json :=
  require_authorization authorization ;;
  validate_token authorization ;;
  stored_ids <- for_each App.seed_items (seed_item authorization) [] ;;
  ret (JDict [("status", JStr "seeded");
              ("items_created", JInt (Z.of_nat (List.length stored_ids)));
              ("item_ids", JList stored_ids)]).

(** The baseline handler of an app request. *)
Definition handle (r : App.Request) : M Json :=
  match r with
  | App.CreateData data a => create_data data a
  | App.GetData item_id a => Baseline.get_data item_id a
  | App.GetPresetData preset_id a => get_preset_data preset_id a
  | App.ListPresets a => list_presets a
  | App.SeedPresetData a => seed_preset_data a
  end.

End BaselineApp.

(* ------------------------------------------------------------------ *)
(** ** The services as a whole *)

Inductive Request : Type :=
| AppRoot
| AppHealth
| ToApp (r : App.Request)
| ToAuth (r : Auth.Request)
| ToDb (r : Db.Request).

Definition serve (r : Request) : M Json :=
  match r with
  | AppRoot => App.root
  | AppHealth => App.health
  | ToApp r' => App.handle r'
  | ToAuth r' => Auth.handle r'
  | ToDb r' => Db.handle r'
  end.

(* ------------------------------------------------------------------ *)
(** ** Reading a trace *)

Open Scope list_scope.

Definition is_span (ev : Event) : bool :=
  match ev with
  | SpanStart _ _ | SpanEnd _ => true
  | _ => false
  end.

(** The spans a trace opens, in order. *)
Fixpoint opened (t : list Event) : list (SpanId * string) :=
  match t with
  | [] => []
  | SpanStart id name :: t' => (id, name) :: opened t'
  | _ :: t' => opened t'
  end.

Definition started (t : list Event) : list SpanId := map fst (opened t).

(** The spans a trace closes, in order. *)
Fixpoint ended (t : list Event) : list SpanId :=
  match t with
  | [] => []
  | SpanEnd id :: t' => id :: ended t'
  | _ :: t' => ended t'
  end.

(** Replaying a trace against the stack of open spans: a span is pushed
    when it starts, an end must name the top of the stack and pops it, and
    nothing may be left open. *)
Fixpoint lifo (open : list SpanId) (t : list Event) : bool :=
  match t with
  | [] => match open with [] => true | _ => false end
  | SpanStart id _ :: t' => lifo (id :: open) t'
  | SpanEnd id :: t' =>
      match open with
      | top :: below => Nat.eqb id top && lifo below t'
      | [] => false
      end
  | _ :: t' => lifo open t'
  end.

(** Well-nested traces: every span encloses a well-nested trace. *)
Inductive nested : list Event -> Prop :=
| nested_nil : nested []
| nested_other ev t : is_span ev = false -> nested t -> nested (ev :: t)
| nested_span id name inner rest :
    nested inner -> nested rest ->
    nested (SpanStart id name :: inner ++ SpanEnd id :: rest).

(** The metric observations of a trace. *)
Definition is_count (ev : Event) : bool :=
  match ev with CounterAdd _ _ _ => true | _ => false end.
Definition is_duration (ev : Event) : bool :=
  match ev with HistogramRecord _ _ => true | _ => false end.
Definition counts (t : list Event) : list Event := filter is_count t.
Definition durations (t : list Event) : list Event := filter is_duration t.

(** The outbound calls of a trace. *)
Fixpoint http_calls (t : list Event) : list HttpRequest :=
  match t with
  | [] => []
  | HttpCall r :: t' => r :: http_calls t'
  | _ :: t' => http_calls t'
  end.

Definition to_db (r : HttpRequest) : bool :=
  match target r with DbService => true | AuthService => false end.

(** The status a span ends with: the last [set_status] wins. *)
Fixpoint final_status (id : SpanId) (t : list Event) (acc : StatusCode * string)
    : StatusCode * string :=
  match t with
  | [] => acc
  | SetStatus id' code msg :: t' =>
      final_status id t' (if Nat.eqb id' id then (code, msg) else acc)
  | _ :: t' => final_status id t' acc
  end.

Definition status_of (id : SpanId) (t : list Event) : StatusCode * string :=
  final_status id t (UNSET, "").

(* ------------------------------------------------------------------ *)
(** ** Properties of computations *)

(** The metric observations of a trace, counts and durations together. *)
Definition is_metric (ev : Event) : bool := is_count ev || is_duration ev.
Definition metrics (t : list Event) : list Event := filter is_metric t.

(** A run from [w] to [w'] with trace [t] respects the span discipline
    when [t] is well nested and the spans it starts are exactly the fresh
    ids handed out between [w] and [w']. *)
Record scoped (w w' : World) (t : list Event) : Prop := mkScoped {
  scoped_nested : nested t;
  scoped_le : next_span w <= next_span w';
  scoped_ids : started t = seq (next_span w) (next_span w' - next_span w)
}.

Definition Scoped {A} (m : M A) : Prop :=
  forall w, scoped w (final (m w)) (trace (m w)).

(** [m] records no metric. *)
Definition Unmetered {A} (m : M A) : Prop := forall w, metrics (trace (m w)) = [].

(** [m] records one duration observation with tags [tags] when it returns
    and none when it raises, and no other metric. *)
Definition Timed {A} (tags : Tags) (m : M A) : Prop :=
  forall w,
    metrics (trace (m w)) =
    match result (m w) with
    | Ok _ => [HistogramRecord "http_request_duration_seconds" tags]
    | Raise _ => []
    end.

(* ------------------------------------------------------------------ *)
(** ** Vocabulary of the claims *)

(** The duration tags of a request: method, route and the status ["200"]. *)
Definition request_tags (req : App.Request) : Tags :=
  [("method", App.http_method req); ("endpoint", App.endpoint req)].

Definition success_tags (req : App.Request) : Tags :=
  request_tags req ++ [("status", "200")].

(** What the claim C1 asks of a run: one count observation and one
    duration observation, each carrying a status tag. *)
Definition observed_once_with_status (t : list Event) : Prop :=
  exists ctags dtags,
    counts t = [CounterAdd "http_requests_total" 1 ctags] /\
    durations t = [HistogramRecord "http_request_duration_seconds" dtags] /\
    lookup "status" ctags <> None /\
    lookup "status" dtags <> None.

(** The per-request failures of the spec. *)
Inductive Failure : Type :=
| Unauthenticated
| NotFound
| CollaboratorUnavailable
| CollaboratorError.

Definition caller_status (f : Failure) : Z :=
  match f with
  | Unauthenticated => 401
  | NotFound => 404
  | CollaboratorUnavailable => 503
  | CollaboratorError => 500
  end.

(** How the token validation call fails: any answer other than 200 counts
    as invalid credentials. *)
Definition token_validation_failure (o : HttpOutcome) : option Failure :=
  match o with
  | Failed _ => Some CollaboratorUnavailable
  | Responded r => if (status_code r =? 200)%Z then None else Some Unauthenticated
  end.

(** How the storage call of [create_data] fails. *)
Definition store_failure (o : HttpOutcome) : option Failure :=
  match o with
  | Failed _ => Some CollaboratorUnavailable
  | Responded r => if (status_code r =? 200)%Z then None else Some CollaboratorError
  end.

(** How the storage call of [get_data] fails. *)
Definition retrieve_failure (o : HttpOutcome) : option Failure :=
  match o with
  | Failed _ => Some CollaboratorUnavailable
  | Responded r =>
      if (status_code r =? 404)%Z then Some NotFound
      else if (status_code r =? 200)%Z then None
      else Some CollaboratorError
  end.

(** The failure a request runs into and the step at which it does: 0 for
    the credential check under the root span, 1 for the token validation
    call, 2 for the storage call of [create_data] and [get_data]. *)
Definition mapped_failure (req : App.Request) (w : World) : option (Failure * nat) :=
  if not_ (App.authorization_of req) then Some (Unauthenticated, 0)
  else
    match token_validation_failure (network (env w) (calls w)) with
    | Some f => Some (f, 1)
    | None =>
        match req with
        | App.CreateData _ _ =>
            option_map (fun f => (f, 2)) (store_failure (network (env w) (S (calls w))))
        | App.GetData _ _ =>
            option_map (fun f => (f, 2)) (retrieve_failure (network (env w) (S (calls w))))
        | _ => None
        end
    end.

(** The description the failing span and the root span are marked with. *)
Definition span_message (f : Failure) (step : nat) : string :=
  match step, f with
  | 0, _ => "Missing authorization"
  | 1, CollaboratorUnavailable => "Auth service unavailable"
  | 1, _ => "Invalid token"
  | _, CollaboratorUnavailable => "Database service unavailable"
  | _, NotFound => "Item not found"
  | _, _ => "Database operation failed"
  end.

(** The spans a request opens up to its storage call. *)
Definition span_names (req : App.Request) : list string :=
  [ App.root_span_name req;
    "app.validate_token";
    match req with
    | App.CreateData _ _ => "app.store_data"
    | _ => "app.retrieve_data"
    end ].

(** The id a store call contributes to [stored_ids]: the ["id"] member of
    a 200 answer, nothing for any other answer or a failed call. *)
Definition stored_id (o : HttpOutcome) : list Json :=
  match o with
  | Failed _ => []
  | Responded r =>
      if (status_code r =? 200)%Z then
        match json r with
        | Some (JDict d) => match lookup "id" d with Some v => [v] | None => [] end
        | _ => []
        end
      else []
  end.

(** A store call fails, is answered with a status other than 200, or is
    answered 200 with a JSON object that has an ["id"] member, as
    [store_data] of db.py answers. *)
Definition store_answer_ok (o : HttpOutcome) : bool :=
  match o with
  | Failed _ => true
  | Responded r =>
      if (status_code r =? 200)%Z then
        match json r with
        | Some (JDict d) => match lookup "id" d with Some _ => true | None => false end
        | _ => false
        end
      else true
  end.

(** A store call that does not store: it fails or is answered with a
    status other than 200. *)
Definition store_refused (o : HttpOutcome) : bool :=
  match o with
  | Failed _ => true
  | Responded r => negb (status_code r =? 200)%Z
  end.

(** The row [SELECT ... FROM users WHERE username = ?] finds. *)
Definition user_row (username : string) (d : Database) : option (string * string) :=
  find (fun u => String.eqb (fst u) username) (users d).

(* ------------------------------------------------------------------ *)
(** ** Sample worlds *)

Definition answer (status : Z) (js : option Json) : HttpOutcome :=
  Responded (mkResponse status js).

(** An environment with the given network and database faults; the opaque
    primitives are constant. *)
Definition sample_env (net : nat -> HttpOutcome) (fault : nat -> option string) : Env :=
  mkEnv net 100 fault (fun _ => "5f0c") (fun _ => "token") (fun _ => Invalid "Not enough segments")
        (fun _ => "{}") (fun _ => None) (fun _ => "None") (fun _ => Ok "admin").

Definition default_users : list (string * string) :=
  [("admin", "admin123"); ("user1", "password1"); ("testuser", "testpass")].

Definition sample_world (net : nat -> HttpOutcome) (fault : nat -> option string) : World :=
  mkWorld (sample_env net fault) 0 0 0 0 0
          (mkDatabase [] default_users) (mkDatabase [] default_users).

(** Every collaborator refuses the connection. *)
Definition all_down : World := sample_world (fun _ => Failed ConnectError) (fun _ => None).

(** The auth service accepts the token; the db service refuses the connection. *)
Definition db_down : World :=
  sample_world (fun n => match n with
                         | 0 => answer 200 (Some (JDict [("valid", JBool true)]))
                         | _ => Failed ConnectError
                         end)
               (fun _ => None).

(** The auth service answers 500. *)
Definition auth_broken : World :=
  sample_world (fun _ => answer 500 None) (fun _ => None).

(** The auth service accepts the token; the db service answers 404. *)
Definition item_missing : World :=
  sample_world (fun n => match n with
                         | 0 => answer 200 (Some (JDict [("valid", JBool true)]))
                         | _ => answer 404 (Some (JDict [("detail", JStr "Item not found")]))
                         end)
               (fun _ => None).

(** The auth service accepts the token; the db service answers 200 with an
    object that has no ["id"]. *)
Definition id_missing : World :=
  sample_world (fun n => match n with
                         | 0 => answer 200 (Some (JDict [("valid", JBool true)]))
                         | _ => answer 200 (Some (JDict [("status", JStr "stored")]))
                         end)
               (fun _ => None).

(** The auth service accepts the token; the db service stores the first
    item, answers 500 for the second and times out on the third. *)
Definition db_flaky : World :=
  sample_world (fun n => match n with
                         | 0 => answer 200 (Some (JDict [("valid", JBool true)]))
                         | 1 => answer 200 (Some (JDict [("id", JStr "a1"); ("status", JStr "stored")]))
                         | 2 => answer 500 None
                         | _ => Failed ReadTimeout
                         end)
               (fun _ => None).

(** The connection opens and the first statement raises. *)
Definition select_fails : World :=
  sample_world (fun _ => Failed ConnectError)
               (fun n => match n with 1 => Some "database is locked" | _ => None end).

(** The auth service accepts the token and the db service stores the item
    under id ["abc-123"]. *)
Definition all_up : World :=
  sample_world (fun n => match n with
                         | 0 => answer 200 (Some (JDict [("valid", JBool true)]))
                         | _ => answer 200 (Some (JDict [("id", JStr "abc-123");
                                                         ("status", JStr "stored")]))
                         end)
               (fun _ => None).

(* ------------------------------------------------------------------ *)
(** ** baseline/auth.py *)

Module BaselineAuth.

Definition login (credentials : list (string * Json)) : M Json :=
  let username := get credentials "username" in
  let password := get credentials "password" in
  when (negb (truthy username) || negb (truthy password))
    (raise (HTTPException 401 "Username and password required")) ;;
  try_except
    (user_path <- gets (fun w => ("/user/" ++ format_value (env w) username)%string) ;;
     db_response <- client_get DbService user_path [] 5 ;;
     when (negb (status_code db_response =? 200)%Z)
       (raise (HTTPException 401 "Invalid credentials")) ;;
     user_data <- response_json db_response ;;
     stored <- dict_get user_data "password" JNull ;;
     when (negb (py_eq stored password))
       (raise (HTTPException 401 "Invalid credentials")) ;;
     t <- utcnow ;;
     let expiration := (Z.of_nat t + Auth.TOKEN_EXPIRY_MINUTES * 60)%Z in
     iat <- utcnow ;;
     token <- gets (fun w => jwt_encode (env w)
                               [("username", username);
                                ("exp", JInt expiration);
                                ("iat", JInt (Z.of_nat iat))]) ;;
     ret (JDict [("token", JStr token);
                 ("expires_in", JInt (Auth.TOKEN_EXPIRY_MINUTES * 60))]))
    (fun e =>
       if is_RequestError e then
         Some (raise (HTTPException 503 "Database service unavailable"))
       else None).

(** The [except] clauses shared by [validate_token] and [token_info]. *)
Definition on_jwt_error {A} (e : Exn) : option (M A) :=
  match e with
  | ExpiredSignatureError => Some (raise (HTTPException 401 "Token expired"))
  | InvalidTokenError _ => Some (raise (HTTPException 401 "Invalid token"))
  | _ => None
  end.

Definition validate_token (authorization : option string) : M Json :=
  when (not_ authorization)
    (raise (HTTPException 401 "Missing authorization header")) ;;
  token <- try_except (Auth.bearer_token (header_value authorization))
             (fun e =>
                match e with
                | IndexError =>
                    Some (raise (HTTPException 401 "Invalid authorization format"))
                | _ => None
                end) ;;
  try_except
    (payload <- jwt_decode_ token ;;
     ret (JDict [("valid", JBool true);
                 ("username", get payload "username");
                 ("expires_at", get payload "exp")]))
    on_jwt_error.

Definition token_info (authorization : option string) : M Json :=
  when (not_ authorization)
    (raise (HTTPException 401 "Missing authorization header")) ;;
  try_except
    (token <- Auth.bearer_token (header_value authorization) ;;
     payload <- jwt_decode_ token ;;
     ret (JDict [("username", get payload "username");
                 ("issued_at", get payload "iat");
                 ("expires_at", get payload "exp")]))
    on_jwt_error.

(** The baseline handler of an auth request. *)
Definition handle (r : Auth.Request) : M Json :=
  match r with
  | Auth.Root => Auth.root
  | Auth.Health => Auth.health
  | Auth.Login credentials => login credentials
  | Auth.ValidateToken a => validate_token a
  | Auth.TokenInfo a => token_info a
  end.

End BaselineAuth.

(* ------------------------------------------------------------------ *)
(** ** baseline/db.py *)

Module BaselineDb.

Definition require_authorization (authorization : option string) : M unit :=
  when (not_ authorization)
    (raise (HTTPException 401 "Missing authorization header")).

(** [except sqlite3.Error as e] of the handlers that do not roll back. *)
Definition on_sqlite_error {A} (e : Exn) : option (M A) :=
  match is_sqlite3_Error e with
  | Some msg => Some (raise (HTTPException 500 ("Database error: " ++ msg)%string))
  | None => None
  end.

(** The same clause preceded by [conn.rollback()]. *)
Definition on_sqlite_error_rollback {A} (e : Exn) : option (M A) :=
  match is_sqlite3_Error e with
  | Some msg =>
      Some (rollback ;;
            raise (HTTPException 500 ("Database error: " ++ msg)%string))
  | None => None
  end.

Definition store_data (data : Json) (authorization : option string) : M Json :=
  require_authorization authorization ;;
  inject_latency ;;
  item_id <- new_uuid ;;
  data_json <- gets (fun w => json_dumps (env w) data) ;;
  get_db_connection ;;
  finally
    (try_except
       (created_at <- utcnow ;;
        updated_at <- utcnow ;;
        execute_insert_item item_id data_json created_at updated_at ;;
        commit ;;
        t <- utcnow ;;
        ret (JDict [("id", JStr item_id); ("status", JStr "stored"); ("created_at", JNat t)]))
       on_sqlite_error_rollback)
    close.

Definition retrieve_data (item_id : string) (authorization : option string) : M Json :=
  require_authorization authorization ;;
  inject_latency ;;
  get_db_connection ;;
  finally
    (try_except
       (row <- execute_select_item item_id ;;
        match row with
        | None => raise (HTTPException 404 "Item not found")
        | Some r => gets (fun w => Db.row_json (env w) r)
        end)
       on_sqlite_error)
    close.

Definition list_items (authorization : option string) (limit : Z) : M Json :=
  require_authorization authorization ;;
  inject_latency ;;
  get_db_connection ;;
  finally
    (try_except
       (rows <- execute_select_items limit ;;
        its <- gets (fun w => map (Db.row_json (env w)) rows) ;;
        ret (JDict [("items", JList its); ("count", JNat (List.length its))]))
       on_sqlite_error)
    close.

Definition delete_data (item_id : string) (authorization : option string) : M Json :=
  require_authorization authorization ;;
  inject_latency ;;
  get_db_connection ;;
  finally
    (try_except
       (rowcount <- execute_delete_item item_id ;;
        commit ;;
        when (rowcount =? 0)%nat
          (raise (HTTPException 404 "Item not found")) ;;
        ret (JDict [("id", JStr item_id); ("status", JStr "deleted")]))
       on_sqlite_error_rollback)
    close.

Definition get_user (username : string) : M Json :=
  inject_latency ;;
  get_db_connection ;;
  finally
    (try_except
       (row <- execute_select_user username ;;
        match row with
        | None => raise (HTTPException 404 "User not found")
        | Some (name, password) =>
            ret (JDict [("username", JStr name); ("password", JStr password)])
        end)
       on_sqlite_error)
    close.

Definition create_user (user_data : list (string * Json)) : M Json :=
  inject_latency ;;
  let username := get user_data "username" in
  let password := get user_data "password" in
  when (negb (truthy username) || negb (truthy password))
    (raise (HTTPException 400 "Username and password required")) ;;
  get_db_connection ;;
  finally
    (try_except
       (execute_insert_user username password ;;
        commit ;;
        t <- utcnow ;;
        ret (JDict [("username", username); ("status", JStr "created"); ("created_at", JNat t)]))
       (fun e =>
          match e with
          | IntegrityError _ =>
              Some (rollback ;;
                    raise (HTTPException 409 "User already exists"))
          | _ => on_sqlite_error_rollback e
          end))
    close.

(** The baseline handler of a db request. *)
Definition handle (r : Db.Request) : M Json :=
  match r with
  | Db.Root => Db.root
  | Db.Health => Db.health
  | Db.StoreData data a => store_data data a
  | Db.RetrieveData item_id a => retrieve_data item_id a
  | Db.ListItems a limit => list_items a limit
  | Db.DeleteData item_id a => delete_data item_id a
  | Db.GetUser username => get_user username
  | Db.CreateUser user_data => create_user user_data
  end.

End BaselineDb.

(** The baseline handler of a request to any of the three services. *)
Definition serve_baseline (r : Request) : M Json :=
  match r with
  | AppRoot => App.root
  | AppHealth => App.health
  | ToApp r' => BaselineApp.handle r'
  | ToAuth r' => BaselineAuth.handle r'
  | ToDb r' => BaselineDb.handle r'
  end.

(* ------------------------------------------------------------------ *)
(** ** Telemetry and effects *)

(** Tracer and meter calls, as opposed to what a handler does to its
    collaborators, its database and its clock. *)
Definition is_telemetry (ev : Event) : bool :=
  match ev with
  | CounterAdd _ _ _ | HistogramRecord _ _ | SpanStart _ _ | SpanEnd _
  | SetAttribute _ _ _ | SetStatus _ _ _ => true
  | _ => false
  end.

(** The trace without its telemetry. *)
Definition effects (t : list Event) : list Event :=
  filter (fun ev => negb (is_telemetry ev)) t.

(** Two states of a process that differ at most in the spans started. *)
Definition same_process (w1 w2 : World) : Prop :=
  set_next_span 0 w1 = set_next_span 0 w2.

(** [m1] does what [m2] does, telemetry aside: from states that differ at
    most in their spans they give the same result, the same effects in the
    same order, and states that again differ at most in their spans. *)
Definition Sim {A} (m1 m2 : M A) : Prop :=
  forall w1 w2, same_process w1 w2 ->
    result (m1 w1) = result (m2 w2) /\
    same_process (final (m1 w1)) (final (m2 w2)) /\
    effects (trace (m1 w1)) = effects (trace (m2 w2)).

(** [t] is telemetry only: it returns, has no effect and changes at most
    the spans started. *)
Definition Telemetry (t : M unit) : Prop :=
  forall w,
    result (t w) = Ok tt /\ same_process (final (t w)) w /\ effects (trace (t w)) = [].

(** Every action of [m] satisfies [P]. *)
Definition Always {A} (P : Event -> Prop) (m : M A) : Prop :=
  forall w, Forall P (trace (m w)).

(** Two runs that differ in their telemetry at most. *)
Definition same_outcome {A} (r1 r2 : Run A) : Prop :=
  result r1 = result r2 /\
  effects (trace r1) = effects (trace r2) /\
  same_process (final r1) (final r2).

(* ------------------------------------------------------------------ *)
(** ** Vocabulary of the further properties *)

(** An outbound call that forwards the caller's Authorization header and
    is given five seconds. *)
Definition forwards_credentials (authorization : option string) (ev : Event) : Prop :=
  match ev with
  | HttpCall r =>
      headers r = [("Authorization", header_value authorization)] /\ timeout r = 5%Z
  | _ => True
  end.

(** [" " not in s] *)
Fixpoint no_space (s : string) : bool :=
  match s with
  | EmptyString => true
  | String c rest => negb (Ascii.eqb c " "%char) && no_space rest
  end.

(** The header the traffic generator sends:
    [{"Authorization": f"Bearer {self.token}"}]. *)
Definition bearer_header (token : string) : string := ("Bearer " ++ token)%string.

(** The token [validate_token] and [token_info] decode: the second field
    of a header that starts with ["Bearer "], the whole header otherwise. *)
Definition token_of (authorization : string) : string :=
  if startswith "Bearer " authorization
  then nth 1 (split_space authorization) EmptyString
  else authorization.

(** The call [login] sends to the db service for a user name. *)
Definition user_lookup (e : Env) (username : Json) : HttpRequest :=
  mkRequest DbService GET ("/user/" ++ format_value e username)%string None [] 5.

(** The db service accepts the token, and a user lookup finds [admin]. *)
Definition admin_found : World :=
  sample_world (fun _ => answer 200 (Some (JDict [("username", JStr "admin");
                                                  ("password", JStr "admin123")])))
               (fun _ => None).

(** The first [n] sqlite3 operations from [w] on raise nothing. *)
Definition no_fault (w : World) (n : nat) : Prop :=
  forall i, i < n -> sqlite_fault (env w) (i + sqlite_ops w) = None.

(** The Authorization header of a request to an item endpoint of the db
    service; the user endpoints take none. *)
Definition item_authorization (r : Db.Request) : option (option string) :=
  match r with
  | Db.StoreData _ a | Db.RetrieveData _ a | Db.ListItems a _ | Db.DeleteData _ a => Some a
  | _ => None
  end.

(** The names of the presets [get_preset_data] serves. *)
Definition preset_names : list string := map fst App.preset_data.

(** No sqlite3 fault, and a dictionary that survives [json.dumps] and
    [json.loads]. *)
Definition healthy_db : World :=
  mkWorld (mkEnv (fun _ => Failed ConnectError) 0 (fun _ => None) (fun _ => "5f0c")
                 (fun _ => "token") (fun _ => Invalid "Not enough segments")
                 (fun _ => "{'name': 'x'}"%string)
                 (fun _ => Some (JDict [("name", JStr "x")]))
                 (fun _ => "None") (fun v => match v with JStr s => Ok s | _ => Raise TypeError end))
          0 0 0 0 0 (mkDatabase [] default_users) (mkDatabase [] default_users).

(** Primary keys are unique: no two items share an id, no two users a
    name. *)
Definition keys_unique (d : Database) : Prop :=
  NoDup (map row_id (items d)) /\ NoDup (map fst (users d)).


(** The same request to an item endpoint with another Authorization
    header. *)
Definition with_authorization (a : option string) (r : Db.Request) : Db.Request :=
  match r with
  | Db.StoreData data _ => Db.StoreData data a
  | Db.RetrieveData item_id _ => Db.RetrieveData item_id a
  | Db.ListItems _ limit => Db.ListItems a limit
  | Db.DeleteData item_id _ => Db.DeleteData item_id a
  | _ => r
  end.

(** The endpoints of the db service declared with [@app.get]. *)
Definition is_get (r : Db.Request) : bool :=
  match r with
  | Db.StoreData _ _ | Db.DeleteData _ _ | Db.CreateUser _ => false
  | _ => true
  end.

Definition is_connect (ev : Event) : bool :=
  match ev with DbConnect => true | _ => false end.
Definition is_close (ev : Event) : bool :=
  match ev with DbClose => true | _ => false end.

(** The stored password of a user. *)
Definition password_of (username : string) (d : Database) : option string :=
  option_map snd (find (fun u => String.eqb (fst u) username) (users d)).

(** The tags of the count observation of a request to the auth service;
    [root] and [health] record nothing. *)
Definition auth_tags (r : Auth.Request) : option Tags :=
  match r with
  | Auth.Login _ => Some [("method", "POST"); ("endpoint", "/login")]
  | Auth.ValidateToken _ => Some [("method", "POST"); ("endpoint", "/validate")]
  | Auth.TokenInfo _ => Some [("method", "GET"); ("endpoint", "/token/info")]
  | _ => None
  end.

(** The tags of the count observations of a request to the db service,
    of the request and of the database operation. *)
Definition db_tags (r : Db.Request) : option (Tags * Tags) :=
  match r with
  | Db.StoreData _ _ =>
      Some ([("method", "POST"); ("endpoint", "/store")],
            [("operation", "insert"); ("table", "items")])
  | Db.RetrieveData _ _ =>
      Some ([("method", "GET"); ("endpoint", "/retrieve/{id}")],
            [("operation", "select"); ("table", "items")])
  | Db.ListItems _ _ =>
      Some ([("method", "GET"); ("endpoint", "/list")],
            [("operation", "select"); ("table", "items")])
  | Db.DeleteData _ _ =>
      Some ([("method", "DELETE"); ("endpoint", "/delete/{id}")],
            [("operation", "delete"); ("table", "items")])
  | Db.GetUser _ =>
      Some ([("method", "GET"); ("endpoint", "/user/{username}")],
            [("operation", "select"); ("table", "users")])
  | Db.CreateUser _ =>
      Some ([("method", "POST"); ("endpoint", "/user")],
            [("operation", "insert"); ("table", "users")])
  | _ => None
  end.

(* ------------------------------------------------------------------ *)
(** ** traffic-generator.py *)

Module TrafficGenerator.



Section Requests.

(** Readings of [time.time()] and their differences. *)
Variable Seconds : Type.
Variable zero : Seconds.







End Requests.

End TrafficGenerator.

(* ------------------------------------------------------------------ *)
(** ** lab4/app.py *)

Module Lab4.

(** What [cache.incr('hits')] did: it returned the new count, or raised
    [redis.exceptions.ConnectionError]. *)
Inductive Incr : Type :=
| Hits (count : Z)
| ConnectionError (message : string).

Inductive Action : Type :=
| IncrHits          (* [cache.incr('hits')] *)
| Sleep.            (* [time.sleep(0.5)] *)

Inductive Outcome : Type :=
| Returned (count : Z)
| Raised (message : string).

(** The loop of [get_hit_count] with [retries] left, the cache answering
    its [attempt]-th call with [cache attempt]. *)
Fixpoint retry (cache : nat -> Incr) (retries attempt : nat) : Outcome * list Action :=
  match cache attempt with
  | Hits count => (Returned count, [IncrHits])
  | ConnectionError exc =>
      match retries with
      | 0 => (Raised exc, [IncrHits])
      | S retries' =>
          let (outcome, actions) := retry cache retries' (S attempt) in
          (outcome, IncrHits :: Sleep :: actions)
      end
  end.

Definition get_hit_count (cache : nat -> Incr) : Outcome * list Action :=
  retry cache 5 0.

End Lab4.

(* ------------------------------------------------------------------ *)
(** ** Well-nested traces *)

Lemma nested_app t1 t2 : nested t1 -> nested t2 -> nested (t1 ++ t2).
Proof.
  intros H1 H2. induction H1 as [|ev t Hev _ IH|id name inner rest Hin _ _ IHrest].
  - exact H2.
  - simpl. apply nested_other; assumption.
  - change ((SpanStart id name :: inner ++ SpanEnd id :: rest) ++ t2)
      with (SpanStart id name :: (inner ++ SpanEnd id :: rest) ++ t2).
    rewrite <- app_assoc. simpl. apply nested_span; assumption.
Qed.

Lemma nested_wrap id name t : nested t -> nested (SpanStart id name :: t ++ [SpanEnd id]).
Proof. intros H. apply nested_span; [exact H | constructor]. Qed.

Lemma started_app t1 t2 : started (t1 ++ t2) = (started t1 ++ started t2)%list.
Proof.
  unfold started. induction t1 as [|ev t1 IH]; [reflexivity|].
  destruct ev; simpl; try exact IH. now rewrite IH.
Qed.

Lemma ended_app t1 t2 : ended (t1 ++ t2) = (ended t1 ++ ended t2)%list.
Proof.
  induction t1 as [|ev t1 IH]; [reflexivity|].
  destruct ev; simpl; try exact IH. now rewrite IH.
Qed.

(** A well-nested trace replays on any stack and leaves it as it was. *)
Lemma nested_lifo t :
  nested t -> forall open k, lifo open (t ++ k) = lifo open k.
Proof.
  induction 1 as [|ev t Hev _ IH|id name inner rest _ IHin _ IHrest]; intros open k.
  - reflexivity.
  - destruct ev; try discriminate; simpl; apply IH.
  - simpl. rewrite <- app_assoc. rewrite IHin. simpl.
    rewrite Nat.eqb_refl. simpl. apply IHrest.
Qed.

Lemma nested_lifo_closed t : nested t -> lifo [] t = true.
Proof.
  intros H. rewrite <- (app_nil_r t). now rewrite (nested_lifo H).
Qed.

(** Every span id is closed as often as it is opened. *)
Lemma nested_balanced t :
  nested t ->
  forall id, count_occ Nat.eq_dec (ended t) id = count_occ Nat.eq_dec (started t) id.
Proof.
  induction 1 as [|ev t Hev _ IH|i name inner rest _ IHin _ IHrest]; intros id.
  - reflexivity.
  - destruct ev; try discriminate; simpl; apply IH.
  - change (started (SpanStart i name :: inner ++ SpanEnd i :: rest))
      with (i :: started (inner ++ SpanEnd i :: rest)).
    change (ended (SpanStart i name :: inner ++ SpanEnd i :: rest))
      with (ended (inner ++ SpanEnd i :: rest)).
    rewrite started_app, ended_app.
    change (ended (SpanEnd i :: rest)) with (i :: ended rest).
    change (started (SpanEnd i :: rest)) with (started rest).
    destruct (Nat.eq_dec i id) as [E|E].
    + rewrite !(count_occ_cons_eq Nat.eq_dec _ E), !count_occ_app.
      rewrite (count_occ_cons_eq Nat.eq_dec _ E), IHin, IHrest. lia.
    + rewrite !(count_occ_cons_neq Nat.eq_dec _ E), !count_occ_app.
      rewrite (count_occ_cons_neq Nat.eq_dec _ E), IHin, IHrest. lia.
Qed.

Lemma nested_same_number t :
  nested t -> List.length (ended t) = List.length (started t).
Proof.
  induction 1 as [|ev t Hev _ IH|i name inner rest _ IHin _ IHrest].
  - reflexivity.
  - destruct ev; try discriminate; simpl; apply IH.
  - change (started (SpanStart i name :: inner ++ SpanEnd i :: rest))
      with (i :: started (inner ++ SpanEnd i :: rest)).
    change (ended (SpanStart i name :: inner ++ SpanEnd i :: rest))
      with (ended (inner ++ SpanEnd i :: rest)).
    rewrite started_app, ended_app.
    change (ended (SpanEnd i :: rest)) with (i :: ended rest).
    change (started (SpanEnd i :: rest)) with (started rest).
    simpl. rewrite !length_app. simpl. lia.
Qed.

(* ------------------------------------------------------------------ *)
(** ** Span discipline of computations *)

Lemma seq_join a b c :
  a <= b -> b <= c -> (seq a (b - a) ++ seq b (c - b))%list = seq a (c - a).
Proof.
  intros Hab Hbc. replace (c - a) with ((b - a) + (c - b)) by lia.
  rewrite seq_app. replace (a + (b - a)) with b by lia. reflexivity.
Qed.

Lemma scoped_trans w1 w2 w3 t1 t2 :
  scoped w1 w2 t1 -> scoped w2 w3 t2 -> scoped w1 w3 (t1 ++ t2).
Proof.
  intros [N1 L1 I1] [N2 L2 I2]. split.
  - now apply nested_app.
  - lia.
  - rewrite started_app, I1, I2. now apply seq_join.
Qed.

Lemma scoped_quiet w w' t :
  next_span w' = next_span w -> Forall (fun ev => is_span ev = false) t -> scoped w w' t.
Proof.
  intros Hn Hq. split.
  - induction Hq; constructor; assumption.
  - lia.
  - rewrite Hn, Nat.sub_diag. simpl.
    induction Hq as [|ev t Hev _ IH]; [reflexivity|].
    destruct ev; try discriminate; exact IH.
Qed.

Section ScopedRules.
Context {A B : Type}.

Lemma Scoped_ret (a : A) : Scoped (ret a).
Proof. intros w. now apply scoped_quiet. Qed.

Lemma Scoped_raise (e : Exn) : Scoped (@raise A e).
Proof. intros w. now apply scoped_quiet. Qed.

Lemma Scoped_gets (f : World -> A) : Scoped (gets f).
Proof. intros w. now apply scoped_quiet. Qed.

Lemma Scoped_bind (m : M A) (f : A -> M B) :
  Scoped m -> (forall a, Scoped (f a)) -> Scoped (bind m f).
Proof.
  intros Hm Hf w. unfold bind. specialize (Hm w).
  destruct (m w) as [[a|e] w1 t1]; simpl in *; [|exact Hm].
  specialize (Hf a w1). destruct (f a w1) as [r w2 t2]; simpl in *.
  eapply scoped_trans; eassumption.
Qed.

Lemma Scoped_try_except (m : M A) (h : Exn -> option (M A)) :
  Scoped m ->
  (forall e, match h e with Some k => Scoped k | None => True end) ->
  Scoped (try_except m h).
Proof.
  intros Hm Hh w. unfold try_except. specialize (Hm w).
  destruct (m w) as [[a|e] w1 t1]; simpl in *; [exact Hm|].
  specialize (Hh e). destruct (h e) as [k|]; [|exact Hm].
  specialize (Hh w1). destruct (k w1) as [r w2 t2]; simpl in *.
  eapply scoped_trans; eassumption.
Qed.

Lemma Scoped_finally (m : M A) (c : M unit) :
  Scoped m -> Scoped c -> Scoped (finally m c).
Proof.
  intros Hm Hc w. unfold finally. specialize (Hm w).
  destruct (m w) as [r w1 t1]; simpl in *.
  specialize (Hc w1). destruct (c w1) as [[u|e] w2 t2]; simpl in *;
    eapply scoped_trans; eassumption.
Qed.

(** The span opened by a [with] block is closed when the block is left,
    whatever the block does. *)
Lemma Scoped_span (name : string) (body : SpanId -> M A) :
  (forall span, Scoped (body span)) -> Scoped (start_as_current_span name body).
Proof.
  intros Hb w. unfold start_as_current_span, bind, gets, modify, emit, finally.
  specialize (Hb (next_span w) (set_next_span (S (next_span w)) w)).
  destruct (body (next_span w) (set_next_span (S (next_span w)) w)) as [r w1 t1].
  destruct Hb as [N L I]. simpl in *.
  assert (E : scoped w w1 (SpanStart (next_span w) name :: t1 ++ [SpanEnd (next_span w)])).
  { split.
    - now apply nested_wrap.
    - lia.
    - change (started (SpanStart (next_span w) name :: t1 ++ [SpanEnd (next_span w)]))
        with (next_span w :: started (t1 ++ [SpanEnd (next_span w)])).
      rewrite started_app, I. change (started [SpanEnd (next_span w)]) with (@nil SpanId).
      rewrite app_nil_r.
      replace (next_span w1 - next_span w) with (S (next_span w1 - S (next_span w))) by lia.
      reflexivity. }
  destruct r; exact E.
Qed.

End ScopedRules.

Lemma Scoped_for_each {X S} (xs : list X) (body : X -> S -> M S) (acc : S) :
  (forall x a, Scoped (body x a)) -> Scoped (for_each xs body acc).
Proof.
  intros Hb. revert acc. induction xs as [|x xs IH]; intros acc; simpl.
  - apply Scoped_ret.
  - apply Scoped_bind; [apply Hb | intros a; apply IH].
Qed.

Lemma Scoped_emit ev : is_span ev = false -> Scoped (emit ev).
Proof. intros H w. apply scoped_quiet; [reflexivity | now repeat constructor]. Qed.

Lemma Scoped_modify f :
  (forall w, next_span (f w) = next_span w) -> Scoped (modify f).
Proof. intros H w. apply scoped_quiet; [apply H | constructor]. Qed.

Lemma Scoped_when c body : Scoped body -> Scoped (when c body).
Proof. intros H. destruct c; [exact H | apply Scoped_ret]. Qed.

Lemma Scoped_send r : Scoped (send r).
Proof.
  intros w. unfold send. destruct (network (env w) (calls w));
    (apply scoped_quiet; [reflexivity | now repeat constructor]).
Qed.

Lemma Scoped_sqlite_op ev : is_span ev = false -> Scoped (sqlite_op ev).
Proof.
  intros H w. unfold sqlite_op. destruct (sqlite_fault (env w) (sqlite_ops w));
    (apply scoped_quiet; [reflexivity | now repeat constructor]).
Qed.

Lemma Scoped_utcnow : Scoped utcnow.
Proof. intros w. now apply scoped_quiet. Qed.

Lemma Scoped_new_uuid : Scoped new_uuid.
Proof. intros w. now apply scoped_quiet. Qed.

Lemma Scoped_jwt_decode token : Scoped (jwt_decode_ token).
Proof.
  intros w. unfold jwt_decode_. destruct (jwt_decode (env w) token); now apply scoped_quiet.
Qed.

Lemma Scoped_bind_parameter v : Scoped (bind_parameter v).
Proof. intros w. now apply scoped_quiet. Qed.

Create HintDb scoped.
#[local] Hint Resolve Scoped_ret Scoped_raise Scoped_gets Scoped_send Scoped_utcnow
  Scoped_new_uuid Scoped_jwt_decode Scoped_bind_parameter : scoped.

(** Walks a handler along its syntax.  Branches on data are split; an
    [except] clause is entered for every exception it can match. *)
Ltac scoped_step :=
  lazymatch goal with
  | |- Scoped (bind _ _) => apply Scoped_bind; [|intro]
  | |- Scoped (start_as_current_span _ _) => apply Scoped_span; intro
  | |- Scoped (try_except _ _) =>
      apply Scoped_try_except;
      [|let e := fresh "e" in
        intro e; destruct e;
        cbv beta iota delta [is_RequestError is_sqlite3_Error Auth.on_jwt_error
                             Db.on_sqlite_error Db.on_sqlite_error_rollback];
        try exact I]
  | |- Scoped (finally _ _) => apply Scoped_finally
  | |- Scoped (for_each _ _ _) => apply Scoped_for_each; intros
  | |- Scoped (when _ _) => apply Scoped_when
  | |- Scoped (emit _) => apply Scoped_emit; reflexivity
  | |- Scoped (sqlite_op _) => apply Scoped_sqlite_op; reflexivity
  | |- Scoped (modify _) => apply Scoped_modify; intro; reflexivity
  | |- Scoped (if ?c then _ else _) => destruct c
  | |- Scoped (match ?x with _ => _ end) => destruct x
  | |- Scoped _ => solve [auto with scoped]
  end.

Ltac scoped_walk := repeat scoped_step.

Lemma Scoped_response_json r : Scoped (response_json r).
Proof. unfold response_json. scoped_walk. Qed.

Lemma Scoped_subscript v k : Scoped (subscript v k).
Proof. unfold subscript. scoped_walk. Qed.

Lemma Scoped_dict_get v k d : Scoped (dict_get v k d).
Proof. unfold dict_get. scoped_walk. Qed.

Lemma Scoped_index {A} (xs : list A) i : Scoped (index xs i).
Proof. unfold index. scoped_walk. Qed.

#[local] Hint Resolve Scoped_response_json Scoped_subscript Scoped_dict_get Scoped_index : scoped.

Lemma Scoped_set_attribute span key v : Scoped (set_attribute span key v).
Proof. unfold set_attribute. scoped_walk. Qed.

Lemma Scoped_set_status span code msg : Scoped (set_status span code msg).
Proof. unfold set_status. scoped_walk. Qed.

Lemma Scoped_request_counter_add n tags : Scoped (request_counter_add n tags).
Proof. unfold request_counter_add. scoped_walk. Qed.

Lemma Scoped_request_duration_record tags : Scoped (request_duration_record tags).
Proof. unfold request_duration_record. scoped_walk. Qed.

Lemma Scoped_db_operations_counter_add n tags : Scoped (db_operations_counter_add n tags).
Proof. unfold db_operations_counter_add. scoped_walk. Qed.

Lemma Scoped_db_operation_duration_record tags : Scoped (db_operation_duration_record tags).
Proof. unfold db_operation_duration_record. scoped_walk. Qed.

Lemma Scoped_client_post svc p js hs t : Scoped (client_post svc p js hs t).
Proof. apply Scoped_send. Qed.

Lemma Scoped_client_get svc p hs t : Scoped (client_get svc p hs t).
Proof. apply Scoped_send. Qed.

Lemma Scoped_get_db_connection : Scoped get_db_connection.
Proof. unfold get_db_connection. scoped_walk. Qed.

Lemma Scoped_commit : Scoped commit.
Proof. unfold commit. scoped_walk. Qed.

Lemma Scoped_rollback : Scoped rollback.
Proof. unfold rollback. scoped_walk. Qed.

Lemma Scoped_close : Scoped close.
Proof. unfold close. scoped_walk. Qed.

Lemma Scoped_inject_latency : Scoped inject_latency.
Proof. unfold inject_latency. scoped_walk. Qed.

Lemma Scoped_execute_insert_item id data c u : Scoped (execute_insert_item id data c u).
Proof. unfold execute_insert_item. scoped_walk. Qed.

Lemma Scoped_execute_select_item id : Scoped (execute_select_item id).
Proof. unfold execute_select_item. scoped_walk. Qed.

Lemma Scoped_execute_select_items limit : Scoped (execute_select_items limit).
Proof. unfold execute_select_items. scoped_walk. Qed.

Lemma Scoped_execute_delete_item id : Scoped (execute_delete_item id).
Proof. unfold execute_delete_item. scoped_walk. Qed.

Lemma Scoped_execute_select_user username : Scoped (execute_select_user username).
Proof. unfold execute_select_user. scoped_walk. Qed.

Lemma Scoped_execute_insert_user username password :
  Scoped (execute_insert_user username password).
Proof. unfold execute_insert_user. scoped_walk. Qed.

#[local] Hint Resolve Scoped_set_attribute Scoped_set_status Scoped_request_counter_add
  Scoped_request_duration_record Scoped_db_operations_counter_add
  Scoped_db_operation_duration_record Scoped_client_post Scoped_client_get
  Scoped_get_db_connection Scoped_commit Scoped_rollback Scoped_close Scoped_inject_latency
  Scoped_execute_insert_item Scoped_execute_select_item Scoped_execute_select_items
  Scoped_execute_delete_item Scoped_execute_select_user Scoped_execute_insert_user : scoped.

Lemma Scoped_app (r : App.Request) : Scoped (App.handle r).
Proof.
  destruct r; unfold App.handle, App.create_data, App.get_data, App.get_preset_data,
    App.list_presets, App.seed_preset_data, App.seed_item, App.require_authorization,
    App.validate_token; scoped_walk.
Qed.

Lemma Scoped_auth (r : Auth.Request) : Scoped (Auth.handle r).
Proof.
  destruct r; unfold Auth.handle, Auth.root, Auth.health, Auth.login, Auth.validate_token,
    Auth.token_info, Auth.bearer_token; scoped_walk.
Qed.

Lemma Scoped_db (r : Db.Request) : Scoped (Db.handle r).
Proof.
  destruct r; unfold Db.handle, Db.root, Db.health, Db.store_data, Db.retrieve_data,
    Db.list_items, Db.delete_data, Db.get_user, Db.create_user, Db.require_authorization; scoped_walk.
Qed.

Lemma Scoped_serve (r : Request) : Scoped (serve r).
Proof.
  destruct r; simpl.
  - apply Scoped_ret.
  - apply Scoped_ret.
  - apply Scoped_app.
  - apply Scoped_auth.
  - apply Scoped_db.
Qed.

(** C3.  Whatever request any of the three services handles and whatever
    its collaborators answer, the spans of the request are closed in strict
    reverse order of opening and none is left open; as many spans are
    closed as are opened; no span is opened twice; and every span that is
    opened is closed exactly once. *)
Theorem spans_closed_once_in_lifo_order (r : Request) (w : World) :
  let t := trace (serve r w) in
  lifo [] t = true /\
  List.length (ended t) = List.length (started t) /\
  NoDup (started t) /\
  (forall id, In id (started t) -> count_occ Nat.eq_dec (ended t) id = 1).
Proof.
  destruct (Scoped_serve r w) as [N L I]. cbv zeta. repeat split.
  - now apply nested_lifo_closed.
  - now apply nested_same_number.
  - rewrite I. apply seq_NoDup.
  - intros id Hid. rewrite (nested_balanced N).
    apply NoDup_count_occ'; [|exact Hid]. rewrite I. apply seq_NoDup.
Qed.

(* ------------------------------------------------------------------ *)
(** ** Metric observations of computations *)

Lemma metrics_app t1 t2 : metrics (t1 ++ t2) = metrics t1 ++ metrics t2.
Proof. apply filter_app. Qed.

Lemma counts_metrics t : counts (metrics t) = counts t.
Proof.
  unfold counts, metrics. induction t as [|ev t IH]; [reflexivity|].
  destruct ev; simpl; rewrite ?IH; reflexivity.
Qed.

Lemma durations_metrics t : durations (metrics t) = durations t.
Proof.
  unfold durations, metrics. induction t as [|ev t IH]; [reflexivity|].
  destruct ev; simpl; rewrite ?IH; reflexivity.
Qed.

Section MetricRules.
Context {A B : Type}.

Lemma Unmetered_ret (a : A) : Unmetered (ret a).
Proof. intros w. reflexivity. Qed.

Lemma Unmetered_raise (e : Exn) : Unmetered (@raise A e).
Proof. intros w. reflexivity. Qed.

Lemma Unmetered_gets (f : World -> A) : Unmetered (gets f).
Proof. intros w. reflexivity. Qed.

Lemma Unmetered_bind (m : M A) (f : A -> M B) :
  Unmetered m -> (forall a, Unmetered (f a)) -> Unmetered (bind m f).
Proof.
  intros Hm Hf w. unfold bind. specialize (Hm w).
  destruct (m w) as [[a|e] w1 t1]; simpl in *; [|exact Hm].
  specialize (Hf a w1). destruct (f a w1) as [r w2 t2]; simpl in *.
  now rewrite metrics_app, Hm, Hf.
Qed.

Lemma Unmetered_try_except (m : M A) (h : Exn -> option (M A)) :
  Unmetered m ->
  (forall e, match h e with Some k => Unmetered k | None => True end) ->
  Unmetered (try_except m h).
Proof.
  intros Hm Hh w. unfold try_except. specialize (Hm w).
  destruct (m w) as [[a|e] w1 t1]; simpl in *; [exact Hm|].
  specialize (Hh e). destruct (h e) as [k|]; [|exact Hm].
  specialize (Hh w1). destruct (k w1) as [r w2 t2]; simpl in *.
  now rewrite metrics_app, Hm, Hh.
Qed.

Lemma Unmetered_finally (m : M A) (c : M unit) :
  Unmetered m -> Unmetered c -> Unmetered (finally m c).
Proof.
  intros Hm Hc w. unfold finally. specialize (Hm w).
  destruct (m w) as [r w1 t1]; simpl in *.
  specialize (Hc w1). destruct (c w1) as [[u|e] w2 t2]; simpl in *;
    now rewrite metrics_app, Hm, Hc.
Qed.

Lemma span_run (name : string) (body : SpanId -> M A) (w : World) :
  start_as_current_span name body w =
  let r := body (next_span w) (set_next_span (S (next_span w)) w) in
  mkRun (result r) (final r) (SpanStart (next_span w) name :: trace r ++ [SpanEnd (next_span w)]).
Proof.
  unfold start_as_current_span, bind, gets, modify, emit, finally. cbv zeta.
  destruct (body (next_span w) (set_next_span (S (next_span w)) w)) as [[a|e] w1 t1];
    reflexivity.
Qed.

Lemma Unmetered_span (name : string) (body : SpanId -> M A) :
  (forall span, Unmetered (body span)) -> Unmetered (start_as_current_span name body).
Proof.
  intros Hb w. rewrite span_run. cbv zeta. simpl trace.
  change (SpanStart (next_span w) name :: ?t) with ([SpanStart (next_span w) name] ++ t).
  rewrite !metrics_app, Hb. reflexivity.
Qed.

Lemma Timed_raise tags (e : Exn) : Timed tags (@raise A e).
Proof. intros w. reflexivity. Qed.

Lemma Timed_record tags (a : A) : Timed tags (request_duration_record tags ;; ret a).
Proof. intros w. reflexivity. Qed.

Lemma Timed_bind tags (m : M A) (f : A -> M B) :
  Unmetered m -> (forall a, Timed tags (f a)) -> Timed tags (bind m f).
Proof.
  intros Hm Hf w. unfold bind. specialize (Hm w).
  destruct (m w) as [[a|e] w1 t1]; simpl in *; [|exact Hm].
  specialize (Hf a w1). destruct (f a w1) as [r w2 t2]; simpl in *.
  now rewrite metrics_app, Hm, Hf.
Qed.

Lemma Timed_try_except tags (m : M A) (h : Exn -> option (M A)) :
  Timed tags m ->
  (forall e, match h e with Some k => Timed tags k | None => True end) ->
  Timed tags (try_except m h).
Proof.
  intros Hm Hh w. unfold try_except. specialize (Hm w).
  destruct (m w) as [[a|e] w1 t1]; simpl in *; [exact Hm|].
  specialize (Hh e). destruct (h e) as [k|]; [|exact Hm].
  specialize (Hh w1). destruct (k w1) as [r w2 t2]; simpl in *.
  now rewrite metrics_app, Hm, Hh.
Qed.

Lemma Timed_span tags (name : string) (body : SpanId -> M A) :
  (forall span, Timed tags (body span)) -> Timed tags (start_as_current_span name body).
Proof.
  intros Hb w. rewrite span_run. cbv zeta. simpl trace. simpl result.
  change (SpanStart (next_span w) name :: ?t) with ([SpanStart (next_span w) name] ++ t).
  rewrite !metrics_app, Hb. simpl. now rewrite app_nil_r.
Qed.
End MetricRules.

Lemma Unmetered_for_each {X S} (xs : list X) (body : X -> S -> M S) (acc : S) :
  (forall x a, Unmetered (body x a)) -> Unmetered (for_each xs body acc).
Proof.
  intros Hb. revert acc. induction xs as [|x xs IH]; intros acc; simpl.
  - apply Unmetered_ret.
  - apply Unmetered_bind; [apply Hb | intros a; apply IH].
Qed.

Lemma Unmetered_emit ev : is_metric ev = false -> Unmetered (emit ev).
Proof. intros H w. unfold metrics. simpl. now rewrite H. Qed.

Lemma Unmetered_when c body : Unmetered body -> Unmetered (when c body).
Proof. intros H. destruct c; [exact H | apply Unmetered_ret]. Qed.

Lemma Unmetered_send r : Unmetered (send r).
Proof. intros w. unfold send. destruct (network (env w) (calls w)); reflexivity. Qed.

Lemma Unmetered_set_attribute span key v : Unmetered (set_attribute span key v).
Proof. now apply Unmetered_emit. Qed.

Lemma Unmetered_set_status span code msg : Unmetered (set_status span code msg).
Proof. now apply Unmetered_emit. Qed.

Lemma Unmetered_client_post svc p js hs t : Unmetered (client_post svc p js hs t).
Proof. apply Unmetered_send. Qed.

Lemma Unmetered_client_get svc p hs t : Unmetered (client_get svc p hs t).
Proof. apply Unmetered_send. Qed.

Lemma Unmetered_response_json r : Unmetered (response_json r).
Proof. unfold response_json. destruct (json r); [apply Unmetered_ret | apply Unmetered_raise]. Qed.

Lemma Unmetered_subscript v k : Unmetered (subscript v k).
Proof.
  unfold subscript. destruct v; try apply Unmetered_raise.
  destruct (lookup k d); [apply Unmetered_ret | apply Unmetered_raise].
Qed.

Lemma Unmetered_dict_get v k d : Unmetered (dict_get v k d).
Proof.
  unfold dict_get. destruct v; try apply Unmetered_raise.
  destruct (lookup k d0); apply Unmetered_ret.
Qed.

Create HintDb metrics.
#[local] Hint Resolve Unmetered_ret Unmetered_raise Unmetered_gets Unmetered_send
  Unmetered_set_attribute Unmetered_set_status Unmetered_client_post Unmetered_client_get
  Unmetered_response_json Unmetered_subscript Unmetered_dict_get : metrics.

Ltac enter_except_clauses :=
  let e := fresh "e" in
  intro e; destruct e;
  cbv beta iota delta [is_RequestError is_sqlite3_Error Auth.on_jwt_error
                       Db.on_sqlite_error Db.on_sqlite_error_rollback];
  try exact I.

Ltac unmetered_step :=
  lazymatch goal with
  | |- Unmetered (bind _ _) => apply Unmetered_bind; [|intro]
  | |- Unmetered (start_as_current_span _ _) => apply Unmetered_span; intro
  | |- Unmetered (try_except _ _) => apply Unmetered_try_except; [|enter_except_clauses]
  | |- Unmetered (finally _ _) => apply Unmetered_finally
  | |- Unmetered (for_each _ _ _) => apply Unmetered_for_each; intros
  | |- Unmetered (when _ _) => apply Unmetered_when
  | |- Unmetered (if ?c then _ else _) => destruct c
  | |- Unmetered (match ?x with _ => _ end) => destruct x
  | |- Unmetered _ => solve [auto with metrics]
  end.

Lemma Unmetered_require_authorization span a : Unmetered (App.require_authorization span a).
Proof. unfold App.require_authorization. repeat unmetered_step. Qed.

Lemma Unmetered_validate_token span a : Unmetered (App.validate_token span a).
Proof. unfold App.validate_token. repeat unmetered_step. Qed.

Lemma Unmetered_seed_item a entry ids : Unmetered (App.seed_item a entry ids).
Proof. unfold App.seed_item. repeat unmetered_step. Qed.

#[local] Hint Resolve Unmetered_require_authorization Unmetered_validate_token
  Unmetered_seed_item : metrics.

Ltac timed_step :=
  lazymatch goal with
  | |- Timed _ (bind (request_duration_record _) (fun _ => ret _)) => apply Timed_record
  | |- Timed _ (bind _ _) => apply Timed_bind; [solve [repeat unmetered_step]|intro]
  | |- Timed _ (start_as_current_span _ _) => apply Timed_span; intro
  | |- Timed _ (try_except _ _) => apply Timed_try_except; [|enter_except_clauses]
  | |- Timed _ (raise _) => apply Timed_raise
  | |- Timed _ (if ?c then _ else _) => destruct c
  | |- Timed _ (match ?x with _ => _ end) => destruct x
  end.

(** Every handler is the count observation followed by a timed block. *)
Lemma handle_counts_then_times (req : App.Request) :
  exists body,
    App.handle req = (request_counter_add 1 (request_tags req) ;; body) /\
    Timed (success_tags req) body.
Proof.
  destruct req; eexists; (split; [reflexivity|]); repeat timed_step.
Qed.

(* ------------------------------------------------------------------ *)
(** ** Symbolic execution of a handler *)

Unset Implicit Arguments.

Ltac run_handler :=
  cbv beta iota zeta delta
    [App.handle App.create_data App.get_data App.get_preset_data App.list_presets
     App.seed_preset_data App.seed_item App.seed_items App.require_authorization
     App.validate_token
     Baseline.get_data
     Db.get_user Db.on_sqlite_error
     bind ret raise emit gets modify when try_except finally for_each
     enumerate enumerate_from
     start_as_current_span set_attribute set_status
     request_counter_add request_duration_record
     db_operations_counter_add db_operation_duration_record
     send client_post client_get response_json subscript dict_get
     stored_id get_db_connection close inject_latency execute_select_user sqlite_op
     set_calls set_next_span set_now set_sqlite_ops set_uuids set_committed set_session
     is_RequestError is_sqlite3_Error];
  cbn [result final trace env calls next_span now sqlite_ops uuids committed session
       app http_calls opened started ended map fst snd filter to_db target negb
       Nat.add seq firstn http_response http_status status_of final_status].

(** Runs a handler as far as the facts at hand about the request and the
    collaborators decide it. *)
Ltac settle :=
  repeat (run_handler;
          match goal with
          | H : not_ _ = _ |- _ => rewrite H
          | H : network _ _ = _ |- _ => rewrite H
          | H : sqlite_fault _ _ = _ |- _ => rewrite H
          | H : (_ =? _)%Z = _ |- _ => rewrite H
          | H : (_ <? _)%Z = _ |- _ => rewrite H
          | H : json _ = _ |- _ => rewrite H
          | H : lookup _ _ = _ |- _ => rewrite H
          | H : find _ _ = _ |- _ => rewrite H
          end);
  run_handler.

(** Compares a span id with another one of the same request. *)
Ltac compare_span_ids :=
  repeat match goal with
         | |- context [Nat.eqb ?a ?b] =>
             first [ rewrite (Nat.eqb_refl a)
                   | replace (Nat.eqb a b) with false
                       by (symmetry; apply Nat.eqb_neq; lia) ]
         end.

(* ------------------------------------------------------------------ *)
(** ** Sample runs *)

Example create_data_stores :
  let run := App.create_data (JDict [("name", JStr "x")]) (Some "Bearer token") all_up in
  result run = Ok (JDict [("id", JStr "abc-123"); ("status", JStr "stored")]) /\
  metrics (trace run) =
    [CounterAdd "http_requests_total" 1 [("method", "POST"); ("endpoint", "/api/data")];
     HistogramRecord "http_request_duration_seconds"
       [("method", "POST"); ("endpoint", "/api/data"); ("status", "200")]] /\
  opened (trace run) = [(0, "app.create_data"); (1, "app.validate_token"); (2, "app.store_data")] /\
  ended (trace run) = [1; 2; 0] /\
  status_of 0 (trace run) = (UNSET, "").
Proof. repeat split. Qed.

Example get_data_of_missing_item :
  let run := App.get_data "abc" (Some "Bearer token") item_missing in
  result run = Raise (HTTPException 404 "Item not found") /\
  status_of 0 (trace run) = (ERROR, "Item not found") /\
  durations (trace run) = [].
Proof. repeat split. Qed.

Example get_preset_data_unknown :
  result (App.get_preset_data "motd" (Some "Bearer token") all_up)
  = Raise (HTTPException 404
             "Preset 'motd' not found. Available: ['welcome', 'status', 'info']").
Proof. reflexivity. Qed.

Example validate_token_takes_second_field :
  result (Auth.bearer_token "Bearer abc def" all_up) = Ok "abc" /\
  result (Auth.bearer_token "abc def" all_up) = Ok "abc def".
Proof. split; reflexivity. Qed.

Example store_data_commits :
  let run := Db.store_data (JDict [("name", JStr "x")]) (Some "Bearer token") all_up in
  result run = Ok (JDict [("id", JStr "5f0c"); ("status", JStr "stored"); ("created_at", JInt 2)]) /\
  items (committed (final run)) = [mkItem "5f0c" "{}" 0 1] /\
  opened (trace run) = [(0, "db.store_data"); (1, "db.execute_insert")].
Proof. repeat split. Qed.

Example lifo_rejects_crossed_spans :
  lifo [] [SpanStart 0 "a"; SpanStart 1 "b"; SpanEnd 0; SpanEnd 1] = false /\
  lifo [] [SpanStart 0 "a"; SpanStart 1 "b"; SpanEnd 1] = false /\
  lifo [] [SpanStart 0 "a"; SpanStart 1 "b"; SpanEnd 1; SpanEnd 0] = true.
Proof. repeat split. Qed.

(* ------------------------------------------------------------------ *)
(** ** C1: metric observations *)

(** C1, as the code has it.  Every request to one of the five handlers
    records exactly one count observation, first of all and tagged with
    method and route only; it records exactly one duration observation,
    tagged with method, route and status ["200"], when the handler returns,
    and no duration observation when the handler raises. *)
Theorem one_count_always_one_duration_on_success (req : App.Request) (w : World) :
  let run := App.handle req w in
  hd_error (trace run) = Some (CounterAdd "http_requests_total" 1 (request_tags req)) /\
  counts (trace run) = [CounterAdd "http_requests_total" 1 (request_tags req)] /\
  durations (trace run) =
    match result run with
    | Ok _ => [HistogramRecord "http_request_duration_seconds" (success_tags req)]
    | Raise _ => []
    end.
Proof.
  destruct (handle_counts_then_times req) as [body [E T]]. cbv zeta. rewrite E.
  specialize (T w). unfold bind, request_counter_add, emit.
  destruct (body w) as [r w1 t1]. simpl in *. repeat split.
  - rewrite <- counts_metrics. change (metrics (?e :: t1)) with (e :: metrics t1).
    rewrite T. destruct r; reflexivity.
  - rewrite <- durations_metrics. change (metrics (?e :: t1)) with (e :: metrics t1).
    rewrite T. destruct r; reflexivity.
Qed.

(** C1 as stated fails: a request without credentials records no duration
    observation, and a successful request records a count observation that
    carries no status. *)
Lemma no_duration_on_failure_no_status_on_count :
  ~ observed_once_with_status (trace (App.handle (App.GetData "abc" None) all_down)) /\
  ~ observed_once_with_status
      (trace (App.handle (App.ListPresets (Some "Bearer token")) db_down)).
Proof.
  split.
  - intros [ctags [dtags [_ [H _]]]]. vm_compute in H. discriminate H.
  - intros [ctags [dtags [Hc [_ [Hs _]]]]]. vm_compute in Hc.
    injection Hc as <-. apply Hs. reflexivity.
Qed.

(* ------------------------------------------------------------------ *)
(** ** C4 and C5: requests that stop before the storage call *)

(** C4.  A request to any of the five handlers that carries no
    Authorization header is answered 401; the root span is the only span
    opened for it and no collaborator is called. *)
Theorem missing_header_stops_at_root_span (req : App.Request) (w : World) :
  App.authorization_of req = None ->
  let run := App.handle req w in
  result run = Raise (HTTPException 401 "Missing authorization header") /\
  http_status (result run) = 401%Z /\
  opened (trace run) = [(next_span w, App.root_span_name req)] /\
  http_calls (trace run) = [].
Proof.
  intros H. destruct req; simpl in H; subst; run_handler; repeat split.
Qed.

Lemma missing_header_stops_at_root_span_witness :
  let run := App.handle (App.CreateData (JDict [("name", JStr "x")]) None) all_down in
  result run = Raise (HTTPException 401 "Missing authorization header") /\
  http_status (result run) = 401%Z /\
  opened (trace run) = [(0, "app.create_data")] /\
  http_calls (trace run) = [].
Proof.
  apply (missing_header_stops_at_root_span
           (App.CreateData (JDict [("name", JStr "x")]) None) all_down).
  reflexivity.
Defined.

(** C5.  When credentials are present and the token validation call
    raises a [httpx.RequestError] (connection refused, or one of the
    timeouts of the 5 second limit the call is issued with), the handler
    answers 503 and the validation call is the only outbound call of the
    request: the db service is not called. *)
Theorem auth_unavailable_skips_storage (req : App.Request) (w : World) (k : RequestErrorKind) :
  not_ (App.authorization_of req) = false ->
  network (env w) (calls w) = Failed k ->
  let run := App.handle req w in
  result run = Raise (HTTPException 503 "Auth service unavailable") /\
  http_status (result run) = 503%Z /\
  http_calls (trace run) =
    [mkRequest AuthService POST "/validate" None
       [("Authorization", header_value (App.authorization_of req))] 5] /\
  filter to_db (http_calls (trace run)) = [].
Proof.
  intros Ha Hk. destruct req; simpl in Ha |- *; run_handler; rewrite Ha;
    run_handler; rewrite Hk; run_handler; repeat split.
Qed.

Lemma auth_unavailable_skips_storage_witness :
  let run := App.handle (App.SeedPresetData (Some "Bearer token")) all_down in
  result run = Raise (HTTPException 503 "Auth service unavailable") /\
  http_status (result run) = 503%Z /\
  http_calls (trace run) =
    [mkRequest AuthService POST "/validate" None [("Authorization", "Bearer token")] 5] /\
  filter to_db (http_calls (trace run)) = [].
Proof.
  apply (auth_unavailable_skips_storage
           (App.SeedPresetData (Some "Bearer token")) all_down ConnectError);
    reflexivity.
Defined.

(* ------------------------------------------------------------------ *)
(** ** C2: the failure a caller sees *)

(** C2, as the code has it.  A request that fails at the credential check,
    at the token validation call, or at the storage call of [create_data]
    or [get_data] is answered with the status of its failure: 401 for
    missing credentials and for any token validation answer other than
    200, 503 for a collaborator that cannot be reached, 404 when the
    storage call of [get_data] answers 404, 500 for any other storage
    answer than 200.  The span in which the request fails is the last one
    opened, and it and the root span both end with status ERROR and the
    description of the failure. *)
Theorem failures_are_mapped_and_marked
    (req : App.Request) (w : World) (f : Failure) (step : nat) :
  mapped_failure req w = Some (f, step) ->
  let run := App.handle req w in
  http_status (result run) = caller_status f /\
  map snd (opened (trace run)) = firstn (S step) (span_names req) /\
  started (trace run) = seq (next_span w) (S step) /\
  status_of (step + next_span w) (trace run) = (ERROR, span_message f step) /\
  status_of (next_span w) (trace run) = (ERROR, span_message f step) /\
  span_message f step <> "".
Proof.
  unfold mapped_failure, token_validation_failure, store_failure, retrieve_failure.
  intros H.
  destruct (not_ (App.authorization_of req)) eqn:Ha.
  { injection H as <- <-. destruct req; simpl in Ha; settle; compare_span_ids;
      repeat split; discriminate. }
  destruct (network (env w) (calls w)) as [r|k] eqn:Hn.
  2:{ injection H as <- <-. destruct req; simpl in Ha; settle; compare_span_ids;
        repeat split; discriminate. }
  destruct (status_code r =? 200)%Z eqn:Hs.
  2:{ injection H as <- <-. destruct req; simpl in Ha; settle; compare_span_ids;
        repeat split; discriminate. }
  destruct req; try discriminate H; simpl in Ha.
  - destruct (network (env w) (S (calls w))) as [r2|k2] eqn:Hn2; simpl in H.
    + destruct (status_code r2 =? 200)%Z eqn:Hs2; [discriminate H|].
      injection H as <- <-. settle; compare_span_ids; repeat split; discriminate.
    + injection H as <- <-. settle; compare_span_ids; repeat split; discriminate.
  - destruct (network (env w) (S (calls w))) as [r2|k2] eqn:Hn2; simpl in H.
    + destruct (status_code r2 =? 404)%Z eqn:Hs4.
      * injection H as <- <-. settle; compare_span_ids; repeat split; discriminate.
      * destruct (status_code r2 =? 200)%Z eqn:Hs2; [discriminate H|].
        injection H as <- <-. settle; compare_span_ids; repeat split; discriminate.
    + injection H as <- <-. settle; compare_span_ids; repeat split; discriminate.
Qed.

Lemma failures_are_mapped_and_marked_witness :
  let run := App.handle (App.GetData "abc" (Some "Bearer token")) item_missing in
  http_status (result run) = 404%Z /\
  map snd (opened (trace run)) = ["app.get_data"; "app.validate_token"; "app.retrieve_data"] /\
  started (trace run) = [0; 1; 2] /\
  status_of 2 (trace run) = (ERROR, "Item not found") /\
  status_of 0 (trace run) = (ERROR, "Item not found") /\
  "Item not found" <> "".
Proof.
  apply (failures_are_mapped_and_marked
           (App.GetData "abc" (Some "Bearer token")) item_missing NotFound 2).
  reflexivity.
Defined.

(** C2 as stated fails.  [seed_preset_data] answers 200 although the db
    service cannot be reached, and a token validation call that answers
    500 is reported to the caller as 401. *)
Lemma unreachable_db_is_not_503_and_failing_auth_is_not_500 :
  (network (env db_down) 1 = Failed ConnectError /\
   http_calls (trace (App.handle (App.SeedPresetData (Some "Bearer token")) db_down)) <> [] /\
   http_status (result (App.handle (App.SeedPresetData (Some "Bearer token")) db_down))
   = 200%Z) /\
  (network (env auth_broken) 0 = answer 500 None /\
   http_status (result (App.handle (App.GetData "abc" (Some "Bearer token")) auth_broken))
   = 401%Z).
Proof.
  repeat split; try reflexivity. vm_compute. discriminate.
Qed.

(* ------------------------------------------------------------------ *)
(** ** C8: the instrumented and the baseline [get_data] *)

Ltac split_on_world :=
  match goal with
  | |- context [not_ ?a] => destruct (not_ a) eqn:?
  | |- context [network ?e ?n] => destruct (network e n) eqn:?
  | |- context [(status_code ?r =? ?c)%Z] => destruct (status_code r =? c)%Z eqn:?
  | |- context [json ?r] => destruct (json r) eqn:?
  end.

Lemma get_data_same_result (item_id : string) (authorization : option string) (w : World) :
  result (App.get_data item_id authorization w)
  = result (Baseline.get_data item_id authorization w).
Proof.
  run_handler. repeat (split_on_world; run_handler); reflexivity.
Qed.

Lemma get_data_same_calls (item_id : string) (authorization : option string) (w : World) :
  http_calls (trace (App.get_data item_id authorization w))
  = http_calls (trace (Baseline.get_data item_id authorization w)).
Proof.
  run_handler. repeat (split_on_world; run_handler); reflexivity.
Qed.

(** C8.  For every request and every behaviour of the collaborators, the
    instrumented [get_data] sends the caller the status code and body the
    baseline [get_data] sends, and issues the same outbound calls. *)
Theorem instrumentation_preserves_get_data
    (item_id : string) (authorization : option string) (w : World) :
  http_response (result (App.get_data item_id authorization w))
  = http_response (result (Baseline.get_data item_id authorization w)) /\
  http_calls (trace (App.get_data item_id authorization w))
  = http_calls (trace (Baseline.get_data item_id authorization w)).
Proof.
  split.
  - now rewrite get_data_same_result.
  - apply get_data_same_calls.
Qed.

(* ------------------------------------------------------------------ *)
(** ** C9: seeding *)

Ltac split_store_answer H :=
  match type of H with
  | store_answer_ok ?o = true =>
      let r := fresh "r" in
      let d := fresh "d" in
      destruct o as [r|?] eqn:?; simpl in H;
      [ destruct (status_code r =? 200)%Z eqn:?;
        [ destruct (json r) as [[| | | | |d]|] eqn:?; try discriminate H;
          destruct (lookup "id" d) eqn:?; try discriminate H
        | ]
      | ]
  end.

(** The answer of [seed_preset_data] when every store call is answered
    as [store_answer_ok] has it. *)
Lemma seed_preset_data_result (authorization : option string) (w : World) (r : Response) :
  not_ authorization = false ->
  network (env w) (calls w) = Responded r ->
  status_code r = 200%Z ->
  (forall i, i < 3 -> store_answer_ok (network (env w) (S i + calls w)) = true) ->
  let ids := stored_id (network (env w) (1 + calls w))
             ++ stored_id (network (env w) (2 + calls w))
             ++ stored_id (network (env w) (3 + calls w)) in
  result (App.seed_preset_data authorization w)
  = Ok (JDict [("status", JStr "seeded");
               ("items_created", JInt (Z.of_nat (List.length ids)));
               ("item_ids", JList ids)]).
Proof.
  intros Ha Hn Hs Hok. apply Z.eqb_eq in Hs.
  pose proof (Hok 0 ltac:(lia)) as H1.
  pose proof (Hok 1 ltac:(lia)) as H2.
  pose proof (Hok 2 ltac:(lia)) as H3. clear Hok. simpl Nat.add in *.
  split_store_answer H1; split_store_answer H2; split_store_answer H3;
    settle; reflexivity.
Qed.

(** C9, as the code has it.  For an authorized request, when every store
    call fails, is answered with a status other than 200, or is answered
    200 with an object that has an ["id"], [seed_preset_data] answers 200
    with status ["seeded"], the ids of the 200 answers and their number. *)
Theorem seeding_swallows_store_failures (authorization : option string) (w : World) (r : Response) :
  not_ authorization = false ->
  network (env w) (calls w) = Responded r ->
  status_code r = 200%Z ->
  (forall i, i < 3 -> store_answer_ok (network (env w) (S i + calls w)) = true) ->
  let run := App.seed_preset_data authorization w in
  let ids := stored_id (network (env w) (1 + calls w))
             ++ stored_id (network (env w) (2 + calls w))
             ++ stored_id (network (env w) (3 + calls w)) in
  result run = Ok (JDict [("status", JStr "seeded");
                          ("items_created", JInt (Z.of_nat (List.length ids)));
                          ("item_ids", JList ids)]) /\
  http_status (result run) = 200%Z.
Proof.
  intros Ha Hn Hs Hok. cbv zeta.
  rewrite (seed_preset_data_result authorization w r Ha Hn Hs Hok).
  split; reflexivity.
Qed.

Lemma seeding_swallows_store_failures_witness :
  let run := App.seed_preset_data (Some "Bearer token") db_flaky in
  result run = Ok (JDict [("status", JStr "seeded");
                          ("items_created", JInt 1);
                          ("item_ids", JList [JStr "a1"])]) /\
  http_status (result run) = 200%Z.
Proof.
  apply (seeding_swallows_store_failures (Some "Bearer token") db_flaky
           (mkResponse 200 (Some (JDict [("valid", JBool true)])))).
  - reflexivity.
  - reflexivity.
  - reflexivity.
  - intros i Hi. destruct i as [|[|[|i]]]; [reflexivity | reflexivity | reflexivity | lia].
Defined.

(** When no store call stores anything the answer is still 200, with no
    item created. *)
Lemma seeding_with_every_store_refused (authorization : option string) (w : World) (r : Response) :
  not_ authorization = false ->
  network (env w) (calls w) = Responded r ->
  status_code r = 200%Z ->
  (forall i, i < 3 -> store_refused (network (env w) (S i + calls w)) = true) ->
  result (App.seed_preset_data authorization w)
  = Ok (JDict [("status", JStr "seeded"); ("items_created", JInt 0); ("item_ids", JList [])]).
Proof.
  intros Ha Hn Hs Hno.
  assert (Hok : forall i, i < 3 -> store_answer_ok (network (env w) (S i + calls w)) = true).
  { intros i Hi. specialize (Hno i Hi). unfold store_refused in Hno. unfold store_answer_ok.
    destruct (network (env w) (S i + calls w)) as [r'|]; [|reflexivity].
    destruct (status_code r' =? 200)%Z; [discriminate Hno | reflexivity]. }
  rewrite (seed_preset_data_result authorization w r Ha Hn Hs Hok). cbv zeta.
  assert (Hid : forall i, i < 3 -> stored_id (network (env w) (S i + calls w)) = []).
  { intros i Hi. specialize (Hno i Hi). unfold store_refused in Hno. unfold stored_id.
    destruct (network (env w) (S i + calls w)) as [r'|]; [|reflexivity].
    destruct (status_code r' =? 200)%Z; [discriminate Hno | reflexivity]. }
  rewrite (Hid 0), (Hid 1), (Hid 2) by lia. reflexivity.
Qed.

(** C9 as stated fails: a 200 answer without an ["id"] makes the seeding
    loop raise, and the caller is sent a 500. *)
Lemma seeding_raises_on_answer_without_id :
  let run := App.seed_preset_data (Some "Bearer token") id_missing in
  result run = Raise (KeyError "id") /\ http_status (result run) = 500%Z.
Proof. split; reflexivity. Qed.

(* ------------------------------------------------------------------ *)
(** ** C10: [get_user] of the db service *)

Lemma user_row_name username d name password :
  user_row username d = Some (name, password) -> name = username.
Proof.
  unfold user_row. intros H. apply find_some in H. destruct H as [_ H].
  simpl in H. now apply String.eqb_eq in H.
Qed.

(** C10, as the code has it.  [get_user] takes the user name and nothing
    else, so no Authorization header is asked for.  When the connection
    and the SELECT succeed, it answers 200 with the stored password in the
    clear if the user exists and 404 if not; when the SELECT raises a
    [sqlite3.Error] it answers 500; when opening the connection raises,
    the exception leaves the handler. *)
Theorem get_user_outcomes (username : string) (w : World) :
  let run := Db.get_user username w in
  match sqlite_fault (env w) (sqlite_ops w) with
  | Some msg => result run = Raise (SqliteError msg)
  | None =>
      match sqlite_fault (env w) (S (sqlite_ops w)) with
      | Some msg =>
          result run = Raise (HTTPException 500 ("Database error: " ++ msg)%string) /\
          http_status (result run) = 500%Z
      | None =>
          match user_row username (committed w) with
          | Some (name, password) =>
              result run = Ok (JDict [("username", JStr username);
                                      ("password", JStr password)]) /\
              http_status (result run) = 200%Z /\
              In (username, password) (users (committed w))
          | None =>
              result run = Raise (HTTPException 404 "User not found") /\
              http_status (result run) = 404%Z
          end
      end
  end.
Proof.
  cbv zeta.
  destruct (0 <? ARTIFICIAL_LATENCY_MS (env w))%Z eqn:Hl;
  destruct (sqlite_fault (env w) (sqlite_ops w)) as [msg|] eqn:H0.
  1,3: settle; reflexivity.
  all: destruct (sqlite_fault (env w) (S (sqlite_ops w))) as [msg|] eqn:H1.
  1,3: settle; split; reflexivity.
  all: destruct (user_row username (committed w)) as [[name password]|] eqn:Hu.
  all: try (pose proof (user_row_name _ _ _ _ Hu) as ->;
            assert (Hin : In (username, password) (users (committed w)))
              by (unfold user_row in Hu; apply find_some in Hu; apply Hu)).
  all: unfold user_row in Hu; settle; repeat split; try reflexivity; try exact Hin.
Qed.

(** C10 as stated fails: the user exists, the SELECT raises, and the
    caller is sent a 500. *)
Lemma get_user_of_existing_user_can_fail :
  user_row "admin" (committed select_fails) = Some ("admin", "admin123") /\
  http_status (result (Db.get_user "admin" select_fails)) = 500%Z.
Proof. split; reflexivity. Qed.

(* ------------------------------------------------------------------ *)
(** ** Instrumented and baseline handlers *)

Lemma same_process_refl w : same_process w w.
Proof. reflexivity. Qed.

Lemma same_process_fields w1 w2 :
  same_process w1 w2 ->
  env w1 = env w2 /\ calls w1 = calls w2 /\ now w1 = now w2 /\
  sqlite_ops w1 = sqlite_ops w2 /\ uuids w1 = uuids w2 /\
  committed w1 = committed w2 /\ session w1 = session w2.
Proof.
  destruct w1, w2. unfold same_process, set_next_span. simpl.
  intros H. injection H as -> -> -> -> -> -> ->. repeat split.
Qed.

Lemma same_process_intro w1 w2 :
  env w1 = env w2 -> calls w1 = calls w2 -> now w1 = now w2 ->
  sqlite_ops w1 = sqlite_ops w2 -> uuids w1 = uuids w2 ->
  committed w1 = committed w2 -> session w1 = session w2 ->
  same_process w1 w2.
Proof.
  destruct w1, w2. unfold same_process, set_next_span. simpl.
  intros -> -> -> -> -> -> ->. reflexivity.
Qed.

Lemma same_process_trans w1 w2 w3 :
  same_process w1 w2 -> same_process w2 w3 -> same_process w1 w3.
Proof. unfold same_process. congruence. Qed.

Lemma same_process_sym w1 w2 : same_process w1 w2 -> same_process w2 w1.
Proof. unfold same_process. congruence. Qed.

Lemma effects_app t1 t2 : effects (t1 ++ t2) = effects t1 ++ effects t2.
Proof. apply filter_app. Qed.

(** Decides that two states related by [same_process] agree on what a
    primitive reads, or stay related after what it writes. *)
Ltac same_fields :=
  let H := fresh "H" in
  intros ? ? H;
  try (apply same_process_fields in H;
       destruct H as (? & ? & ? & ? & ? & ? & ?));
  first [ apply same_process_intro; simpl; congruence
        | cbv beta; congruence ].

Section SimRules.
Context {A B : Type}.

Lemma Sim_ret (a : A) : Sim (ret a) (ret a).
Proof. intros w1 w2 H. repeat split. exact H. Qed.

Lemma Sim_raise (e : Exn) : Sim (@raise A e) (raise e).
Proof. intros w1 w2 H. repeat split. exact H. Qed.

Lemma Sim_gets (f : World -> A) :
  (forall w1 w2, same_process w1 w2 -> f w1 = f w2) -> Sim (gets f) (gets f).
Proof. intros Hf w1 w2 H. simpl. rewrite (Hf w1 w2 H). repeat split. exact H. Qed.

Lemma Sim_bind (m1 m2 : M A) (f1 f2 : A -> M B) :
  Sim m1 m2 -> (forall a, Sim (f1 a) (f2 a)) -> Sim (bind m1 f1) (bind m2 f2).
Proof.
  intros Hm Hf w1 w2 H. unfold bind. destruct (Hm w1 w2 H) as (Hr & Hw & He).
  destruct (m1 w1) as [r1 v1 t1], (m2 w2) as [r2 v2 t2]. simpl in *. subst r2.
  destruct r1 as [a|e]; [|repeat split; assumption].
  destruct (Hf a v1 v2 Hw) as (Hr' & Hw' & He').
  destruct (f1 a v1) as [r1' v1' t1'], (f2 a v2) as [r2' v2' t2']. simpl in *.
  repeat split; try assumption. rewrite !effects_app. congruence.
Qed.

(** The right-hand side may be read as ending in [ret]. *)
Lemma Sim_bind_ret (m1 m2 : M A) (f1 : A -> M A) :
  Sim m1 m2 -> (forall a, Sim (f1 a) (ret a)) -> Sim (bind m1 f1) m2.
Proof.
  intros Hm Hf w1 w2 H. unfold bind. destruct (Hm w1 w2 H) as (Hr & Hw & He).
  destruct (m1 w1) as [r1 v1 t1], (m2 w2) as [r2 v2 t2]. simpl in *. subst r2.
  destruct r1 as [a|e]; [|repeat split; assumption].
  destruct (Hf a v1 v2 Hw) as (Hr' & Hw' & He').
  destruct (f1 a v1) as [r1' v1' t1']. simpl in *.
  repeat split; try assumption. rewrite effects_app, He, He'. apply app_nil_r.
Qed.

Lemma Sim_try_except (m1 m2 : M A) (h1 h2 : Exn -> option (M A)) :
  Sim m1 m2 ->
  (forall e, match h1 e, h2 e with
             | Some k1, Some k2 => Sim k1 k2
             | None, None => True
             | _, _ => False
             end) ->
  Sim (try_except m1 h1) (try_except m2 h2).
Proof.
  intros Hm Hh w1 w2 H. unfold try_except. destruct (Hm w1 w2 H) as (Hr & Hw & He).
  destruct (m1 w1) as [r1 v1 t1], (m2 w2) as [r2 v2 t2]. simpl in *. subst r2.
  destruct r1 as [a|e]; [repeat split; assumption|].
  specialize (Hh e). destruct (h1 e) as [k1|], (h2 e) as [k2|]; try contradiction.
  - destruct (Hh v1 v2 Hw) as (Hr' & Hw' & He').
    destruct (k1 v1) as [r1' v1' t1'], (k2 v2) as [r2' v2' t2']. simpl in *.
    repeat split; try assumption. rewrite !effects_app. congruence.
  - repeat split; assumption.
Qed.

Lemma Sim_finally (m1 m2 : M A) (c1 c2 : M unit) :
  Sim m1 m2 -> Sim c1 c2 -> Sim (finally m1 c1) (finally m2 c2).
Proof.
  intros Hm Hc w1 w2 H. unfold finally. destruct (Hm w1 w2 H) as (Hr & Hw & He).
  destruct (m1 w1) as [r1 v1 t1], (m2 w2) as [r2 v2 t2]. simpl in *. subst r2.
  destruct (Hc v1 v2 Hw) as (Hr' & Hw' & He').
  destruct (c1 v1) as [r1' v1' t1'], (c2 v2) as [r2' v2' t2']. simpl in *. subst r2'.
  destruct r1'; simpl; repeat split; try assumption; rewrite !effects_app; congruence.
Qed.

(** Telemetry in front of the instrumented side is skipped. *)
Lemma Sim_skip (t : M unit) (m1 m2 : M A) :
  Telemetry t -> Sim m1 m2 -> Sim (t ;; m1) m2.
Proof.
  intros Ht Hm w1 w2 H. unfold bind. destruct (Ht w1) as (Hr & Hw & He).
  destruct (t w1) as [r v tt1]. simpl in *. subst r.
  destruct (Hm v w2 (same_process_trans _ _ _ Hw H)) as (Hr' & Hw' & He').
  destruct (m1 v) as [r1 v1 t1]. simpl in *.
  repeat split; try assumption. rewrite effects_app, He. exact He'.
Qed.

(** A span around the instrumented side is skipped. *)
Lemma Sim_span (name : string) (body : SpanId -> M A) (m2 : M A) :
  (forall span, Sim (body span) m2) -> Sim (start_as_current_span name body) m2.
Proof.
  intros Hb w1 w2 H. rewrite span_run. cbv zeta.
  assert (H' : same_process (set_next_span (S (next_span w1)) w1) w2).
  { eapply same_process_trans; [|exact H]. destruct w1. reflexivity. }
  destruct (Hb (next_span w1) _ w2 H') as (Hr & Hw & He).
  simpl. repeat split; try assumption.
  change (SpanStart (next_span w1) name :: ?t) with ([SpanStart (next_span w1) name] ++ t).
  rewrite !effects_app, He. simpl. apply app_nil_r.
Qed.

Lemma Sim_ret_bind (a : A) (f : A -> M B) (m2 : M B) :
  Sim (f a) m2 -> Sim (bind (ret a) f) m2.
Proof.
  intros Hf w1 w2 H. specialize (Hf w1 w2 H). unfold bind, ret.
  destruct (f a w1) as [r v t]. exact Hf.
Qed.
End SimRules.

(** The instrumented side may be read with its binds nested to the right. *)
Lemma Sim_assoc {A B C} (m : M A) (f : A -> M B) (g : B -> M C) (m2 : M C) :
  Sim (bind m (fun x => bind (f x) g)) m2 -> Sim (bind (bind m f) g) m2.
Proof.
  intros Hm w1 w2 H. specialize (Hm w1 w2 H). unfold bind in *.
  destruct (m w1) as [[a|e] v t]; [|exact Hm].
  destruct (f a v) as [[b|e] v' t']; [|exact Hm].
  destruct (g b v') as [r v'' t'']. simpl in *. now rewrite <- app_assoc.
Qed.

(** A span followed by more work is the work of the span followed by it. *)
Lemma Sim_span_bind {A B} (name : string) (body : SpanId -> M A) (g : A -> M B)
    (m2 : M B) :
  (forall span, Sim (bind (body span) g) m2) ->
  Sim (bind (start_as_current_span name body) g) m2.
Proof.
  intros Hb w1 w2 H. unfold bind. rewrite !span_run. cbv zeta.
  assert (H' : same_process (set_next_span (S (next_span w1)) w1) w2).
  { eapply same_process_trans; [|exact H]. destruct w1. reflexivity. }
  specialize (Hb (next_span w1) _ w2 H'). unfold bind in Hb.
  destruct (body (next_span w1) (set_next_span (S (next_span w1)) w1)) as [[a|e] v t];
    simpl in *.
  - destruct (g a v) as [r v' t']. simpl in *.
    destruct Hb as (Hr & Hw & He). split; [exact Hr | split; [exact Hw |]].
    etransitivity; [|exact He].
    change (SpanStart (next_span w1) name :: ?x) with ([SpanStart (next_span w1) name] ++ x).
    rewrite !effects_app. simpl. now rewrite app_nil_r.
  - destruct Hb as (Hr & Hw & He). split; [exact Hr | split; [exact Hw |]].
    etransitivity; [|exact He].
    change (SpanStart (next_span w1) name :: ?x) with ([SpanStart (next_span w1) name] ++ x).
    rewrite !effects_app. simpl. now rewrite app_nil_r.
Qed.

Lemma Sim_when c (b1 b2 : M unit) : Sim b1 b2 -> Sim (when c b1) (when c b2).
Proof. intros H. destruct c; [exact H | apply Sim_ret]. Qed.

Lemma Sim_telemetry_ret (t : M unit) (u : unit) : Telemetry t -> Sim t (ret u).
Proof.
  intros Ht w1 w2 H. destruct (Ht w1) as (Hr & Hw & He). destruct u.
  repeat split; try assumption. eapply same_process_trans; eassumption.
Qed.

Lemma Sim_modify f :
  (forall w1 w2, same_process w1 w2 -> same_process (f w1) (f w2)) ->
  Sim (modify f) (modify f).
Proof. intros Hf w1 w2 H. repeat split. now apply Hf. Qed.

Lemma Sim_for_each {X S} (xs : list X) (b1 b2 : X -> S -> M S) (acc : S) :
  (forall x a, Sim (b1 x a) (b2 x a)) -> Sim (for_each xs b1 acc) (for_each xs b2 acc).
Proof.
  intros Hb. revert acc. induction xs as [|x xs IH]; intros acc; simpl.
  - apply Sim_ret.
  - apply Sim_bind; [apply Hb | intros a; apply IH].
Qed.

(** A loop over [enumerate xs] against the loop over [xs]. *)
Lemma Sim_for_each_enumerate {X S} (xs : list X) (b1 : nat * X -> S -> M S)
    (b2 : X -> S -> M S) (acc : S) :
  (forall i x a, Sim (b1 (i, x) a) (b2 x a)) ->
  Sim (for_each (enumerate xs) b1 acc) (for_each xs b2 acc).
Proof.
  intros Hb. unfold enumerate. generalize 0 as n. revert acc.
  induction xs as [|x xs IH]; intros acc n; simpl.
  - apply Sim_ret.
  - apply Sim_bind; [apply Hb | intros a; apply IH].
Qed.

Lemma Telemetry_emit ev : is_telemetry ev = true -> Telemetry (emit ev).
Proof.
  intros H w. unfold effects. simpl. rewrite H. repeat split. 
Qed.

Lemma Sim_emit ev : Sim (emit ev) (emit ev).
Proof. intros w1 w2 H. repeat split. exact H. Qed.

Lemma Sim_send r : Sim (send r) (send r).
Proof.
  intros w1 w2 H. unfold send.
  destruct (same_process_fields _ _ H) as (He & Hc & Hn & Ho & Hu & Hd & Hs).
  rewrite He, Hc. destruct (network (env w2) (calls w2)); simpl;
    (repeat split; apply same_process_intro; simpl; congruence).
Qed.

Lemma Sim_sqlite_op ev : Sim (sqlite_op ev) (sqlite_op ev).
Proof.
  intros w1 w2 H. unfold sqlite_op.
  destruct (same_process_fields _ _ H) as (He & Hc & Hn & Ho & Hu & Hd & Hs).
  rewrite He, Ho. destruct (sqlite_fault (env w2) (sqlite_ops w2)); simpl;
    (repeat split; apply same_process_intro; simpl; congruence).
Qed.

Lemma Sim_utcnow : Sim utcnow utcnow.
Proof.
  intros w1 w2 H. unfold utcnow.
  destruct (same_process_fields _ _ H) as (He & Hc & Hn & Ho & Hu & Hd & Hs).
  simpl. rewrite Hn. repeat split. apply same_process_intro; simpl; congruence.
Qed.

Lemma Sim_new_uuid : Sim new_uuid new_uuid.
Proof.
  intros w1 w2 H. unfold new_uuid.
  destruct (same_process_fields _ _ H) as (He & Hc & Hn & Ho & Hu & Hd & Hs).
  simpl. rewrite He, Hu. repeat split. apply same_process_intro; simpl; congruence.
Qed.

Lemma Sim_jwt_decode token : Sim (jwt_decode_ token) (jwt_decode_ token).
Proof.
  intros w1 w2 H. unfold jwt_decode_.
  destruct (same_process_fields _ _ H) as (He & _). rewrite He.
  destruct (jwt_decode (env w2) token); repeat split; exact H.
Qed.

Lemma Sim_bind_parameter v : Sim (bind_parameter v) (bind_parameter v).
Proof.
  intros w1 w2 H. unfold bind_parameter.
  destruct (same_process_fields _ _ H) as (He & _). simpl. rewrite He.
  repeat split. exact H.
Qed.

(** Relates an instrumented computation to its baseline along the syntax
    of both. *)
Ltac sim_except_clauses :=
  let e := fresh "e" in
  intro e; destruct e;
  cbv beta iota delta [is_RequestError is_sqlite3_Error
                       Auth.on_jwt_error BaselineAuth.on_jwt_error
                       Db.on_sqlite_error Db.on_sqlite_error_rollback
                       BaselineDb.on_sqlite_error BaselineDb.on_sqlite_error_rollback];
  try exact I.

Ltac telemetry_head m :=
  lazymatch m with
  | set_attribute _ _ _ => idtac
  | set_status _ _ _ => idtac
  | request_counter_add _ _ => idtac
  | request_duration_record _ => idtac
  | db_operations_counter_add _ _ => idtac
  | db_operation_duration_record _ => idtac
  end.

Ltac solve_telemetry :=
  unfold set_attribute, set_status, request_counter_add, request_duration_record,
    db_operations_counter_add, db_operation_duration_record;
  apply Telemetry_emit; reflexivity.

Create HintDb sim.

Ltac sim_step :=
  lazymatch goal with
  | |- Sim (bind (bind _ _) _) _ => apply Sim_assoc
  | |- Sim (bind (start_as_current_span _ _) _) _ => apply Sim_span_bind; intro
  | |- Sim (bind (ret _) _) _ => apply Sim_ret_bind
  | |- Sim (bind ?t _) _ =>
      first [ telemetry_head t; apply Sim_skip; [solve_telemetry|]
            | lazymatch goal with
              | |- Sim (bind _ _) (bind _ _) => apply Sim_bind; [|intro]
              | |- Sim (bind _ _) _ => apply Sim_bind_ret; [|intro]
              end ]
  | |- Sim (start_as_current_span _ _) _ => apply Sim_span; intro
  | |- Sim (try_except _ _) (try_except _ _) => apply Sim_try_except; [|sim_except_clauses]
  | |- Sim (finally _ _) (finally _ _) => apply Sim_finally
  | |- Sim (for_each (enumerate _) _ _) (for_each _ _ _) =>
      apply Sim_for_each_enumerate; intros
  | |- Sim (for_each _ _ _) (for_each _ _ _) => apply Sim_for_each; intros
  | |- Sim (when _ _) (when _ _) => apply Sim_when
  | |- Sim (ret _) (ret _) => apply Sim_ret
  | |- Sim (raise _) (raise _) => apply Sim_raise
  | |- Sim (gets _) (gets _) => apply Sim_gets; same_fields
  | |- Sim (modify _) (modify _) => apply Sim_modify; same_fields
  | |- Sim (emit _) (emit _) => apply Sim_emit
  | |- Sim (send _) (send _) => apply Sim_send
  | |- Sim (sqlite_op _) (sqlite_op _) => apply Sim_sqlite_op
  | |- Sim ?t (ret ?u) => telemetry_head t; apply Sim_telemetry_ret; solve_telemetry
  | |- Sim (if ?c then _ else _) (if ?c then _ else _) => destruct c
  | |- Sim (match ?x with _ => _ end) (match ?x with _ => _ end) => destruct x
  | |- Sim ?m ?m => solve [auto with sim]
  | |- _ => progress cbv zeta
  end.

Lemma Sim_client_post svc p js hs t : Sim (client_post svc p js hs t) (client_post svc p js hs t).
Proof. apply Sim_send. Qed.

Lemma Sim_client_get svc p hs t : Sim (client_get svc p hs t) (client_get svc p hs t).
Proof. apply Sim_send. Qed.

Lemma Sim_response_json r : Sim (response_json r) (response_json r).
Proof. unfold response_json. repeat sim_step. Qed.

Lemma Sim_subscript v k : Sim (subscript v k) (subscript v k).
Proof. unfold subscript. repeat sim_step. Qed.

Lemma Sim_dict_get v k d : Sim (dict_get v k d) (dict_get v k d).
Proof. unfold dict_get. repeat sim_step. Qed.

Lemma Sim_index {A} (xs : list A) i : Sim (index xs i) (index xs i).
Proof. unfold index. repeat sim_step. Qed.

#[local] Hint Resolve Sim_utcnow Sim_new_uuid Sim_jwt_decode Sim_bind_parameter
  Sim_client_post Sim_client_get Sim_response_json Sim_subscript Sim_dict_get Sim_index : sim.

Lemma Sim_bearer_token a : Sim (Auth.bearer_token a) (Auth.bearer_token a).
Proof. unfold Auth.bearer_token. repeat sim_step. Qed.

Lemma Sim_get_db_connection : Sim get_db_connection get_db_connection.
Proof. unfold get_db_connection. repeat sim_step. Qed.

Lemma Sim_commit : Sim commit commit.
Proof. unfold commit. repeat sim_step. Qed.

Lemma Sim_rollback : Sim rollback rollback.
Proof. unfold rollback. repeat sim_step. Qed.

Lemma Sim_close : Sim close close.
Proof. unfold close. repeat sim_step. Qed.

Lemma Sim_inject_latency : Sim inject_latency inject_latency.
Proof. unfold inject_latency. repeat sim_step. Qed.

Lemma Sim_execute_insert_item id data c u :
  Sim (execute_insert_item id data c u) (execute_insert_item id data c u).
Proof. unfold execute_insert_item. repeat sim_step. Qed.

Lemma Sim_execute_select_item id : Sim (execute_select_item id) (execute_select_item id).
Proof. unfold execute_select_item. repeat sim_step. Qed.

Lemma Sim_execute_select_items limit :
  Sim (execute_select_items limit) (execute_select_items limit).
Proof. unfold execute_select_items. repeat sim_step. Qed.

Lemma Sim_execute_delete_item id : Sim (execute_delete_item id) (execute_delete_item id).
Proof. unfold execute_delete_item. repeat sim_step. Qed.

Lemma Sim_execute_select_user u : Sim (execute_select_user u) (execute_select_user u).
Proof. unfold execute_select_user. repeat sim_step. Qed.

Lemma Sim_execute_insert_user u p : Sim (execute_insert_user u p) (execute_insert_user u p).
Proof. unfold execute_insert_user. repeat sim_step. Qed.

#[local] Hint Resolve Sim_bearer_token Sim_get_db_connection Sim_commit Sim_rollback Sim_close
  Sim_inject_latency Sim_execute_insert_item Sim_execute_select_item
  Sim_execute_select_items Sim_execute_delete_item Sim_execute_select_user
  Sim_execute_insert_user : sim.

Ltac unfold_handlers :=
  cbv beta iota zeta delta
    [App.handle App.create_data App.get_data App.get_preset_data App.list_presets
     App.seed_preset_data App.seed_item App.require_authorization App.validate_token
     BaselineApp.handle BaselineApp.create_data BaselineApp.get_preset_data
     BaselineApp.list_presets BaselineApp.seed_preset_data BaselineApp.seed_item
     BaselineApp.require_authorization BaselineApp.validate_token Baseline.get_data
     Auth.handle Auth.root Auth.health Auth.login Auth.validate_token Auth.token_info
     BaselineAuth.handle BaselineAuth.login BaselineAuth.validate_token
     BaselineAuth.token_info
     Db.handle Db.root Db.health Db.store_data Db.retrieve_data Db.list_items
     Db.delete_data Db.get_user Db.create_user Db.require_authorization
     BaselineDb.handle BaselineDb.store_data BaselineDb.retrieve_data BaselineDb.list_items
     BaselineDb.delete_data BaselineDb.get_user BaselineDb.create_user
     BaselineDb.require_authorization].

Lemma Sim_app_validate_token span a :
  Sim (App.validate_token span a) (BaselineApp.validate_token a).
Proof.
  unfold_handlers. repeat sim_step.
Qed.

Lemma Sim_app (r : App.Request) :
  match r with
  | App.CreateData _ _ => True
  | _ => Sim (App.handle r) (BaselineApp.handle r)
  end.
Proof.
  destruct r; try exact I; unfold_handlers; repeat sim_step.
Qed.

Lemma Sim_auth (r : Auth.Request) : Sim (Auth.handle r) (BaselineAuth.handle r).
Proof.
  destruct r; unfold_handlers; repeat sim_step.
Qed.

Lemma Sim_db (r : Db.Request) : Sim (Db.handle r) (BaselineDb.handle r).
Proof.
  destruct r; unfold_handlers; repeat sim_step.
Qed.


Lemma Sim_same_outcome {A} (m1 m2 : M A) (w : World) :
  Sim m1 m2 -> same_outcome (m1 w) (m2 w).
Proof.
  intros H. destruct (H w w (same_process_refl w)) as (Hr & Hw & He).
  repeat split; assumption.
Qed.

(** X1.  The instrumented [get_preset_data], [list_presets] and
    [seed_preset_data] of app.py do what the handlers of baseline/app.py
    do: for every request and every behaviour of the collaborators they
    give the same result and issue the same outbound calls in the same
    order. *)
Theorem app_instrumentation_is_transparent
    (preset_id : string) (authorization : option string) (w : World) :
  same_outcome (App.get_preset_data preset_id authorization w)
               (BaselineApp.get_preset_data preset_id authorization w) /\
  same_outcome (App.list_presets authorization w)
               (BaselineApp.list_presets authorization w) /\
  same_outcome (App.seed_preset_data authorization w)
               (BaselineApp.seed_preset_data authorization w).
Proof.
  split; [|split]; apply Sim_same_outcome.
  - apply (Sim_app (App.GetPresetData preset_id authorization)).
  - apply (Sim_app (App.ListPresets authorization)).
  - apply (Sim_app (App.SeedPresetData authorization)).
Qed.

(** X2.  Every handler of auth.py does what its counterpart in baseline/auth.py
    does: same result, same call to the db service, same clock readings. *)
Theorem auth_instrumentation_is_transparent (r : Auth.Request) (w : World) :
  same_outcome (Auth.handle r w) (BaselineAuth.handle r w).
Proof. apply Sim_same_outcome, Sim_auth. Qed.

(** X3.  Every handler of db.py does what its counterpart in baseline/db.py
    does: same result, same sqlite3 operations in the same order, and the
    same database afterwards. *)
Theorem db_instrumentation_is_transparent (r : Db.Request) (w : World) :
  same_outcome (Db.handle r w) (BaselineDb.handle r w) /\
  committed (final (Db.handle r w)) = committed (final (BaselineDb.handle r w)).
Proof.
  assert (H : same_outcome (Db.handle r w) (BaselineDb.handle r w))
    by apply Sim_same_outcome, Sim_db.
  split; [exact H|]. destruct H as (_ & _ & H).
  now destruct (same_process_fields _ _ H) as (_ & _ & _ & _ & _ & Hc & _).
Qed.

(* ------------------------------------------------------------------ *)
(** ** Symbolic execution of any handler *)

Ltac run_all :=
  cbv beta iota zeta delta
    [App.handle App.create_data App.get_data App.get_preset_data App.list_presets
     App.seed_preset_data App.seed_item App.seed_items App.require_authorization
     App.validate_token
     Baseline.get_data
     BaselineApp.handle BaselineApp.create_data BaselineApp.get_preset_data
     BaselineApp.list_presets BaselineApp.seed_preset_data BaselineApp.seed_item
     BaselineApp.require_authorization BaselineApp.validate_token
     Auth.handle Auth.root Auth.health Auth.login Auth.validate_token Auth.token_info
     Auth.on_jwt_error
     Db.handle Db.root Db.health Db.store_data Db.retrieve_data Db.list_items
     Db.delete_data Db.get_user Db.create_user Db.require_authorization
     Db.on_sqlite_error Db.on_sqlite_error_rollback
     bind ret raise emit gets modify when try_except finally for_each
     enumerate enumerate_from
     start_as_current_span set_attribute set_status
     request_counter_add request_duration_record
     db_operations_counter_add db_operation_duration_record
     send client_post client_get response_json subscript dict_get index
     utcnow new_uuid jwt_decode_ bind_parameter
     get_db_connection commit rollback close inject_latency sqlite_op
     execute_insert_item execute_select_item execute_select_items execute_delete_item
     execute_select_user execute_insert_user
     set_calls set_next_span set_now set_sqlite_ops set_uuids set_committed set_session
     is_RequestError is_sqlite3_Error];
  cbn [result final trace env calls next_span now sqlite_ops uuids committed session
       items users
       app http_calls opened started ended map fst snd filter to_db target negb
       effects is_telemetry orb andb
       Nat.add seq firstn http_response http_status status_of final_status].

(** [run_all], using the facts at hand about the request and the world. *)
Ltac settle_all :=
  repeat (run_all;
          match goal with
          | H : not_ _ = _ |- _ => rewrite H
          | H : network _ _ = _ |- _ => rewrite H
          | H : sqlite_fault _ _ = _ |- _ => rewrite H
          | H : sqlite_bind _ _ = _ |- _ => rewrite H
          | H : jwt_decode _ _ = _ |- _ => rewrite H
          | H : (_ =? _)%Z = _ |- _ => rewrite H
          | H : (_ <? _)%Z = _ |- _ => rewrite H
          | H : (_ =? _)%nat = _ |- _ => rewrite H
          | H : json _ = _ |- _ => rewrite H
          | H : lookup _ _ = _ |- _ => rewrite H
          | H : find _ _ = _ |- _ => rewrite H
          | H : has_item _ _ = _ |- _ => rewrite H
          | H : existsb _ _ = _ |- _ => rewrite H
          | H : truthy _ = _ |- _ => rewrite H
          | H : py_eq _ _ = _ |- _ => rewrite H
          | H : startswith _ _ = _ |- _ => rewrite H
          end);
  run_all.

(* ------------------------------------------------------------------ *)
(** ** [create_data] against its baseline *)



(* ------------------------------------------------------------------ *)
(** ** What every action of a computation satisfies *)

Section AlwaysRules.
Context {A B : Type} (P : Event -> Prop).

Lemma Always_quiet (m : M A) : (forall w, trace (m w) = []) -> Always P m.
Proof. intros H w. rewrite H. constructor. Qed.

Lemma Always_ret (a : A) : Always P (ret a).
Proof. now apply Always_quiet. Qed.

Lemma Always_raise (e : Exn) : Always P (@raise A e).
Proof. now apply Always_quiet. Qed.

Lemma Always_gets (f : World -> A) : Always P (gets f).
Proof. now apply Always_quiet. Qed.

Lemma Always_bind (m : M A) (f : A -> M B) :
  Always P m -> (forall a, Always P (f a)) -> Always P (bind m f).
Proof.
  intros Hm Hf w. unfold bind. specialize (Hm w).
  destruct (m w) as [[a|e] w1 t1]; simpl in *; [|exact Hm].
  specialize (Hf a w1). destruct (f a w1) as [r w2 t2]; simpl in *.
  apply Forall_app. now split.
Qed.

Lemma Always_try_except (m : M A) (h : Exn -> option (M A)) :
  Always P m ->
  (forall e, match h e with Some k => Always P k | None => True end) ->
  Always P (try_except m h).
Proof.
  intros Hm Hh w. unfold try_except. specialize (Hm w).
  destruct (m w) as [[a|e] w1 t1]; simpl in *; [exact Hm|].
  specialize (Hh e). destruct (h e) as [k|]; [|exact Hm].
  specialize (Hh w1). destruct (k w1) as [r w2 t2]; simpl in *.
  apply Forall_app. now split.
Qed.

Lemma Always_finally (m : M A) (c : M unit) :
  Always P m -> Always P c -> Always P (finally m c).
Proof.
  intros Hm Hc w. unfold finally. specialize (Hm w).
  destruct (m w) as [r w1 t1]; simpl in *.
  specialize (Hc w1). destruct (c w1) as [[u|e] w2 t2]; simpl in *;
    apply Forall_app; now split.
Qed.

Lemma Always_span (name : string) (body : SpanId -> M A) :
  (forall id, P (SpanStart id name)) -> (forall id, P (SpanEnd id)) ->
  (forall span, Always P (body span)) -> Always P (start_as_current_span name body).
Proof.
  intros Hs He Hb w. rewrite span_run. cbv zeta. simpl.
  constructor; [apply Hs|]. apply Forall_app. split; [apply Hb|].
  constructor; [apply He | constructor].
Qed.
End AlwaysRules.

Lemma Always_for_each {X S} P (xs : list X) (body : X -> S -> M S) (acc : S) :
  (forall x a, Always P (body x a)) -> Always P (for_each xs body acc).
Proof.
  intros Hb. revert acc. induction xs as [|x xs IH]; intros acc; simpl.
  - apply Always_ret.
  - apply Always_bind; [apply Hb | intros a; apply IH].
Qed.

Lemma Always_when P c body : Always P body -> Always P (when c body).
Proof. intros H. destruct c; [exact H | apply Always_ret]. Qed.

Lemma Always_modify P f : Always P (modify f).
Proof. now apply Always_quiet. Qed.

Lemma Always_emit (P : Event -> Prop) ev : P ev -> Always P (emit ev).
Proof. intros H w. simpl. now repeat constructor. Qed.

Lemma Always_send (P : Event -> Prop) r : P (HttpCall r) -> Always P (send r).
Proof.
  intros H w. unfold send. destruct (network (env w) (calls w)); simpl;
    now repeat constructor.
Qed.

Lemma Always_sqlite_op (P : Event -> Prop) ev : P ev -> Always P (sqlite_op ev).
Proof.
  intros H w. unfold sqlite_op. destruct (sqlite_fault (env w) (sqlite_ops w)); simpl;
    now repeat constructor.
Qed.

Lemma Always_utcnow P : Always P utcnow.
Proof. now apply Always_quiet. Qed.

Lemma Always_new_uuid P : Always P new_uuid.
Proof. now apply Always_quiet. Qed.

Lemma Always_jwt_decode P token : Always P (jwt_decode_ token).
Proof.
  apply Always_quiet. intros w. unfold jwt_decode_.
  now destruct (jwt_decode (env w) token).
Qed.

Lemma Always_bind_parameter P v : Always P (bind_parameter v).
Proof. now apply Always_quiet. Qed.

Ltac head_constant t :=
  lazymatch t with
  | ?f _ => head_constant f
  | _ => t
  end.

(** Proves that an event satisfies the property at hand. *)
Ltac event_ok := cbv beta iota; first [ exact I | repeat split; reflexivity ].

Ltac always_except_clauses :=
  let e := fresh "e" in
  intro e; destruct e;
  cbv beta iota delta [is_RequestError is_sqlite3_Error
                       Auth.on_jwt_error BaselineAuth.on_jwt_error
                       Db.on_sqlite_error Db.on_sqlite_error_rollback
                       BaselineDb.on_sqlite_error BaselineDb.on_sqlite_error_rollback];
  try exact I.

Ltac always_step :=
  lazymatch goal with
  | |- Always _ (bind _ _) => apply Always_bind; [|intro]
  | |- Always _ (start_as_current_span _ _) =>
      apply Always_span; [intro; event_ok | intro; event_ok | intro]
  | |- Always _ (try_except _ _) => apply Always_try_except; [|always_except_clauses]
  | |- Always _ (finally _ _) => apply Always_finally
  | |- Always _ (for_each _ _ _) => apply Always_for_each; intros
  | |- Always _ (when _ _) => apply Always_when
  | |- Always _ (ret _) => apply Always_ret
  | |- Always _ (raise _) => apply Always_raise
  | |- Always _ (gets _) => apply Always_gets
  | |- Always _ (modify _) => apply Always_modify
  | |- Always _ (emit _) => apply Always_emit; event_ok
  | |- Always _ (send _) => apply Always_send; event_ok
  | |- Always _ (sqlite_op _) => apply Always_sqlite_op; event_ok
  | |- Always _ utcnow => apply Always_utcnow
  | |- Always _ new_uuid => apply Always_new_uuid
  | |- Always _ (jwt_decode_ _) => apply Always_jwt_decode
  | |- Always _ (bind_parameter _) => apply Always_bind_parameter
  | |- Always _ (if ?c then _ else _) => destruct c
  | |- Always _ (match ?x with _ => _ end) => destruct x
  | |- Always _ ?m => let h := head_constant m in progress unfold h
  | |- _ => progress cbv zeta
  end.

(* ------------------------------------------------------------------ *)
(** ** Outbound calls of the app service *)

Lemma http_calls_Forall (P : HttpRequest -> Prop) (t : list Event) :
  Forall (fun ev => match ev with HttpCall r => P r | _ => True end) t ->
  Forall P (http_calls t).
Proof.
  induction 1 as [|ev t Hev _ IH]; [constructor|].
  destruct ev; simpl; try exact IH. now constructor.
Qed.

(** X5.  Every outbound call of an app handler, to the auth service or to the
    db service, carries the Authorization header of the inbound request
    unchanged and a timeout of 5 seconds. *)
Theorem app_calls_forward_credentials (req : App.Request) (w : World) :
  Forall (fun r => headers r = [("Authorization", header_value (App.authorization_of req))]
                   /\ timeout r = 5%Z)
         (http_calls (trace (App.handle req w))).
Proof.
  apply http_calls_Forall.
  assert (H : Always (forwards_credentials (App.authorization_of req)) (App.handle req)).
  { destruct req; simpl App.authorization_of; unfold forwards_credentials;
      cbv beta iota delta [App.handle]; repeat always_step. }
  exact (H w).
Qed.


(* ------------------------------------------------------------------ *)
(** ** The bearer token of auth.py *)

Lemma split_space_not_nil s : split_space s <> [].
Proof.
  destruct s as [|c s]; simpl; [discriminate|].
  destruct (Ascii.eqb c " "); [discriminate|].
  destruct (split_space s); discriminate.
Qed.

Lemma prefix_cons c p s :
  String.prefix (String c p) s = true ->
  exists s', s = String c s' /\ String.prefix p s' = true.
Proof.
  destruct s as [|c' s']; simpl; [discriminate|].
  destruct (ascii_dec c c') as [->|]; [|discriminate].
  intros H. now exists s'.
Qed.

Lemma startswith_Bearer s :
  startswith "Bearer " s = true -> exists rest, s = bearer_header rest.
Proof.
  unfold startswith, bearer_header. intros H.
  repeat (apply prefix_cons in H; destruct H as (? & -> & H)).
  eexists. reflexivity.
Qed.

Lemma startswith_bearer_header rest : startswith "Bearer " (bearer_header rest) = true.
Proof.
  unfold startswith, bearer_header. simpl.
  repeat match goal with
         | |- context [ascii_dec ?a ?b] => destruct (ascii_dec a b); [|congruence]
         end.
  now destruct rest.
Qed.

Lemma split_space_Bearer rest :
  split_space (bearer_header rest) = "Bearer" :: split_space rest.
Proof.
  unfold bearer_header. simpl.
  destruct (split_space rest) eqn:E; [now apply split_space_not_nil in E|].
  reflexivity.
Qed.

Lemma split_space_no_space s : no_space s = true -> split_space s = [s].
Proof.
  induction s as [|c s IH]; simpl; [reflexivity|].
  intros H. apply andb_true_iff in H. destruct H as [Hc Hs].
  apply negb_true_iff in Hc. rewrite Hc, (IH Hs). reflexivity.
Qed.

(** [bearer_token] always returns. *)
Lemma bearer_token_returns (authorization : string) (w : World) :
  exists token, Auth.bearer_token authorization w = mkRun (Ok token) w [].
Proof.
  unfold Auth.bearer_token. destruct (startswith "Bearer " authorization) eqn:E.
  - apply startswith_Bearer in E. destruct E as [rest ->].
    rewrite split_space_Bearer.
    destruct (split_space rest) as [|tok more] eqn:Er; [now apply split_space_not_nil in Er|].
    exists tok. reflexivity.
  - exists authorization. reflexivity.
Qed.

(** Replaces a call of [bearer_token] by the token it returns. *)
Ltac take_bearer_token :=
  match goal with
  | |- context [Auth.bearer_token ?a ?w'] =>
      let token := fresh "token" in
      let Ht := fresh "Ht" in
      destruct (bearer_token_returns a w') as [token Ht]; rewrite Ht
  end.

(** X6.  [authorization.split(" ")[1]] cannot raise [IndexError] behind the
    [startswith("Bearer ")] test: the token extraction of [validate_token]
    always returns, so its [except IndexError] clause is never entered and
    no request is answered "Invalid authorization format". *)
Theorem invalid_authorization_format_is_unreachable
    (authorization : option string) (w : World) :
  (exists token,
     result (Auth.bearer_token (header_value authorization) w) = Ok token) /\
  result (Auth.validate_token authorization w)
  <> Raise (HTTPException 401 "Invalid authorization format").
Proof.
  split.
  - destruct (bearer_token_returns (header_value authorization) w) as [token Ht].
    exists token. now rewrite Ht.
  - destruct (not_ authorization) eqn:Ha.
    + settle_all. discriminate.
    + settle_all. take_bearer_token.
      destruct (jwt_decode (env w) token) eqn:Hj; settle_all; discriminate.
Qed.

(** X7.  The header the traffic generator builds, ["Bearer "] followed by the
    token, is read back by the auth service as that token, provided the
    token has no space in it. *)
Theorem bearer_header_round_trip (token : string) (w : World) :
  no_space token = true ->
  result (Auth.bearer_token (bearer_header token) w) = Ok token.
Proof.
  intros H. unfold Auth.bearer_token.
  rewrite startswith_bearer_header, split_space_Bearer, (split_space_no_space _ H). reflexivity.
Qed.

Lemma bearer_header_round_trip_witness :
  no_space "eyJhbGciOiJIUzI1NiJ9.e30.abc" = true /\
  result (Auth.bearer_token (bearer_header "eyJhbGciOiJIUzI1NiJ9.e30.abc") all_down)
  = Ok "eyJhbGciOiJIUzI1NiJ9.e30.abc".
Proof.
  split; [reflexivity|].
  apply (bearer_header_round_trip "eyJhbGciOiJIUzI1NiJ9.e30.abc" all_down). reflexivity.
Defined.


(* ------------------------------------------------------------------ *)
(** ** Exploring the paths of a handler *)

(** Splits on what decides the next step of a handler that [run_all]
    could not decide. *)
Ltac explore_step :=
  match goal with
  | |- context [not_ ?a] => destruct (not_ a) eqn:?
  | |- context [truthy ?j] => destruct (truthy j) eqn:?
  | |- context [(0 <? ARTIFICIAL_LATENCY_MS ?e)%Z] =>
      destruct (0 <? ARTIFICIAL_LATENCY_MS e)%Z eqn:?
  | |- context [network ?e ?n] => destruct (network e n) eqn:?
  | |- context [sqlite_fault ?e ?n] => destruct (sqlite_fault e n) eqn:?
  | |- context [sqlite_bind ?e ?v] => destruct (sqlite_bind e v) eqn:?
  | |- context [jwt_decode ?e ?t] => destruct (jwt_decode e t) eqn:?
  | |- context [(status_code ?r =? ?c)%Z] => destruct (status_code r =? c)%Z eqn:?
  | |- context [json ?r] => destruct (json r) eqn:?
  | |- context [match ?j with JNull => _ | _ => _ end] => is_var j; destruct j
  | |- context [lookup ?k ?d] => destruct (lookup k d) eqn:?
  | |- context [py_eq ?a ?b] => destruct (py_eq a b) eqn:?
  | |- context [has_item ?i ?d] => destruct (has_item i d) eqn:?
  | |- context [existsb ?f ?l] => destruct (existsb f l) eqn:?
  | |- context [find ?f ?l] => destruct (find f l) eqn:?
  | |- context [match ?p with (_, _) => _ end] => is_var p; destruct p
  | |- context [(?n =? 0)%nat] => destruct (n =? 0)%nat eqn:?
  end.

Ltac explore := run_all; repeat (explore_step; run_all).

(* ------------------------------------------------------------------ *)
(** ** Token endpoints of auth.py *)

Lemma bearer_token_is_token_of (authorization : string) (w : World) :
  Auth.bearer_token authorization w = mkRun (Ok (token_of authorization)) w [].
Proof.
  unfold Auth.bearer_token, token_of.
  destruct (startswith "Bearer " authorization) eqn:E; [|reflexivity].
  apply startswith_Bearer in E. destruct E as [rest ->].
  rewrite split_space_Bearer.
  destruct (split_space rest) as [|tok more] eqn:Er; [now apply split_space_not_nil in Er|].
  reflexivity.
Qed.

Ltac take_token_of :=
  match goal with
  | |- context [Auth.bearer_token ?a ?w'] => rewrite (bearer_token_is_token_of a w')
  end.

(** X8.  [validate_token] and [token_info] answer 200 or 401 and nothing else;
    both answer 200 exactly when the header is not empty and its token
    decodes, [validate_token] then with the user name and the expiry of
    the payload. *)
Theorem token_endpoints_decide_by_decoding (authorization : option string) (w : World) :
  let token := token_of (header_value authorization) in
  result (Auth.validate_token authorization w) =
    (if not_ authorization then Raise (HTTPException 401 "Missing authorization header")
     else match jwt_decode (env w) token with
          | Decoded payload =>
              Ok (JDict [("valid", JBool true);
                         ("username", get payload "username");
                         ("expires_at", get payload "exp")])
          | Expired => Raise (HTTPException 401 "Token expired")
          | Invalid _ => Raise (HTTPException 401 "Invalid token")
          end) /\
  result (Auth.token_info authorization w) =
    (if not_ authorization then Raise (HTTPException 401 "Missing authorization header")
     else match jwt_decode (env w) token with
          | Decoded payload =>
              Ok (JDict [("username", get payload "username");
                         ("issued_at", get payload "iat");
                         ("expires_at", get payload "exp")])
          | Expired => Raise (HTTPException 401 "Token expired")
          | Invalid _ => Raise (HTTPException 401 "Invalid token")
          end).
Proof.
  cbv zeta. destruct (not_ authorization) eqn:Ha.
  - split; settle_all; reflexivity.
  - split; settle_all; take_token_of;
      destruct (jwt_decode (env w) (token_of (header_value authorization))) eqn:Hj;
      settle_all; reflexivity.
Qed.

(* ------------------------------------------------------------------ *)
(** ** [login] of auth.py *)

(** X9.  [login] sends the db service one user lookup when both credentials are
    given and nothing when one is missing or empty: a lookup that fails is
    not repeated. *)
Theorem login_looks_the_user_up_once (credentials : list (string * Json)) (w : World) :
  http_calls (trace (Auth.login credentials w)) =
  if truthy (get credentials "username") && truthy (get credentials "password")
  then [user_lookup (env w) (get credentials "username")]
  else [].
Proof.
  unfold user_lookup. explore; reflexivity.
Qed.

(** X10.  [login] hands out a token only when both credentials are given and
    the db service answers 200 with a JSON object whose ["password"] equals
    the password submitted. *)
Theorem login_requires_matching_password
    (credentials : list (string * Json)) (w : World) (j : Json) :
  result (Auth.login credentials w) = Ok j ->
  truthy (get credentials "username") = true /\
  truthy (get credentials "password") = true /\
  exists r d,
    network (env w) (calls w) = Responded r /\
    status_code r = 200%Z /\
    json r = Some (JDict d) /\
    py_eq (get d "password") (get credentials "password") = true.
Proof.
  explore; intros H; try discriminate H.
  all: split; [reflexivity | split; [reflexivity|]].
  all: match goal with
       | Hj : json ?r = Some (JDict ?d) |- _ =>
           exists r, d; split; [reflexivity | split; [now apply Z.eqb_eq | split; [exact Hj|]]]
       end.
  all: unfold get at 1;
       match goal with Hl : lookup "password" _ = _ |- _ => rewrite Hl end;
       assumption.
Qed.

Lemma login_requires_matching_password_witness :
  truthy (JStr "admin") = true /\
  truthy (JStr "admin123") = true /\
  exists r d,
    network (env admin_found) 0 = Responded r /\
    status_code r = 200%Z /\
    json r = Some (JDict d) /\
    py_eq (get d "password") (JStr "admin123") = true.
Proof.
  apply (login_requires_matching_password
           [("username", JStr "admin"); ("password", JStr "admin123")] admin_found
           (JDict [("token", JStr "token"); ("expires_in", JInt 1800)])).
  reflexivity.
Defined.


(* ------------------------------------------------------------------ *)
(** ** The app service and its collaborators *)

(** X11.  An app handler calls the db service only after the auth service has
    answered 200 to the token validation call of that request. *)
Theorem storage_call_needs_validated_token (req : App.Request) (w : World) :
  filter to_db (http_calls (trace (App.handle req w))) <> [] ->
  not_ (App.authorization_of req) = false /\
  exists r, network (env w) (calls w) = Responded r /\ status_code r = 200%Z.
Proof.
  intros H.
  destruct (not_ (App.authorization_of req)) eqn:Ha.
  { exfalso. apply H. destruct req; simpl in Ha; settle; reflexivity. }
  split; [reflexivity|].
  destruct (network (env w) (calls w)) as [r|k] eqn:Hn.
  2:{ exfalso. apply H. destruct req; simpl in Ha; settle; reflexivity. }
  exists r. split; [reflexivity|].
  destruct (status_code r =? 200)%Z eqn:Hs; [now apply Z.eqb_eq|].
  exfalso. apply H. destruct req; simpl in Ha; settle; reflexivity.
Qed.

Lemma storage_call_needs_validated_token_witness :
  not_ (Some "Bearer token") = false /\
  exists r, network (env item_missing) 0 = Responded r /\ status_code r = 200%Z.
Proof.
  apply (storage_call_needs_validated_token
           (App.GetData "abc" (Some "Bearer token")) item_missing).
  vm_compute. discriminate.
Defined.

(** X12.  The presets [list_presets] announces are the presets [get_preset_data]
    serves: for an authorized request, [list_presets] lists the names of
    [preset_data] in order, and [get_preset_data] answers 200 for exactly
    those names and 404 for every other. *)
Theorem listed_presets_are_served
    (preset_id : string) (authorization : option string) (w : World) (r : Response) :
  not_ authorization = false ->
  network (env w) (calls w) = Responded r ->
  status_code r = 200%Z ->
  (exists description,
     result (App.list_presets authorization w) =
     Ok (JDict [("available_presets", JList (map JStr preset_names));
                ("description", description)])) /\
  http_status (result (App.get_preset_data preset_id authorization w)) =
    (if existsb (String.eqb preset_id) preset_names then 200 else 404)%Z.
Proof.
  intros Ha Hn Hs. apply Z.eqb_eq in Hs. split.
  - eexists. settle. reflexivity.
  - settle. unfold preset_names, App.preset_data. simpl.
    destruct (preset_id =? "welcome")%string; [reflexivity|].
    destruct (preset_id =? "status")%string; [reflexivity|].
    destruct (preset_id =? "info")%string; reflexivity.
Qed.

Lemma listed_presets_are_served_witness :
  (exists description,
     result (App.list_presets (Some "Bearer token") all_up) =
     Ok (JDict [("available_presets", JList [JStr "welcome"; JStr "status"; JStr "info"]);
                ("description", description)])) /\
  http_status (result (App.get_preset_data "status" (Some "Bearer token") all_up)) = 200%Z.
Proof.
  apply (listed_presets_are_served "status" (Some "Bearer token") all_up
           (mkResponse 200 (Some (JDict [("valid", JBool true)]))));
    reflexivity.
Defined.


(* ------------------------------------------------------------------ *)
(** ** The item endpoints of db.py *)

Lemma has_item_find id d :
  has_item id d = false -> find (fun r => String.eqb (row_id r) id) (items d) = None.
Proof.
  unfold has_item. induction (items d) as [|r rs IH]; simpl; [reflexivity|].
  destruct (row_id r =? id)%string; [discriminate|]. exact IH.
Qed.

Lemma find_app_new {X} (f : X -> bool) xs x :
  find f xs = None -> f x = true -> find f (xs ++ [x]) = Some x.
Proof.
  induction xs as [|y ys IH]; simpl; intros Hn Hx.
  - now rewrite Hx.
  - destruct (f y); [discriminate|]. now apply IH.
Qed.

Lemma find_new_item (d : Database) id data c u :
  has_item id d = false ->
  find (fun r => String.eqb (row_id r) id) (items d ++ [mkItem id data c u])
  = Some (mkItem id data c u).
Proof.
  intros H. apply find_app_new; [now apply has_item_find|]. apply String.eqb_refl.
Qed.

Lemma no_fault_at w n i : no_fault w n -> i < n -> sqlite_fault (env w) (i + sqlite_ops w) = None.
Proof. intros H. apply H. Qed.

(** Turns [no_fault w n] into one fact per operation. *)
Ltac use_no_fault H :=
  let use i := (let F := fresh "F" in
                assert (F := H i); simpl Nat.add in F;
                first [ specialize (F ltac:(lia)) | clear F ]) in
  use 0; use 1; use 2; use 3; use 4; use 5.

(** X13.  What [store_data] stores, [retrieve_data] returns: after a store that
    meets no sqlite3 fault and draws an unused id, retrieving that id
    answers 200 with the stored dictionary and the two time stamps of the
    insertion. *)
Theorem store_then_retrieve
    (data : Json) (a a' : option string) (w : World) :
  not_ a = false -> not_ a' = false ->
  no_fault w 5 ->
  has_item (uuid4 (env w) (uuids w)) (committed w) = false ->
  json_loads (env w) (json_dumps (env w) data) = Some data ->
  let id := uuid4 (env w) (uuids w) in
  let stored := Db.store_data data a w in
  result stored = Ok (JDict [("id", JStr id); ("status", JStr "stored");
                             ("created_at", JNat (2 + now w))]) /\
  result (Db.retrieve_data id a' (final stored)) =
    Ok (JDict [("id", JStr id); ("data", data);
               ("created_at", JNat (now w)); ("updated_at", JNat (1 + now w))]).
Proof.
  intros Ha Ha' Hf Hnew Hjson. use_no_fault Hf.
  cbv zeta. destruct (0 <? ARTIFICIAL_LATENCY_MS (env w))%Z eqn:Hl.
  all: split; [settle_all; reflexivity|].
  all: settle_all.
  all: rewrite find_new_item by exact Hnew.
  all: settle_all; unfold Db.row_json, loads_or_text; cbn [row_id row_data row_created_at row_updated_at];
       rewrite Hjson; reflexivity.
Qed.

Lemma store_then_retrieve_witness :
  let stored := Db.store_data (JDict [("name", JStr "x")]) (Some "Bearer token") healthy_db in
  result stored = Ok (JDict [("id", JStr "5f0c"); ("status", JStr "stored");
                             ("created_at", JNat 2)]) /\
  result (Db.retrieve_data "5f0c" (Some "anything") (final stored)) =
    Ok (JDict [("id", JStr "5f0c"); ("data", JDict [("name", JStr "x")]);
               ("created_at", JNat 0); ("updated_at", JNat 1)]).
Proof.
  apply (store_then_retrieve (JDict [("name", JStr "x")]) (Some "Bearer token")
           (Some "anything") healthy_db).
  - reflexivity.
  - reflexivity.
  - intros i Hi. cbv. reflexivity.
  - reflexivity.
  - reflexivity.
Defined.

Lemma database_eta d : mkDatabase (items d) (users d) = d.
Proof. now destruct d. Qed.

Lemma filter_none_length {X} (f : X -> bool) l :
  (List.length (filter f l) =? 0)%nat = true -> filter (fun x => negb (f x)) l = l.
Proof.
  induction l as [|x l IH]; simpl; [reflexivity|].
  destruct (f x); simpl; [discriminate|]. intros H. now rewrite IH.
Qed.

Lemma filter_some_length {X} (f : X -> bool) l :
  (List.length (filter f l) =? 0)%nat = false -> existsb f l = true.
Proof.
  induction l as [|x l IH]; simpl; [discriminate|].
  destruct (f x); simpl; [reflexivity|]. exact IH.
Qed.

Lemma existsb_filter_negb {X} (f : X -> bool) l :
  existsb f (filter (fun x => negb (f x)) l) = false.
Proof.
  induction l as [|x l IH]; simpl; [reflexivity|].
  destruct (f x) eqn:E; simpl; [exact IH|]. now rewrite E.
Qed.

Lemma store_data_run (data : Json) (authorization : option string) (w : World) :
  let run := Db.store_data data authorization w in
  let id := uuid4 (env w) (uuids w) in
  match result run with
  | Ok j =>
      j = JDict [("id", JStr id); ("status", JStr "stored");
                 ("created_at", JNat (2 + now w))] /\
      has_item id (committed w) = false /\
      committed (final run) =
        mkDatabase (items (committed w)
                    ++ [mkItem id (json_dumps (env w) data) (now w) (1 + now w)])
                   (users (committed w))
  | Raise _ => committed (final run) = committed w
  end.
Proof.
  explore; try reflexivity; repeat split; reflexivity.
Qed.

(** X14.  [store_data] is all or nothing: when it returns it has added exactly
    one row, under the id it reports and that no row had, behind the rows
    there were; when it raises, whatever the reason, the database is as it
    was. *)
Theorem store_data_adds_one_row_or_nothing
    (data : Json) (authorization : option string) (w : World) :
  let run := Db.store_data data authorization w in
  let id := uuid4 (env w) (uuids w) in
  match result run with
  | Ok j =>
      j = JDict [("id", JStr id); ("status", JStr "stored");
                 ("created_at", JNat (2 + now w))] /\
      has_item id (committed w) = false /\
      committed (final run) =
        mkDatabase (items (committed w)
                    ++ [mkItem id (json_dumps (env w) data) (now w) (1 + now w)])
                   (users (committed w))
  | Raise _ => committed (final run) = committed w
  end.
Proof. exact (store_data_run data authorization w). Qed.

Lemma delete_data_run (item_id : string) (authorization : option string) (w : World) :
  let run := Db.delete_data item_id authorization w in
  match result run with
  | Ok _ =>
      (List.length (filter (fun r => String.eqb (row_id r) item_id)
                           (items (committed w))) =? 0)%nat = false /\
      committed (final run) =
        mkDatabase (filter (fun r => negb (String.eqb (row_id r) item_id))
                           (items (committed w)))
                   (users (committed w))
  | Raise _ => committed (final run) = committed w
  end.
Proof.
  explore; try reflexivity; try (split; reflexivity).
  all: match goal with
       | H : (_ =? 0)%nat = true |- _ =>
           rewrite (filter_none_length _ _ H); apply database_eta
       end.
Qed.

(** X15.  [delete_data] removes the item or nothing: when it returns, the item
    was there and is gone and every other row is kept; when it raises,
    with 404 for an unknown id or for any other reason, the database is as
    it was. *)
Theorem delete_data_removes_the_item_or_nothing
    (item_id : string) (authorization : option string) (w : World) :
  let run := Db.delete_data item_id authorization w in
  match result run with
  | Ok _ =>
      has_item item_id (committed w) = true /\
      has_item item_id (committed (final run)) = false /\
      committed (final run) =
        mkDatabase (filter (fun r => negb (String.eqb (row_id r) item_id))
                           (items (committed w)))
                   (users (committed w))
  | Raise _ => committed (final run) = committed w
  end.
Proof.
  pose proof (delete_data_run item_id authorization w) as H. cbv zeta in *.
  destruct (result (Db.delete_data item_id authorization w)); [|exact H].
  destruct H as [Hn Hc]. rewrite Hc. unfold has_item. cbn [items].
  split; [exact (filter_some_length _ _ Hn)|].
  split; [apply existsb_filter_negb | reflexivity].
Qed.

(* ------------------------------------------------------------------ *)
(** ** Users of db.py *)

(** [explore], splitting also on the exception an [except] clause is
    offered. *)
Ltac exception_step :=
  match goal with
  | e : Exn |- context [match ?e' with HTTPException _ _ => _ | _ => _ end] =>
      constr_eq e e'; destruct e
  end.

Ltac explore_all := run_all; repeat (first [explore_step | exception_step]; run_all).

Lemma create_user_run (user_data : list (string * Json)) (w : World) :
  let run := Db.create_user user_data w in
  match result run with
  | Ok j =>
      exists u p,
        sqlite_bind (env w) (get user_data "username") = Ok u /\
        sqlite_bind (env w) (get user_data "password") = Ok p /\
        existsb (fun r => String.eqb (fst r) u) (users (committed w)) = false /\
        j = JDict [("username", get user_data "username");
                   ("status", JStr "created");
                   ("created_at", JNat (now w))] /\
        committed (final run) =
          mkDatabase (items (committed w)) (users (committed w) ++ [(u, p)])
  | Raise _ => committed (final run) = committed w
  end.
Proof.
  explore_all; try reflexivity.
  all: eexists; eexists; repeat split; first [reflexivity | eassumption].
Qed.

(** X16.  [create_user] is all or nothing: when it returns, the name was not
    taken and exactly one user was added, with the name and the password
    of the request; when it raises, whatever the reason, the database is
    as it was. *)
Theorem create_user_adds_one_user_or_nothing
    (user_data : list (string * Json)) (w : World) :
  let run := Db.create_user user_data w in
  match result run with
  | Ok _ =>
      exists u p,
        sqlite_bind (env w) (get user_data "username") = Ok u /\
        sqlite_bind (env w) (get user_data "password") = Ok p /\
        password_of u (committed w) = None /\
        committed (final run) =
          mkDatabase (items (committed w)) (users (committed w) ++ [(u, p)])
  | Raise _ => committed (final run) = committed w
  end.
Proof.
  pose proof (create_user_run user_data w) as H. cbv zeta in *.
  destruct (result (Db.create_user user_data w)); [|exact H].
  destruct H as [u [p [Hu [Hp [Hnew [_ Hc]]]]]]. exists u, p.
  repeat split; try assumption.
  unfold password_of.
  destruct (find (fun u0 => String.eqb (fst u0) u) (users (committed w))) eqn:Hf;
    [|reflexivity].
  apply find_some in Hf. destruct Hf as [Hin Heq].
  assert (existsb (fun r => String.eqb (fst r) u) (users (committed w)) = true) as Hex
    by (apply existsb_exists; eauto).
  congruence.
Qed.

Lemma existsb_find_none {X} (f : X -> bool) l : find f l = None -> existsb f l = false.
Proof.
  induction l as [|x l IH]; simpl; [reflexivity|].
  destruct (f x); [discriminate|]. exact IH.
Qed.

Lemma existsb_find_some {X} (f : X -> bool) l x : find f l = Some x -> existsb f l = true.
Proof.
  induction l as [|y l IH]; simpl; [discriminate|].
  destruct (f y); [reflexivity|]. exact IH.
Qed.

Lemma password_of_none u d :
  password_of u d = None -> find (fun r => String.eqb (fst r) u) (users d) = None.
Proof. unfold password_of. now destruct (find _ _). Qed.

Lemma password_of_some u d p :
  password_of u d = Some p ->
  exists r, find (fun r => String.eqb (fst r) u) (users d) = Some r.
Proof. unfold password_of. destruct (find _ _) as [r|]; [eauto|discriminate]. Qed.

(** X17.  A user that [create_user] creates, [get_user] finds: when the name is
    free, both fields are given and bind to text, and no sqlite3 fault is
    met, [create_user] answers 200 and [get_user] then answers 200 for
    that name with the password of the request. *)
Theorem create_then_get_user
    (user_data : list (string * Json)) (u p : string) (w : World) :
  truthy (get user_data "username") = true ->
  truthy (get user_data "password") = true ->
  sqlite_bind (env w) (get user_data "username") = Ok u ->
  sqlite_bind (env w) (get user_data "password") = Ok p ->
  no_fault w 5 ->
  password_of u (committed w) = None ->
  let created := Db.create_user user_data w in
  result created = Ok (JDict [("username", get user_data "username");
                              ("status", JStr "created");
                              ("created_at", JNat (now w))]) /\
  result (Db.get_user u (final created)) =
    Ok (JDict [("username", JStr u); ("password", JStr p)]).
Proof.
  intros Hu Hp Hbu Hbp Hf Hfree. use_no_fault Hf.
  apply password_of_none in Hfree.
  pose proof (existsb_find_none _ _ Hfree) as Hex.
  assert (find (fun r => String.eqb (fst r) u) (users (committed w) ++ [(u, p)])
          = Some (u, p)) as Hnew
    by (apply find_app_new; [exact Hfree | apply String.eqb_refl]).
  cbv zeta. destruct (0 <? ARTIFICIAL_LATENCY_MS (env w))%Z eqn:Hl.
  all: eassert (Db.create_user user_data w = _) as -> by (settle_all; reflexivity).
  all: cbn [result final]; split; [reflexivity|]; settle_all; reflexivity.
Qed.

Lemma create_then_get_user_witness :
  let created :=
    Db.create_user [("username", JStr "eve"); ("password", JStr "pw")] healthy_db in
  result created = Ok (JDict [("username", JStr "eve"); ("status", JStr "created");
                              ("created_at", JNat 0)]) /\
  result (Db.get_user "eve" (final created)) =
    Ok (JDict [("username", JStr "eve"); ("password", JStr "pw")]).
Proof.
  apply (create_then_get_user [("username", JStr "eve"); ("password", JStr "pw")]
           "eve" "pw" healthy_db).
  - reflexivity.
  - reflexivity.
  - reflexivity.
  - reflexivity.
  - intros i Hi. cbv. reflexivity.
  - reflexivity.
Defined.

(** X18.  A name that is taken is refused: [create_user] answers 409 for it,
    when both fields are given and bind to text and no sqlite3 fault is
    met, and the stored password stays. *)
Theorem create_user_refuses_a_taken_name
    (user_data : list (string * Json)) (u p p0 : string) (w : World) :
  truthy (get user_data "username") = true ->
  truthy (get user_data "password") = true ->
  sqlite_bind (env w) (get user_data "username") = Ok u ->
  sqlite_bind (env w) (get user_data "password") = Ok p ->
  no_fault w 2 ->
  password_of u (committed w) = Some p0 ->
  let run := Db.create_user user_data w in
  result run = Raise (HTTPException 409 "User already exists") /\
  password_of u (committed (final run)) = Some p0.
Proof.
  intros Hu Hp Hbu Hbp Hf Htaken. use_no_fault Hf.
  destruct (password_of_some _ _ _ Htaken) as [r Hr].
  pose proof (existsb_find_some _ _ _ Hr) as Hex.
  cbv zeta. destruct (0 <? ARTIFICIAL_LATENCY_MS (env w))%Z eqn:Hl.
  all: eassert (Db.create_user user_data w = _) as -> by (settle_all; reflexivity).
  all: cbn [result final committed]; split; [reflexivity | exact Htaken].
Qed.

Lemma create_user_refuses_a_taken_name_witness :
  let run :=
    Db.create_user [("username", JStr "admin"); ("password", JStr "pw")] healthy_db in
  result run = Raise (HTTPException 409 "User already exists") /\
  password_of "admin" (committed (final run)) = Some "admin123"%string.
Proof.
  apply (create_user_refuses_a_taken_name
           [("username", JStr "admin"); ("password", JStr "pw")]
           "admin" "pw" "admin123" healthy_db).
  - reflexivity.
  - reflexivity.
  - reflexivity.
  - reflexivity.
  - intros i Hi. cbv. reflexivity.
  - reflexivity.
Defined.

(* ------------------------------------------------------------------ *)
(** ** The Authorization header at the db service *)

(** X19.  An item endpoint of the db service asked without an Authorization
    header, or with an empty one, answers 401 before it touches sqlite3:
    no operation is attempted and the database is as it was. *)
Theorem db_item_endpoints_need_a_header
    (r : Db.Request) (authorization : option string) (w : World) :
  item_authorization r = Some authorization ->
  not_ authorization = true ->
  let run := Db.handle r w in
  result run = Raise (HTTPException 401 "Missing authorization header") /\
  sqlite_ops (final run) = sqlite_ops w /\
  committed (final run) = committed w /\
  Forall (fun ev => is_connect ev = false) (trace run).
Proof.
  intros Hr Ha.
  destruct r; try discriminate Hr; injection Hr as ->.
  all: settle_all; repeat split; repeat constructor.
Qed.

Lemma db_item_endpoints_need_a_header_witness :
  let run := Db.handle (Db.DeleteData "5f0c" None) healthy_db in
  result run = Raise (HTTPException 401 "Missing authorization header") /\
  sqlite_ops (final run) = sqlite_ops healthy_db /\
  committed (final run) = committed healthy_db /\
  Forall (fun ev => is_connect ev = false) (trace run).
Proof.
  apply (db_item_endpoints_need_a_header (Db.DeleteData "5f0c" None) None healthy_db).
  - reflexivity.
  - reflexivity.
Defined.

(** X20.  The db service checks that the header is there and never what it
    says: a request runs the same with any two headers that are not
    empty. *)
Theorem db_never_reads_the_header
    (r : Db.Request) (a a' : option string) (w : World) :
  not_ a = false -> not_ a' = false ->
  Db.handle (with_authorization a r) w = Db.handle (with_authorization a' r) w.
Proof.
  intros Ha Ha'.
  destruct r; cbn [with_authorization]; try reflexivity.
  all: unfold Db.handle, Db.store_data, Db.retrieve_data, Db.list_items, Db.delete_data,
         Db.require_authorization; rewrite Ha, Ha'; reflexivity.
Qed.

Lemma db_never_reads_the_header_witness :
  Db.handle (Db.StoreData (JDict [("name", JStr "x")]) (Some "Bearer token")) healthy_db =
  Db.handle (Db.StoreData (JDict [("name", JStr "x")]) (Some "no token at all")) healthy_db.
Proof.
  apply (db_never_reads_the_header (Db.StoreData (JDict [("name", JStr "x")]) None)
           (Some "Bearer token") (Some "no token at all") healthy_db).
  - reflexivity.
  - reflexivity.
Defined.

(* ------------------------------------------------------------------ *)
(** ** What the db service keeps *)

Lemma gets_leave_the_database (r : Db.Request) (w : World) :
  is_get r = true -> committed (final (Db.handle r w)) = committed w.
Proof.
  intros Hr. destruct r; try discriminate Hr; clear Hr.
  all: explore_all; reflexivity.
Qed.

(** X21.  The endpoints declared with [@app.get] only read: whatever happens,
    the database is as it was. *)
Theorem get_endpoints_only_read (r : Db.Request) (w : World) :
  is_get r = true -> committed (final (Db.handle r w)) = committed w.
Proof. apply gets_leave_the_database. Qed.

Lemma get_endpoints_only_read_witness :
  committed (final (Db.handle (Db.ListItems (Some "Bearer token") 10) healthy_db))
  = committed healthy_db.
Proof.
  apply (get_endpoints_only_read (Db.ListItems (Some "Bearer token") 10) healthy_db).
  reflexivity.
Defined.

(* ------------------------------------------------------------------ *)
(** ** Unique keys *)

Lemma NoDup_snoc {X} (l : list X) (x : X) : NoDup l -> ~ In x l -> NoDup (l ++ [x]).
Proof.
  induction 1 as [|y l Hy Hl IH]; simpl; intros Hx.
  - constructor; [intros []|constructor].
  - constructor.
    + rewrite in_app_iff. simpl. intros [H|[H|[]]]; [now apply Hy|].
      apply Hx. now left.
    + apply IH. intros H. apply Hx. now right.
Qed.

Lemma NoDup_map_filter {X Y} (f : X -> Y) (p : X -> bool) (l : list X) :
  NoDup (map f l) -> NoDup (map f (filter p l)).
Proof.
  induction l as [|x l IH]; simpl; intros H; [constructor|].
  inversion H as [|? ? Hx Hl]; subst.
  destruct (p x); simpl; [|now apply IH].
  constructor; [|now apply IH].
  rewrite in_map_iff. intros [y [Hy Hin]]. apply Hx. rewrite in_map_iff.
  exists y. split; [exact Hy|]. apply filter_In in Hin. tauto.
Qed.

Lemma existsb_eqb_false {X} (key : X -> string) (k : string) (l : list X) :
  existsb (fun r => String.eqb (key r) k) l = false -> ~ In k (map key l).
Proof.
  intros H Hin. apply in_map_iff in Hin. destruct Hin as [r [Hk Hr]].
  assert (existsb (fun r => String.eqb (key r) k) l = true) as Ht.
  { apply existsb_exists. exists r. split; [exact Hr|]. subst k. apply String.eqb_refl. }
  congruence.
Qed.

(** X22.  No request makes two items share an id or two users a name: every
    handler of the db service keeps the keys unique. *)
Theorem keys_stay_unique (r : Db.Request) (w : World) :
  keys_unique (committed w) -> keys_unique (committed (final (Db.handle r w))).
Proof.
  intros [Hi Hu].
  destruct r as [| |data a|item_id a|a limit|item_id a|username|user_data].
  1,2,4,5,7: rewrite gets_leave_the_database by reflexivity; now split.
  - pose proof (store_data_run data a w) as H. cbv zeta in H.
    change (Db.handle (Db.StoreData data a)) with (Db.store_data data a).
    destruct (result (Db.store_data data a w)); [|rewrite H; now split].
    destruct H as [_ [Hnew ->]]. split; cbn [items users]; [|exact Hu].
    rewrite map_app. apply NoDup_snoc; [exact Hi|].
    now apply (existsb_eqb_false row_id).
  - pose proof (delete_data_run item_id a w) as H. cbv zeta in H.
    change (Db.handle (Db.DeleteData item_id a)) with (Db.delete_data item_id a).
    destruct (result (Db.delete_data item_id a w)); [|rewrite H; now split].
    destruct H as [_ ->]. split; cbn [items users]; [|exact Hu].
    now apply NoDup_map_filter.
  - pose proof (create_user_run user_data w) as H. cbv zeta in H.
    change (Db.handle (Db.CreateUser user_data)) with (Db.create_user user_data).
    destruct (result (Db.create_user user_data w)); [|rewrite H; now split].
    destruct H as [u [p [_ [_ [Hnew [_ ->]]]]]]. split; cbn [items users]; [exact Hi|].
    rewrite map_app. apply NoDup_snoc; [exact Hu|].
    now apply (existsb_eqb_false fst).
Qed.

Lemma keys_stay_unique_witness :
  keys_unique
    (committed (final (Db.handle (Db.StoreData (JDict [("name", JStr "x")])
                                               (Some "Bearer token")) healthy_db))).
Proof.
  apply (keys_stay_unique
           (Db.StoreData (JDict [("name", JStr "x")]) (Some "Bearer token")) healthy_db).
  split; cbn; repeat constructor; cbn; intuition discriminate.
Defined.

(* ------------------------------------------------------------------ *)
(** ** Listing *)








(* ------------------------------------------------------------------ *)
(** ** Connections *)

(** X24.  A connection that was opened is closed, whatever happens after: when
    connecting does not fail, a request closes as many connections as it
    opens, at most one, and leaves nothing uncommitted behind. *)
Theorem opened_connection_is_closed (r : Db.Request) (w : World) :
  sqlite_fault (env w) (sqlite_ops w) = None ->
  session w = committed w ->
  let run := Db.handle r w in
  filter is_close (trace run) = map (fun _ => DbClose) (filter is_connect (trace run)) /\
  List.length (filter is_connect (trace run)) <= 1 /\
  session (final run) = committed (final run).
Proof.
  intros H Hs. cbv zeta.
  set (P := fun run : Run Json =>
              filter is_close (trace run)
              = map (fun _ => DbClose) (filter is_connect (trace run)) /\
              List.length (filter is_connect (trace run)) <= 1 /\
              session (final run) = committed (final run)).
  change (P (Db.handle r w)).
  destruct r.
  all: explore_all; try congruence.
  all: subst P; cbn; repeat split; first [exact Hs | lia].
Qed.

Lemma opened_connection_is_closed_witness :
  let run := Db.handle (Db.GetUser "nobody") healthy_db in
  filter is_close (trace run) = map (fun _ => DbClose) (filter is_connect (trace run)) /\
  List.length (filter is_connect (trace run)) <= 1 /\
  session (final run) = committed (final run).
Proof.
  apply (opened_connection_is_closed (Db.GetUser "nobody") healthy_db).
  - reflexivity.
  - reflexivity.
Defined.

(* ------------------------------------------------------------------ *)
(** ** Metric observations of auth.py and db.py *)

Ltac explore_paths :=
  run_all; repeat (first [explore_step | exception_step | take_token_of]; run_all).

(** X25.  The auth service observes its requests as the app service does: a
    request to [login], [validate_token] or [token_info] records one count
    observation, first and tagged with method and route, and one duration
    observation, tagged with status ["200"] besides, when the handler
    returns and none when it raises; [root] and [health] record nothing. *)
Theorem auth_counts_always_times_on_success (r : Auth.Request) (w : World) :
  let run := Auth.handle r w in
  metrics (trace run) =
    match auth_tags r with
    | None => []
    | Some tags =>
        CounterAdd "http_requests_total" 1 tags ::
        match result run with
        | Ok _ => [HistogramRecord "http_request_duration_seconds"
                     (tags ++ [("status", "200")])]
        | Raise _ => []
        end
    end.
Proof.
  cbv zeta.
  set (P := fun (tags : option Tags) (run : Run Json) =>
              metrics (trace run) =
              match tags with
              | None => []
              | Some tags =>
                  CounterAdd "http_requests_total" 1 tags ::
                  match result run with
                  | Ok _ => [HistogramRecord "http_request_duration_seconds"
                               (tags ++ [("status", "200")])]
                  | Raise _ => []
                  end
              end).
  change (P (auth_tags r) (Auth.handle r w)).
  destruct r; cbn [auth_tags].
  all: explore_paths; reflexivity.
Qed.

(** X26.  The db service records two observations of each kind: a request to
    one of its six data endpoints counts the request and the database
    operation, in that order and before any duration, and records the
    duration of the operation and of the request when the handler
    returns, none when it raises; [root] and [health] record nothing. *)
Theorem db_counts_always_times_on_success (r : Db.Request) (w : World) :
  let run := Db.handle r w in
  metrics (trace run) =
    match db_tags r with
    | None => []
    | Some (request, operation) =>
        [CounterAdd "http_requests_total" 1 request;
         CounterAdd "db_operations_total" 1 operation] ++
        match result run with
        | Ok _ => [HistogramRecord "db_operation_duration_seconds" operation;
                   HistogramRecord "http_request_duration_seconds"
                     (request ++ [("status", "200")])]
        | Raise _ => []
        end
    end.
Proof.
  cbv zeta.
  set (P := fun (tags : option (Tags * Tags)) (run : Run Json) =>
              metrics (trace run) =
              match tags with
              | None => []
              | Some (request, operation) =>
                  [CounterAdd "http_requests_total" 1 request;
                   CounterAdd "db_operations_total" 1 operation] ++
                  match result run with
                  | Ok _ => [HistogramRecord "db_operation_duration_seconds" operation;
                             HistogramRecord "http_request_duration_seconds"
                               (request ++ [("status", "200")])]
                  | Raise _ => []
                  end
              end).
  change (P (db_tags r) (Db.handle r w)).
  destruct r; cbn [db_tags].
  all: explore_paths; reflexivity.
Qed.

(* ------------------------------------------------------------------ *)
(** ** Deleting and retrieving *)

(** X27.  What [delete_data] deleted cannot be retrieved: after a delete that
    answered 200, and without a sqlite3 fault, [retrieve_data] answers 404
    for that id. *)
Theorem delete_then_retrieve
    (item_id : string) (a a' : option string) (w : World) (j : Json) :
  not_ a' = false ->
  no_fault w 5 ->
  let deleted := Db.delete_data item_id a w in
  result deleted = Ok j ->
  result (Db.retrieve_data item_id a' (final deleted)) =
    Raise (HTTPException 404 "Item not found").
Proof.
  intros Ha' Hf. use_no_fault Hf. cbv zeta.
  pose proof (existsb_filter_negb (fun r => String.eqb (row_id r) item_id)
                (items (committed w))) as Hgone.
  apply (has_item_find item_id (mkDatabase _ (users (committed w)))) in Hgone.
  cbn [items] in Hgone.
  destruct (not_ a) eqn:Ha;
    [intros H; exfalso; revert H; settle_all; discriminate|].
  destruct (0 <? ARTIFICIAL_LATENCY_MS (env w))%Z eqn:Hl.
  all: destruct (List.length (filter (fun r => String.eqb (row_id r) item_id)
                                     (items (committed w))) =? 0)%nat eqn:Hn;
    [intros H; exfalso; revert H; settle_all; discriminate|].
  all: eassert (Db.delete_data item_id a w = _) as -> by (settle_all; reflexivity).
  all: intros _; cbn [final]; settle_all; reflexivity.
Qed.

Lemma delete_then_retrieve_witness :
  let w := final (Db.store_data (JDict [("name", JStr "x")]) (Some "Bearer token")
                    healthy_db) in
  result (Db.retrieve_data "5f0c" (Some "Bearer token")
            (final (Db.delete_data "5f0c" (Some "Bearer token") w))) =
    Raise (HTTPException 404 "Item not found").
Proof.
  apply (delete_then_retrieve "5f0c" (Some "Bearer token") (Some "Bearer token")
           (final (Db.store_data (JDict [("name", JStr "x")]) (Some "Bearer token")
                     healthy_db))
           (JDict [("id", JStr "5f0c"); ("status", JStr "deleted")])).
  - reflexivity.
  - intros i Hi. cbv. reflexivity.
  - reflexivity.
Defined.

(* ------------------------------------------------------------------ *)
(** ** The statistics of the traffic generator *)

Section Statistics.

Variable Seconds : Type.
Variable zero : Seconds.



End Statistics.

(* ------------------------------------------------------------------ *)
(** ** The retry loop of lab4 *)

Lemma retry_gives_up (cache : nat -> Lab4.Incr) (retries attempt : nat) :
  exists k,
    k <= retries /\
    (forall i, i < k -> exists m, cache (attempt + i) = Lab4.ConnectionError m) /\
    snd (Lab4.retry cache retries attempt) =
      List.concat (repeat [Lab4.IncrHits; Lab4.Sleep] k) ++ [Lab4.IncrHits] /\
    fst (Lab4.retry cache retries attempt) =
      match cache (attempt + k) with
      | Lab4.Hits n => Lab4.Returned n
      | Lab4.ConnectionError m => Lab4.Raised m
      end /\
    (forall m, cache (attempt + k) = Lab4.ConnectionError m -> k = retries).
Proof.
  revert attempt. induction retries as [|r IH]; intros attempt.
  - exists 0. rewrite Nat.add_0_r. cbn [Lab4.retry].
    destruct (cache attempt) eqn:E; cbn [fst snd repeat List.concat app].
    all: split; [lia|]; split; [intros i Hi; lia|]; repeat split.
  - cbn [Lab4.retry]. destruct (cache attempt) eqn:E.
    + exists 0. rewrite Nat.add_0_r, E. cbn [fst snd repeat List.concat app].
      split; [lia|]; split; [intros i Hi; lia|]; repeat split.
      intros m Hm. discriminate Hm.
    + destruct (IH (S attempt)) as [k [Hk [Hfail [Ha [Ho Hlast]]]]].
      destruct (Lab4.retry cache r (S attempt)) as [o acts].
      cbn [fst snd] in *.
      exists (S k). replace (attempt + S k) with (S attempt + k) by lia.
      split; [lia|]. split; [|split; [|split]].
      * intros [|i] Hi.
        -- rewrite Nat.add_0_r. eauto.
        -- replace (attempt + S i) with (S attempt + i) by lia. apply Hfail. lia.
      * cbn [repeat List.concat app]. now rewrite Ha.
      * exact Ho.
      * intros m Hm. f_equal. now apply (Hlast m).
Qed.

(** X29.  [get_hit_count] asks the cache at most six times, sleeping after
    every connection error but the sixth: it returns the count of the
    first call that succeeds, and raises the connection error of the sixth
    call when the first six all fail. *)
Theorem get_hit_count_asks_six_times (cache : nat -> Lab4.Incr) :
  exists k,
    k <= 5 /\
    (forall i, i < k -> exists m, cache i = Lab4.ConnectionError m) /\
    snd (Lab4.get_hit_count cache) =
      List.concat (repeat [Lab4.IncrHits; Lab4.Sleep] k) ++ [Lab4.IncrHits] /\
    fst (Lab4.get_hit_count cache) =
      match cache k with
      | Lab4.Hits n => Lab4.Returned n
      | Lab4.ConnectionError m => Lab4.Raised m
      end /\
    (forall m, cache k = Lab4.ConnectionError m -> k = 5).
Proof. exact (retry_gives_up cache 5 0). Qed.
